(** * Incremental update, merge/dedup and bundle import of OHLCV candles

    A shallow embedding of the data core of the repository:
    - [src/utils/crypto_data_fetcher.py]  ([CryptoDataFetcher]: the chunked
      range fetcher, the resume planner of [update_symbols_to_now], the
      merge-and-dedup writer and the per-symbol manifest of [save_data]);
    - [scripts/import_binance_bundles.py] ([read_bundle_csv],
      [write_month_partition], the yearly roll-up of [main]);
    - [scripts/update_symbol_latest.py]   (the call with [days_back=None]).

    Modelling conventions.
    - A pandas frame indexed by [datetime] is a list of rows in file order;
      a row is its index value (an integer instant: milliseconds since the
      epoch in the fetcher, nanoseconds in the importer) and its candle.
    - Prices and volumes are IEEE-754 binary64 numbers, as numpy has them
      ([nan] is pandas' null).
    - Python exceptions are explicit: a computation that can raise returns
      an [outcome].
    - The exchange is a state machine behind [fetch_ohlcv]; the clock is
      [now_utc], the naive [datetime] that [datetime.utcnow()] returns, in
      microseconds.
    - A [Timestamp] or a [datetime] becomes integer milliseconds through
      [int(x.timestamp() * 1000)], a binary64 computation: [timestamp_ms]
      for the pandas [Timestamp] of an index, and [naive_timestamp_ms] for
      a naive [datetime], which Python reads in the local time zone of the
      process.  Instants stay inside the ranges of [datetime] and
      [Timestamp]. *)

From Stdlib Require Import String Ascii Floats.
From Stdlib Require Import ZArith List Bool Lia Sorted Permutation Relations.
From Stdlib Require Import Uint63.
Import ListNotations.

Local Open Scope Z_scope.

(** ** Exceptions *)

Inductive exn : Type :=
| TypeError
| IndexError
| RuntimeError.

Inductive outcome (A : Type) : Type :=
| Ok (a : A)
| Raise (e : exn).

Arguments Ok {A} a.
Arguments Raise {A} e.

Definition bind {A B : Type} (m : outcome A) (k : A -> outcome B) : outcome B :=
  match m with
  | Ok a => k a
  | Raise e => Raise e
  end.

Notation "x <- m ;; k" := (bind m (fun x => k))
  (at level 61, m at next level, right associativity).

(** ** Candles and frames *)

Record Candle : Type := mkCandle {
  open : float;
  high : float;
  low : float;
  close : float;
  volume : float;
  symbol : option string
}.

Definition Row : Type := (Z * Candle)%type.
Definition DataFrame : Type := list Row.

(** ** The pandas operations the code uses *)

Module Pandas.

(** [df.index] *)
Definition index (df : DataFrame) : list Z := map fst df.

(** [df.empty] *)
Definition empty (df : DataFrame) : bool :=
  match df with
  | [] => true
  | _ :: _ => false
  end.

(** [pd.concat(frames)] *)
Definition concat (frames : list DataFrame) : DataFrame := List.concat frames.

(** [df.index[0]] and [df.index[-1]]; both raise [IndexError] on an empty
    frame. *)
Definition index_first (df : DataFrame) : outcome Z :=
  match df with
  | [] => Raise IndexError
  | r :: _ => Ok (fst r)
  end.

Fixpoint index_last (df : DataFrame) : outcome Z :=
  match df with
  | [] => Raise IndexError
  | [r] => Ok (fst r)
  | _ :: rest => index_last rest
  end.

(** [idx.duplicated(keep='last')]: a position is marked when the same
    label occurs again further down. *)
Fixpoint duplicated_keep_last (idx : list Z) : list bool :=
  match idx with
  | [] => []
  | t :: rest => existsb (Z.eqb t) rest :: duplicated_keep_last rest
  end.

(** [df[mask]] for a boolean mask. *)
Fixpoint select (df : DataFrame) (mask : list bool) : DataFrame :=
  match df, mask with
  | r :: df', b :: mask' => if b then r :: select df' mask' else select df' mask'
  | _, _ => []
  end.

(** [df[~df.index.duplicated(keep='last')]] *)
Definition drop_index_duplicates (df : DataFrame) : DataFrame :=
  select df (map negb (duplicated_keep_last (index df))).

(** [df.sort_index()].  Every call in the code follows
    [drop_index_duplicates], so the labels are distinct and the result
    does not depend on the sorting algorithm ([sorted_index_unique]
    below); an insertion sort stands for it. *)
Fixpoint insert_row (r : Row) (sorted : DataFrame) : DataFrame :=
  match sorted with
  | [] => [r]
  | r' :: rest =>
      if fst r <=? fst r' then r :: sorted else r' :: insert_row r rest
  end.

Definition sort_index (df : DataFrame) : DataFrame :=
  fold_right insert_row [] df.

(** [df[df.index > t]] and [df[df.index <= t]] *)
Definition index_gt (t : Z) (df : DataFrame) : DataFrame :=
  filter (fun r => t <? fst r) df.

Definition index_le (t : Z) (df : DataFrame) : DataFrame :=
  filter (fun r => fst r <=? t) df.

(** [df['close'].iloc[0]] and [df['close'].iloc[-1]] on a non-empty
    frame; the default only fills the unreachable empty case. *)
Definition close_first (df : DataFrame) : float :=
  match df with
  | [] => nan
  | r :: _ => close (snd r)
  end.

Definition close_last (df : DataFrame) : float :=
  close_first (rev df).

End Pandas.

Import Pandas.

(** The rows a frame holds at one label. *)
Definition rows_at (t : Z) (df : DataFrame) : DataFrame :=
  filter (fun r => fst r =? t) df.

(** The last row of a frame, as a frame of at most one row. *)
Fixpoint final_row (df : DataFrame) : DataFrame :=
  match df with
  | [] => []
  | [r] => [r]
  | _ :: rest => final_row rest
  end.

(** Strictly increasing labels: no duplicate and no inversion. *)
Definition strictly_increasing (df : DataFrame) : Prop :=
  StronglySorted Z.lt (index df).

(** ** The merge-and-dedup writer *)

(** [update_symbols_to_now], lines 305-320: the chunks are concatenated,
    deduplicated and sorted, then merged with the stored file if there is
    one. *)
Definition combine_chunks (all_chunks : list DataFrame) : DataFrame :=
  sort_index (drop_index_duplicates (concat all_chunks)).

Definition merge_existing (existing combined_df : DataFrame) : DataFrame :=
  sort_index (drop_index_duplicates (concat [existing; combined_df])).

Definition update_merge (file : option DataFrame) (all_chunks : list DataFrame)
  : DataFrame :=
  let combined_df := combine_chunks all_chunks in
  match file with
  | Some existing => merge_existing existing combined_df
  | None => combined_df
  end.

(** [write_month_partition], lines 130-132. *)
Definition month_combined (existing df : DataFrame) : DataFrame :=
  let combined := if negb (empty existing) then concat [existing; df] else df in
  sort_index (drop_index_duplicates combined).

(** ** Python string operations used on timeframes, symbols and paths *)

Module Py.

(** [s.endswith(suffix)] *)
Definition endswith (s suffix : string) : bool :=
  let n := String.length s in
  let k := String.length suffix in
  (k <=? n)%nat && String.eqb (substring (n - k) k s) suffix.

(** [s.replace(c, '')] for a one-character [c] *)
Fixpoint remove_char (c : ascii) (s : string) : string :=
  match s with
  | EmptyString => EmptyString
  | String a rest =>
      if Ascii.eqb a c then remove_char c rest else String a (remove_char c rest)
  end.

Definition is_digit (a : ascii) : bool :=
  let n := nat_of_ascii a in
  (48 <=? n)%nat && (n <=? 57)%nat.

Fixpoint all_digits (s : string) : bool :=
  match s with
  | EmptyString => true
  | String a rest => is_digit a && all_digits rest
  end.

(** [s.isdigit()] on ASCII text: false on the empty string. *)
Definition isdigit (s : string) : bool :=
  match s with
  | EmptyString => false
  | _ => all_digits s
  end.

(** [int(s)] for a string of decimal digits *)
Fixpoint int_acc (acc : Z) (s : string) : Z :=
  match s with
  | EmptyString => acc
  | String a rest => int_acc (10 * acc + (Z.of_nat (nat_of_ascii a) - 48)) rest
  end.

Definition int (s : string) : Z := int_acc 0 s.

(** [s.split(sep)[0]] for a one-character separator *)
Fixpoint split_head (sep : ascii) (s : string) : string :=
  match s with
  | EmptyString => EmptyString
  | String a rest =>
      if Ascii.eqb a sep then EmptyString else String a (split_head sep rest)
  end.

End Py.

(** ** Python dicts, in insertion order *)

Module Dict.

Definition t (V : Type) : Type := list (string * V).

Fixpoint get {V : Type} (d : t V) (k : string) : option V :=
  match d with
  | [] => None
  | (k', v) :: rest => if String.eqb k k' then Some v else get rest k
  end.

(** [d[k] = v] *)
Fixpoint set {V : Type} (d : t V) (k : string) (v : V) : t V :=
  match d with
  | [] => [(k, v)]
  | (k', v') :: rest =>
      if String.eqb k k' then (k', v) :: rest else (k', v') :: set rest k v
  end.

(** [d.setdefault(k, default)] followed by an update of the entry *)
Definition update {V : Type} (d : t V) (k : string) (default : V) (f : V -> V)
  : t V :=
  match get d k with
  | Some v => set d k (f v)
  | None => set d k (f default)
  end.

(** [sorted(d.items())]: the keys are distinct, so the order is the one of
    the keys. *)
Fixpoint insert_item {V : Type} (kv : string * V) (sorted : t V) : t V :=
  match sorted with
  | [] => [kv]
  | kv' :: rest =>
      if String.leb (fst kv) (fst kv') then kv :: sorted
      else kv' :: insert_item kv rest
  end.

Definition sorted_items {V : Type} (d : t V) : t V :=
  fold_right insert_item [] d.

End Dict.

(** ** The fetcher: [CryptoDataFetcher] *)

Definition ms_per_hour : Z := 3600000.
Definition ms_per_day : Z := 86400000.
Definition us_per_ms : Z := 1000.
Definition us_per_day : Z := 86400000000.

(** [timedelta(days=days_back)], in microseconds.  The keyword accepts a
    number; [None] makes the constructor raise [TypeError]. *)
Definition timedelta_days (days_back : option Z) : outcome Z :=
  match days_back with
  | Some d => Ok (d * us_per_day)
  | None => Raise TypeError
  end.

(** *** From a [Timestamp] to integer milliseconds *)

(** An integer as a binary64 number; exact below [2^53]. *)
Definition float_of_Z (z : Z) : float :=
  if 0 <=? z then PrimFloat.of_uint63 (Uint63.of_Z z)
  else PrimFloat.opp (PrimFloat.of_uint63 (Uint63.of_Z (- z))).

(** [int(x)] of a finite float: the fraction is dropped. *)
Definition int_of_float (x : float) : Z :=
  match Prim2SF x with
  | S754_finite s m e =>
      let v := if 0 <=? e then Zpos m * 2 ^ e else Zpos m / 2 ^ (- e) in
      if s then - v else v
  | _ => 0
  end.

(** [ts.timestamp()] of the pandas [Timestamp] [t] milliseconds after the
    epoch, which is [round(value / 1e9, 6)] on its nanoseconds: for the
    instants of a series (within a century of the epoch) the binary64
    number nearest to [t / 1000]. *)
Definition timestamp_seconds (t : Z) : float := (float_of_Z t / 1000)%float.

(** [int(ts.timestamp() * 1000)], lines 181, 193, 269, 293 and 303.  The
    product is rounded a second time and can fall just short of [t]; it
    stays less than one millisecond away from it, so that dropping the
    fraction gives [t] or the millisecond next to it towards zero. *)
Definition timestamp_ms (t : Z) : Z :=
  let product := (timestamp_seconds t * 1000)%float in
  if 0 <=? t then
    if PrimFloat.ltb product (float_of_Z t) then t - 1 else t
  else
    if PrimFloat.ltb (float_of_Z t) product then t + 1 else t.

Arguments timestamp_ms : simpl never.

(** The [interval] of [update_symbols_to_now], lines 244-254. *)
Definition interval_ms (timeframe : string) : Z :=
  if Py.endswith timeframe "h" then
    let digits := Py.remove_char "h"%char timeframe in
    let n := if Py.isdigit digits then Py.int digits else 1 in
    n * ms_per_hour
  else if Py.endswith timeframe "d" then
    let digits := Py.remove_char "d"%char timeframe in
    let n := if Py.isdigit digits then Py.int digits else 1 in
    n * ms_per_day
  else
    ms_per_hour.

(** [datetime(now_utc.year, now_utc.month, now_utc.day)]: the midnight
    that starts the day of [now_utc]. *)
Definition start_of_today (now_utc : Z) : Z := now_utc - now_utc mod us_per_day.

Section Clock.

(** [int(dt.timestamp() * 1000)] for a naive [datetime] [dt], given in
    microseconds.  Python reads a naive [datetime] as local time, so the
    value depends on the time zone of the process; it is computed in
    binary64 like [timestamp_ms]. *)
Variable naive_timestamp_ms : Z -> Z.

(** The resume planner, lines 265-273: where the next fetch starts. *)
Definition resume_since (file : option DataFrame) (timeframe : string)
  (days_back : option Z) (overlap : Z) (now_utc : Z) : outcome Z :=
  match file with
  | Some existing =>
      last_ts <- index_last existing ;;
      let since_dt := last_ts - overlap * interval_ms timeframe in
      Ok (timestamp_ms since_dt)
  | None =>
      back <- timedelta_days days_back ;;
      let since_dt := now_utc - back in
      Ok (naive_timestamp_ms since_dt)
  end.

(** Lines 276-280: the end of the requested window. *)
Definition end_time (include_now : bool) (now_utc : Z) : Z :=
  if include_now then naive_timestamp_ms now_utc
  else naive_timestamp_ms (start_of_today now_utc - 1 * us_per_ms).

End Clock.

(** One candle as the exchange returns it:
    [[timestamp, open, high, low, close, volume]]. *)
Record Kline : Type := mkKline {
  k_timestamp : Z;
  k_open : float;
  k_high : float;
  k_low : float;
  k_close : float;
  k_volume : float
}.

Definition page_size : Z := 1000.

Section Fetcher.

(** The exchange behind [self.exchange.fetch_ohlcv(symbol, timeframe, since,
    limit)]: a state, and a call that answers with a page or fails. *)
Variable Exchange : Type.
Variable fetch_ohlcv :
  Exchange -> string -> string -> Z -> Z -> option (list Kline) * Exchange.

(** [fetch_ohlcv_safe]: a failed request and an empty answer both give the
    empty frame. *)
Definition fetch_ohlcv_safe (x : Exchange) (sym timeframe : string)
  (since limit : Z) : DataFrame * Exchange :=
  let (answer, x') := fetch_ohlcv x sym timeframe since limit in
  match answer with
  | None => ([], x')
  | Some ohlcv =>
      (map (fun k => (k_timestamp k,
                      mkCandle (k_open k) (k_high k) (k_low k) (k_close k)
                               (k_volume k) (Some sym))) ohlcv, x')
  end.

(** The [while True] loop of [fetch_historical_data] (lines 171-195) and of
    [update_symbols_to_now] (lines 287-303), which are the same text.  The
    loop has no bound of its own; [fuel] counts the iterations allowed and
    [None] means they were used up.  [last_ts] and the next
    [current_since] are both [int(df.index[-1].timestamp() * 1000)]. *)
Fixpoint fetch_loop (fuel : nat) (sym timeframe : string) (end_time_ms : Z)
  (x : Exchange) (current_since : Z) (all_chunks : list DataFrame)
  : option (list DataFrame * Exchange) :=
  match fuel with
  | O => None
  | S fuel' =>
      let (df, x') := fetch_ohlcv_safe x sym timeframe current_since page_size in
      match index_last df with
      | Raise _ => Some (all_chunks, x')            (* [if df.empty: break] *)
      | Ok last =>
          let last_ts := timestamp_ms last in
          if end_time_ms <=? last_ts then
            Some (all_chunks ++ [index_le end_time_ms df], x')
          else if Z.of_nat (List.length df) <? page_size then
            Some (all_chunks ++ [df], x')
          else
            fetch_loop fuel' sym timeframe end_time_ms x' (timestamp_ms last + 1)
                       (all_chunks ++ [df])
      end
  end.

End Fetcher.

Arguments fetch_ohlcv_safe {Exchange}.
Arguments fetch_loop {Exchange}.

(** The total return of both manifest writers of the fetcher (lines 367-372
    and 515-520).  numpy division does not raise, so the [except] branch is
    never taken on numeric closes. *)
Definition fetcher_total_return_pct (final_df : DataFrame) : option float :=
  if (2 <=? List.length final_df)%nat then
    Some ((close_last final_df / close_first final_df - 1) * 100)%float
  else None.

(** The summary fields of the per-symbol manifest.  The per-column
    statistics are written next to them and do not enter any of them. *)
Record SymbolManifest : Type := mkSymbolManifest {
  sm_symbol : string;
  sm_timeframe : string;
  sm_rows : Z;
  sm_start_date : Z;
  sm_end_date : Z;
  sm_total_return_pct : option float
}.

Definition symbol_manifest (sym timeframe : string) (final_df : DataFrame)
  : outcome SymbolManifest :=
  let total_return_pct := fetcher_total_return_pct final_df in
  start_date <- index_first final_df ;;
  end_date <- index_last final_df ;;
  Ok (mkSymbolManifest sym timeframe (Z.of_nat (List.length final_df))
        start_date end_date total_return_pct).

(** What one pass over a symbol leaves behind. *)
Record Written : Type := mkWritten {
  w_file : option DataFrame;
  w_final : option DataFrame;
  w_manifest : option SymbolManifest
}.

(** The manifest block of [update_symbols_to_now] sits inside [try]: a
    failure leaves the manifest unwritten. *)
Definition try_manifest (sym timeframe : string) (final_df : DataFrame)
  : option SymbolManifest :=
  match symbol_manifest sym timeframe final_df with
  | Ok m => Some m
  | Raise _ => None
  end.

(** Lines 305-327 and the manifest that follows: what is stored once the
    chunks are in. *)
Definition store_update (sym timeframe : string) (file : option DataFrame)
  (all_chunks : list DataFrame) : Written :=
  match all_chunks with
  | _ :: _ =>
      let final_df := update_merge file all_chunks in
      mkWritten (Some final_df) (Some final_df) (try_manifest sym timeframe final_df)
  | [] =>
      match file with
      | Some existing =>
          mkWritten file (Some existing) (try_manifest sym timeframe existing)
      | None => mkWritten None None None
      end
  end.

Section Update.

Variable Exchange : Type.
Variable fetch_ohlcv :
  Exchange -> string -> string -> Z -> Z -> option (list Kline) * Exchange.
Variable naive_timestamp_ms : Z -> Z.

(** The body of the [for symbol in symbols] loop of
    [update_symbols_to_now].  The planner runs outside any [try], so what
    it raises leaves the method. *)
Definition update_symbol (fuel : nat) (x : Exchange) (file : option DataFrame)
  (sym timeframe : string) (days_back : option Z) (overlap : Z)
  (include_now : bool) (now_utc : Z) : outcome (option (Written * Exchange)) :=
  since_ms <- resume_since naive_timestamp_ms file timeframe days_back overlap
                now_utc ;;
  let end_time_ms := end_time naive_timestamp_ms include_now now_utc in
  match fetch_loop fetch_ohlcv fuel sym timeframe end_time_ms x since_ms [] with
  | None => Ok None
  | Some (all_chunks, x') => Ok (Some (store_update sym timeframe file all_chunks, x'))
  end.

(** The canonical CSVs, by base currency ([symbol.split('/')[0]]); the
    timeframe is fixed over one call. *)
Definition Store : Type := string -> option DataFrame.

Definition store_set (st : Store) (base : string) (file : option DataFrame) : Store :=
  fun b => if String.eqb b base then file else st b.

(** The [for symbol in symbols] loop of [update_symbols_to_now]: the
    symbols in turn, from the exchange, the stored files and the [results]
    dict as they stand; the first exception ends the call. *)
Fixpoint update_symbols_loop (fuel : nat) (x : Exchange) (st : Store)
  (results : Dict.t DataFrame) (symbols : list string) (timeframe : string)
  (days_back : option Z) (overlap : Z) (include_now : bool) (now_utc : Z)
  : outcome (option (Store * Exchange * Dict.t DataFrame)) :=
  match symbols with
  | [] => Ok (Some (st, x, results))
  | sym :: rest =>
      let base := Py.split_head "/"%char sym in
      r <- update_symbol fuel x (st base) sym timeframe days_back overlap
                         include_now now_utc ;;
      match r with
      | None => Ok None
      | Some (w, x') =>
          update_symbols_loop fuel x' (store_set st base (w_file w))
            match w_final w with
            | Some final_df => Dict.set results sym final_df
            | None => results
            end
            rest timeframe days_back overlap include_now now_utc
      end
  end.

Definition update_symbols_to_now (fuel : nat) (x : Exchange) (st : Store)
  (symbols : list string) (timeframe : string) (days_back : option Z)
  (overlap : Z) (include_now : bool) (now_utc : Z)
  : outcome (option (Store * Exchange * Dict.t DataFrame)) :=
  update_symbols_loop fuel x st [] symbols timeframe days_back overlap
    include_now now_utc.

(** [scripts/update_symbol_latest.py], line 51: the CLI passes
    [days_back=None]. *)
Definition update_symbol_latest (fuel : nat) (x : Exchange) (st : Store)
  (symbols : list string) (timeframe : string) (overlap : Z)
  (include_today : bool) (now_utc : Z) :=
  update_symbols_to_now fuel x st symbols timeframe None overlap include_today
    now_utc.

End Update.

Arguments update_symbol {Exchange}.
Arguments update_symbols_loop {Exchange}.
Arguments update_symbols_to_now {Exchange}.
Arguments update_symbol_latest {Exchange}.

(** [save_data], lines 437-468 and the manifest after them, for one symbol
    of [data_dict]; [None] is the [continue] on an empty frame. *)
Definition save_symbol (sym timeframe : string) (file : option DataFrame)
  (df : DataFrame) : outcome (option Written) :=
  if empty df then Ok None
  else
    match file with
    | Some existing =>
        last_ts <- index_last existing ;;
        let new_rows := index_gt last_ts df in
        if negb (empty new_rows) then
          let combined :=
            sort_index (drop_index_duplicates (concat [existing; new_rows])) in
          Ok (Some (mkWritten (Some combined) (Some combined)
                      (try_manifest sym timeframe combined)))
        else
          Ok (Some (mkWritten file (Some existing)
                      (try_manifest sym timeframe existing)))
    | None =>
        Ok (Some (mkWritten (Some df) (Some df) (try_manifest sym timeframe df)))
    end.

(** ** The bundle importer: [scripts/import_binance_bundles.py] *)

(** One line of a bundle: the six leading columns.  [None] in the first
    column is a cell that [pd.to_numeric(errors='coerce')] turns into a
    null. *)
Record BundleRow : Type := mkBundleRow {
  open_time : option Z;
  b_open : float;
  b_high : float;
  b_low : float;
  b_close : float;
  b_volume : float
}.

Inductive time_unit : Type :=
| Microseconds      (* ['us'] *)
| Milliseconds      (* ['ms'] *)
| Seconds.          (* ['s'] *)

Definition int64_min : Z := - 2 ^ 63.
Definition int64_max : Z := 2 ^ 63 - 1.

(** Two's-complement wrap-around of a 64-bit signed result. *)
Definition wrap_int64 (z : Z) : Z := (z + 2 ^ 63) mod 2 ^ 64 - 2 ^ 63.

(** [Series.abs()] on an [int64] column: the absolute value, wrapped. *)
Definition abs_int64 (z : Z) : Z := wrap_int64 (Z.abs z).

(** [Series.max()] of a non-empty [int64] column. *)
Definition series_max (col : list Z) : Z :=
  match col with
  | [] => 0
  | z :: rest => fold_left Z.max rest z
  end.

(** Lines 76-82 of [read_bundle_csv].  The thresholds [1e14] and [1e11]
    are exact in binary64, and so is every [int64] on the side of them
    that decides, so the comparisons are the integer ones. *)
Definition max_open_time (col : list Z) : Z :=
  match col with
  | [] => 0
  | _ :: _ => series_max (map abs_int64 col)
  end.

Definition detect_unit (col : list Z) : time_unit :=
  let max_ot := max_open_time col in
  if 10 ^ 14 <? max_ot then Microseconds
  else if 10 ^ 11 <? max_ot then Milliseconds
  else Seconds.

Definition ns_per (u : time_unit) : Z :=
  match u with
  | Microseconds => 1000
  | Milliseconds => 1000000
  | Seconds => 1000000000
  end.

(** [pd.to_datetime(v, unit=unit, utc=True, errors='coerce')]: the instant
    in nanoseconds, or [NaT] when it does not fit a [Timestamp]. *)
Definition to_datetime (u : time_unit) (v : Z) : option Z :=
  let ns := v * ns_per u in
  if (int64_min <? ns) && (ns <=? int64_max) then Some ns else None.

Fixpoint dropna_open_time (rows : list BundleRow) : list (Z * BundleRow) :=
  match rows with
  | [] => []
  | r :: rest =>
      match open_time r with
      | Some v => (v, r) :: dropna_open_time rest
      | None => dropna_open_time rest
      end
  end.

Fixpoint index_by_datetime (u : time_unit) (rows : list (Z * BundleRow))
  : DataFrame :=
  match rows with
  | [] => []
  | (v, r) :: rest =>
      match to_datetime u v with
      | Some t =>
          (t, mkCandle (b_open r) (b_high r) (b_low r) (b_close r) (b_volume r) None)
            :: index_by_datetime u rest
      | None => index_by_datetime u rest
      end
  end.

(** A bundle file: its path, and the frames read from it ([None] when the
    file cannot be read or has fewer than six columns, where
    [read_bundle_csv] raises). *)
Record Bundle : Type := mkBundle {
  bundle_path : string;
  bundle_frames : option (list (list BundleRow))
}.

Definition read_bundle_csv (b : Bundle) : outcome DataFrame :=
  match bundle_frames b with
  | None => Raise RuntimeError
  | Some [] => Raise RuntimeError
  | Some frames =>
      let rows := dropna_open_time (List.concat frames) in
      let unit := detect_unit (map fst rows) in
      Ok (index_by_datetime unit rows)
  end.

(** The total return of the month manifest, lines 160 and 177-190: the key
    is absent on an empty partition ([None]), null when the first close is
    zero ([Some None]). *)
Definition month_total_return_pct (combined : DataFrame)
  : option (option float) :=
  if negb (empty combined) then
    let first_close := close_first combined in
    let last_close := close_last combined in
    Some (if negb (PrimFloat.eqb first_close 0) then
            Some ((last_close / first_close - 1) * 100)%float
          else None)
  else None.

Record MonthInfo : Type := mkMonthInfo {
  mi_rows : Z;
  mi_start_date : option Z;
  mi_end_date : option Z;
  mi_bundle_source : string;
  mi_sha256 : option string
}.

Record MonthManifest : Type := mkMonthManifest {
  mm_rows : Z;
  mm_start_date : option Z;
  mm_end_date : option Z;
  mm_total_return_pct : option (option float)
}.

(** [combined.index.min()] and [combined.index.max()] *)
Definition index_min (df : DataFrame) : option Z :=
  match index df with
  | [] => None
  | t :: rest => Some (fold_left Z.min rest t)
  end.

Definition index_max (df : DataFrame) : option Z :=
  match index df with
  | [] => None
  | t :: rest => Some (fold_left Z.max rest t)
  end.

Section Importer.

(** [sha256_of_df_csv_bytes]: the digest of the partition's CSV text. *)
Variable sha256_of_df_csv_bytes : DataFrame -> string.

(** [write_month_partition]: the month's stored partition before, the
    month's frame, and what is stored and reported after. *)
Definition write_month_partition (file : option DataFrame) (df : DataFrame)
  (source : string) (dry_run : bool)
  : MonthInfo * option DataFrame * option MonthManifest :=
  let existing :=
    match file with
    | Some stored => if negb dry_run then stored else []
    | None => []
    end in
  let combined := month_combined existing df in
  let checksum :=
    if negb (empty combined) then Some (sha256_of_df_csv_bytes combined) else None in
  let info := mkMonthInfo (Z.of_nat (List.length combined)) (index_min combined)
                (index_max combined) source checksum in
  let mdata := mkMonthManifest (mi_rows info) (mi_start_date info)
                 (mi_end_date info) (month_total_return_pct combined) in
  if negb dry_run then (info, Some combined, Some mdata)
  else (info, file, None).

End Importer.

(** *** File names *)

Module PathName.

(** [re.search(r"(\d{4}-\d{2}(?:-\d{2})?)", name)] followed by
    [date_part[:7]]: the leftmost [dddd-dd]. *)
Definition date_here (s : string) : bool :=
  match s with
  | String a (String b (String c (String d (String e (String f (String g _)))))) =>
      Py.is_digit a && Py.is_digit b && Py.is_digit c && Py.is_digit d
      && Ascii.eqb e "-"%char && Py.is_digit f && Py.is_digit g
  | _ => false
  end.

Fixpoint month_search (s : string) : option string :=
  if date_here s then Some (substring 0 7 s)
  else
    match s with
    | EmptyString => None
    | String _ rest => month_search rest
    end.

(** [path.name]: what follows the last slash. *)
Fixpoint name_acc (acc : string) (s : string) : string :=
  match s with
  | EmptyString => acc
  | String a rest =>
      if Ascii.eqb a "/"%char then name_acc rest rest else name_acc acc rest
  end.

Definition name (path : string) : string := name_acc path path.

(** [s.rfind('.')], as an offset from the start. *)
Fixpoint rfind_dot (s : string) (pos : nat) (found : option nat) : option nat :=
  match s with
  | EmptyString => found
  | String a rest =>
      rfind_dot rest (S pos) (if Ascii.eqb a "."%char then Some pos else found)
  end.

(** [path.stem]: the name without its last suffix. *)
Definition stem (path : string) : string :=
  let n := name path in
  match rfind_dot n 0 None with
  | Some i =>
      if (0 <? i)%nat && (i <? String.length n - 1)%nat then substring 0 i n else n
  | None => n
  end.

End PathName.

Definition month_from_filename (path : string) : option string :=
  PathName.month_search (PathName.name path).

(** *** [main], for one symbol *)

(** Lines 248-254: the files by month. *)
Fixpoint group_by_month (files : list Bundle) (months : Dict.t (list Bundle))
  : Dict.t (list Bundle) :=
  match files with
  | [] => months
  | f :: rest =>
      match month_from_filename (bundle_path f) with
      | None => group_by_month rest months
      | Some mon =>
          group_by_month rest (Dict.update months mon [] (fun fps => fps ++ [f]))
      end
  end.

(** Lines 268-272: the daily files that can be read. *)
Fixpoint read_all (fps : list Bundle) : list DataFrame :=
  match fps with
  | [] => []
  | f :: rest =>
      match read_bundle_csv f with
      | Ok df => df :: read_all rest
      | Raise _ => read_all rest
      end
  end.

(** Lines 260-277: the frame of one month, and the file it is credited to.
    [None] when the month is skipped. *)
Definition month_frame (mon : string) (fps : list Bundle)
  : option (DataFrame * string) :=
  match find (fun f => Py.endswith (PathName.stem (bundle_path f)) mon) fps with
  | Some monthly_file =>
      match read_bundle_csv monthly_file with
      | Ok df => Some (df, bundle_path monthly_file)
      | Raise _ => None
      end
  | None =>
      match read_all fps with
      | [] => None
      | dfs =>
          let big := drop_index_duplicates (concat dfs) in
          match fps with
          | f :: _ => Some (big, bundle_path f)
          | [] => None
          end
      end
  end.

(** The month partitions of one symbol and timeframe, by [YYYY-MM]. *)
Definition Partitions : Type := string -> option DataFrame.

Definition partition_set (ps : Partitions) (mon : string)
  (file : option DataFrame) : Partitions :=
  fun m => if String.eqb m mon then file else ps m.

Record YearManifest : Type := mkYearManifest {
  ym_year : string;
  ym_months : Dict.t MonthInfo;
  ym_rows : Z
}.

(** Lines 297-306: the total of one year. *)
Fixpoint total_rows (months_map : Dict.t MonthInfo) (acc : Z) : Z :=
  match months_map with
  | [] => acc
  | (_, info) :: rest => total_rows rest (acc + mi_rows info)
  end.

(** Lines 286-289: the months by year. *)
Fixpoint group_by_year (month_infos : Dict.t MonthInfo)
  (years : Dict.t (Dict.t MonthInfo)) : Dict.t (Dict.t MonthInfo) :=
  match month_infos with
  | [] => years
  | (mon, info) :: rest =>
      let y := Py.split_head "-"%char mon in
      group_by_year rest (Dict.update years y [] (fun months_map => Dict.set months_map mon info))
  end.

Definition yearly_manifests (month_infos : Dict.t MonthInfo) (dry_run : bool)
  : list YearManifest :=
  match month_infos with
  | _ :: _ =>
      if negb dry_run then
        map (fun ym => mkYearManifest (fst ym) (snd ym) (total_rows (snd ym) 0))
            (group_by_year month_infos [])
      else []
  | [] => []
  end.

Section ImportSymbol.

Variable sha256_of_df_csv_bytes : DataFrame -> string.

(** Lines 257-281: the months in order. *)
Fixpoint import_months (months : Dict.t (list Bundle)) (ps : Partitions)
  (dry_run : bool) (month_infos : Dict.t MonthInfo)
  : Partitions * Dict.t MonthInfo :=
  match months with
  | [] => (ps, month_infos)
  | (mon, fps) :: rest =>
      match month_frame mon fps with
      | None => import_months rest ps dry_run month_infos
      | Some (df, source) =>
          let '(info, file', _) :=
            write_month_partition sha256_of_df_csv_bytes (ps mon) df source dry_run in
          import_months rest (partition_set ps mon file') dry_run
                        (Dict.set month_infos mon info)
      end
  end.

(** The body of [for sym in symbols] in [main]: the partitions, the month
    reports and the yearly roll-ups.  [files] is the list
    [find_bundle_files] returns, which is sorted by path, so the later
    [sorted(fps)] leaves every month's files as they are. *)
Definition import_symbol (files : list Bundle) (ps : Partitions) (dry_run : bool)
  : Partitions * Dict.t MonthInfo * list YearManifest :=
  let months := group_by_month files [] in
  let '(ps', month_infos) :=
    import_months (Dict.sorted_items months) ps dry_run [] in
  (ps', month_infos, yearly_manifests month_infos dry_run).

End ImportSymbol.

(** ** The statements of the specification that are compared with the code *)

Section FetcherSpec.

Variable Exchange : Type.
Variable fetch_ohlcv :
  Exchange -> string -> string -> Z -> Z -> option (list Kline) * Exchange.

(** The chunked range fetcher in the words of the specification: a cursor
    and the pages appended so far, or the pages of a loop that stopped. *)
Inductive fetch_state : Type :=
| Fetching (cursor : Z) (pages : list DataFrame) (x : Exchange)
| Stopped (pages : list DataFrame) (x : Exchange).

Inductive spec_step (sym timeframe : string) (end_ms : Z)
  : fetch_state -> fetch_state -> Prop :=
| step_empty_page cursor pages x x' :
    (* fetch a page at cursor; if page empty, stop *)
    fetch_ohlcv_safe fetch_ohlcv x sym timeframe cursor page_size = ([], x') ->
    spec_step sym timeframe end_ms (Fetching cursor pages x) (Stopped pages x')
| step_reached_end cursor pages x page x' last_ts :
    (* append page; last timestamp >= end: trim the page to end and stop *)
    fetch_ohlcv_safe fetch_ohlcv x sym timeframe cursor page_size = (page, x') ->
    index_last page = Ok last_ts ->
    end_ms <= last_ts ->
    spec_step sym timeframe end_ms (Fetching cursor pages x)
      (Stopped (pages ++ [filter (fun r => fst r <=? end_ms) page]) x')
| step_short_page cursor pages x page x' last_ts :
    (* append page; fewer rows than the requested page size: stop *)
    fetch_ohlcv_safe fetch_ohlcv x sym timeframe cursor page_size = (page, x') ->
    index_last page = Ok last_ts ->
    last_ts < end_ms ->
    Z.of_nat (List.length page) < page_size ->
    spec_step sym timeframe end_ms (Fetching cursor pages x)
      (Stopped (pages ++ [page]) x')
| step_advance cursor pages x page x' last_ts :
    (* append page; otherwise the cursor moves one millisecond past it *)
    fetch_ohlcv_safe fetch_ohlcv x sym timeframe cursor page_size = (page, x') ->
    index_last page = Ok last_ts ->
    last_ts < end_ms ->
    page_size <= Z.of_nat (List.length page) ->
    spec_step sym timeframe end_ms (Fetching cursor pages x)
      (Fetching (last_ts + 1) (pages ++ [page]) x').

(** The steps from one state to another, in order. *)
Inductive spec_steps (sym timeframe : string) (end_ms : Z)
  : fetch_state -> fetch_state -> Prop :=
| steps_done s : spec_steps sym timeframe end_ms s s
| steps_next s1 s2 s3 :
    spec_step sym timeframe end_ms s1 s2 ->
    spec_steps sym timeframe end_ms s2 s3 ->
    spec_steps sym timeframe end_ms s1 s3.

End FetcherSpec.

Arguments Fetching {Exchange}.
Arguments Stopped {Exchange}.
Arguments spec_step {Exchange}.
Arguments spec_steps {Exchange}.

(** The duration of one bar of a timeframe as the glossary has it, the
    bucket width of a Series ([1m] one minute, [1h] one hour, [1d] one
    day): a count followed by its unit. *)
Definition unit_ms (c : ascii) : option Z :=
  if Ascii.eqb c "s" then Some 1000
  else if Ascii.eqb c "m" then Some 60000
  else if Ascii.eqb c "h" then Some ms_per_hour
  else if Ascii.eqb c "d" then Some ms_per_day
  else if Ascii.eqb c "w" then Some (7 * ms_per_day)
  else None.

Fixpoint bar_duration_from (count : option Z) (s : string) : option Z :=
  match s with
  | EmptyString => None
  | String c EmptyString =>
      match count, unit_ms c with
      | Some n, Some u => Some (n * u)
      | _, _ => None
      end
  | String c rest =>
      if Py.is_digit c then
        let d := Z.of_nat (nat_of_ascii c) - 48 in
        bar_duration_from (Some (10 * match count with Some n => n | None => 0 end + d)) rest
      else None
  end.

Definition bar_duration_ms (timeframe : string) : option Z :=
  bar_duration_from None timeframe.

(** The partition file after [save_data] has handled one symbol. *)
Definition file_after_save (file : option DataFrame) (w : option Written)
  : option DataFrame :=
  match w with
  | Some written => w_file written
  | None => file
  end.

(** The sum of the per-month [rows] of a roll-up. *)
Definition sum_month_rows (months_map : Dict.t MonthInfo) : Z :=
  fold_right Z.add 0 (map (fun kv => mi_rows (snd kv)) months_map).

(** The unit of an open time by magnitude, in the words of the
    specification: above [1e14] microseconds, above [1e11] milliseconds,
    else seconds; and the maximum absolute value of a column (0 when it is
    empty). *)
Definition unit_of_magnitude (m : Z) : time_unit :=
  if 10 ^ 14 <? m then Microseconds
  else if 10 ^ 11 <? m then Milliseconds
  else Seconds.

Definition max_abs (col : list Z) : Z :=
  fold_right (fun v m => Z.max (Z.abs v) m) 0 col.

(** What is reported for a month is the size of what is stored for it. *)
Definition reports_agree (ps : Partitions) (month_infos : Dict.t MonthInfo) : Prop :=
  NoDup (map fst month_infos) /\
  forall mon info, In (mon, info) month_infos ->
    exists part, ps mon = Some part /\ mi_rows info = Z.of_nat (List.length part).

(** The stored rows of a file that may be absent. *)
Definition stored_rows (file : option DataFrame) : DataFrame :=
  match file with
  | Some existing => existing
  | None => []
  end.

(** ** The rest of the fetcher and its callers *)

Module PyStr.

(** [s.replace(c, d)] for one-character [c] and [d] *)
Fixpoint replace_char (c d : ascii) (s : string) : string :=
  match s with
  | EmptyString => EmptyString
  | String a rest =>
      String (if Ascii.eqb a c then d else a) (replace_char c d rest)
  end.

(** [c in s] for a one-character [c] *)
Fixpoint contains_char (c : ascii) (s : string) : bool :=
  match s with
  | EmptyString => false
  | String a rest => Ascii.eqb a c || contains_char c rest
  end.

(** [s.upper()] on ASCII text *)
Definition upper_char (a : ascii) : ascii :=
  let n := nat_of_ascii a in
  if (97 <=? n)%nat && (n <=? 122)%nat then ascii_of_nat (n - 32) else a.

Fixpoint upper (s : string) : string :=
  match s with
  | EmptyString => EmptyString
  | String a rest => String (upper_char a) (upper rest)
  end.

End PyStr.

(** [normalize_symbol] of [scripts/update_symbol_latest.py] and of
    [scripts/fetch_1m_ohlcv.py]. *)
Definition normalize_symbol (s : string) : string :=
  let s := PyStr.upper s in
  if negb (PyStr.contains_char "/" s) then (s ++ "/USDT")%string else s.

(** The partition files, by their path below [self.data_dir]. *)
Definition Files : Type := string -> option DataFrame.

Definition files_set (fs : Files) (path : string) (file : option DataFrame)
  : Files :=
  fun p => if String.eqb p path then file else fs p.

(** The path [update_symbols_to_now] reads and writes (lines 259-263) and
    the path [save_data] reads and writes (lines 441-446). *)
Definition update_csv_path (sym timeframe : string) : string :=
  let base := Py.split_head "/" sym in
  (base ++ "/" ++ "crypto_" ++ base ++ "_USDT_" ++ timeframe ++ ".csv")%string.

Definition save_csv_path (sym timeframe : string) : string :=
  let safe_symbol := PyStr.replace_char "/" "_" sym in
  let base := Py.split_head "/" sym in
  (base ++ "/" ++ "crypto_" ++ safe_symbol ++ "_" ++ timeframe ++ ".csv")%string.

(** [get_major_pairs], lines 88-103: for each major currency the first
    quote currency the exchange lists it against.  [markets] answers
    [symbol in self.exchange.markets]. *)
Definition major_cryptos : list string :=
  ["BTC"; "ETH"; "BNB"; "XRP"; "ADA"; "SOL"; "DOT"; "AVAX"; "MATIC"; "LINK"]%string.

Definition quote_currencies : list string := ["USDT"; "USDC"; "USD"]%string.

Definition pair (base quote : string) : string := (base ++ "/" ++ quote)%string.

Fixpoint first_listed (markets : string -> bool) (base : string)
  (quotes : list string) : list string :=
  match quotes with
  | [] => []
  | quote :: rest =>
      if markets (pair base quote) then [pair base quote]   (* append, break *)
      else first_listed markets base rest
  end.

Fixpoint major_pairs_of (markets : string -> bool) (bases : list string)
  (quotes : list string) : list string :=
  match bases with
  | [] => []
  | base :: rest =>
      first_listed markets base quotes ++ major_pairs_of markets rest quotes
  end.

Definition get_major_pairs (markets : string -> bool) : list string :=
  major_pairs_of markets major_cryptos quote_currencies.

(** The per-symbol entry and the totals of the dict [save_data] returns. *)
Record SavedSymbol : Type := mkSavedSymbol {
  ss_rows : Z;
  ss_start_date : Z;
  ss_end_date : Z
}.

Record SaveManifest : Type := mkSaveManifest {
  sv_symbols : Dict.t SavedSymbol;
  sv_total_symbols : Z;
  sv_total_rows : Z
}.

(** [save_data], the loop over [data_dict.items()]; what is on disk when
    the call raises is left out. *)
Fixpoint save_items (items : Dict.t DataFrame) (timeframe : string)
  (fs : Files) (manifest : SaveManifest) : outcome (Files * SaveManifest) :=
  match items with
  | [] => Ok (fs, manifest)
  | (sym, df) :: rest =>
      let path := save_csv_path sym timeframe in
      w <- save_symbol sym timeframe (fs path) df ;;
      match w with
      | None => save_items rest timeframe fs manifest        (* [continue] *)
      | Some written =>
          let final_df := stored_rows (w_final written) in
          start_date <- index_first final_df ;;
          end_date <- index_last final_df ;;
          let rows := Z.of_nat (List.length final_df) in
          save_items rest timeframe (files_set fs path (w_file written))
            (mkSaveManifest
               (Dict.set (sv_symbols manifest) sym (mkSavedSymbol rows start_date end_date))
               (sv_total_symbols manifest + 1)
               (sv_total_rows manifest + rows))
      end
  end.

Definition save_data (data_dict : Dict.t DataFrame) (timeframe : string)
  (fs : Files) : outcome (Files * SaveManifest) :=
  save_items data_dict timeframe fs (mkSaveManifest [] 0 0).

Section Historical.

Variable Exchange : Type.
Variable fetch_ohlcv :
  Exchange -> string -> string -> Z -> Z -> option (list Kline) * Exchange.
Variable naive_timestamp_ms : Z -> Z.

(** Lines 158-160: the end of the window when the caller gives none. *)
Definition historical_end_time (end_time_ms : option Z) (now_utc : Z) : Z :=
  match end_time_ms with
  | Some e => e
  | None => naive_timestamp_ms (start_of_today now_utc - 1 * us_per_ms)
  end.

(** [fetch_historical_data], lines 164-206, for one symbol: the entry it
    adds to [data_dict], if any.  The summary it prints reads the first and
    the last timestamp of the combined frame. *)
Definition fetch_historical_symbol (fuel : nat) (x : Exchange)
  (sym timeframe : string) (start_time end_ms : Z)
  : outcome (option (option DataFrame * Exchange)) :=
  match fetch_loop fetch_ohlcv fuel sym timeframe end_ms x start_time [] with
  | None => Ok None
  | Some (all_data, x') =>
      match all_data with
      | _ :: _ =>
          let combined_df := combine_chunks all_data in
          first_ts <- index_first combined_df ;;
          last_ts <- index_last combined_df ;;
          Ok (Some (Some combined_df, x'))
      | [] => Ok (Some (None, x'))
      end
  end.

Fixpoint fetch_historical_loop (fuel : nat) (x : Exchange)
  (symbols : list string) (timeframe : string) (start_time end_ms : Z)
  (data_dict : Dict.t DataFrame)
  : outcome (option (Dict.t DataFrame * Exchange)) :=
  match symbols with
  | [] => Ok (Some (data_dict, x))
  | sym :: rest =>
      r <- fetch_historical_symbol fuel x sym timeframe start_time end_ms ;;
      match r with
      | None => Ok None
      | Some (entry, x') =>
          fetch_historical_loop fuel x' rest timeframe start_time end_ms
            match entry with
            | Some combined_df => Dict.set data_dict sym combined_df
            | None => data_dict
            end
      end
  end.

(** [fetch_historical_data]. *)
Definition fetch_historical_data (fuel : nat) (x : Exchange)
  (symbols : list string) (timeframe : string) (days_back : option Z)
  (end_time_ms : option Z) (now_utc : Z)
  : outcome (option (Dict.t DataFrame * Exchange)) :=
  back <- timedelta_days days_back ;;
  let start_time := naive_timestamp_ms (now_utc - back) in
  let end_ms := historical_end_time end_time_ms now_utc in
  fetch_historical_loop fuel x symbols timeframe start_time end_ms [].

(** [main] of [scripts/fetch_1m_ohlcv.py] without [--limit], and each
    phase of the fetcher's own [main]: fetch, then save. *)
Definition fetch_and_save (fuel : nat) (x : Exchange) (fs : Files)
  (symbols : list string) (timeframe : string) (days_back : option Z)
  (now_utc : Z) : outcome (option (Files * SaveManifest * Exchange)) :=
  r <- fetch_historical_data fuel x symbols timeframe days_back None now_utc ;;
  match r with
  | None => Ok None
  | Some (data, x') =>
      saved <- save_data data timeframe fs ;;
      Ok (Some (fst saved, snd saved, x'))
  end.

End Historical.

Arguments fetch_historical_symbol {Exchange}.
Arguments fetch_historical_loop {Exchange}.
Arguments fetch_historical_data {Exchange}.
Arguments fetch_and_save {Exchange}.

(** ** Further definitions *)

(** Every row of the chunks lies between [start] and [end_ms]. *)
Definition in_window (start end_ms : Z) (chunks : list DataFrame) : Prop :=
  forall r, In r (concat chunks) -> start <= fst r <= end_ms.

(** ** More of the importer and of the downloader that names its files *)

(** The candle [read_bundle_csv] makes of a bundle line. *)
Definition bundle_candle (r : BundleRow) : Candle :=
  mkCandle (b_open r) (b_high r) (b_low r) (b_close r) (b_volume r) None.

(** The open time of a line, 0 standing for a null. *)
Definition open_time_of (r : BundleRow) : Z :=
  match open_time r with
  | Some v => v
  | None => 0
  end.

(** Every line has an open time whose absolute value is above [lo] and at
    most [hi]. *)
Definition open_times_within (lo hi : Z) (rows : list BundleRow) : Prop :=
  Forall (fun r => exists v, open_time r = Some v /\ lo < Z.abs v <= hi) rows.

(** [scripts/download_binance_bundles.py], lines 118-131: the name and the
    place of a downloaded bundle; [date_str] is [YYYY-MM] for a monthly
    bundle and [YYYY-MM-DD] for a daily one. *)
Definition bundle_filename (sym timeframe date_str : string) : string :=
  (sym ++ "-" ++ timeframe ++ "-" ++ date_str ++ ".zip")%string.

Definition bundle_dest (bundle_dir timeframe : string) (monthly : bool)
  (sym date_str : string) : string :=
  let folder := if monthly then ("monthly_" ++ timeframe)%string else timeframe in
  (bundle_dir ++ "/" ++ folder ++ "/" ++ bundle_filename sym timeframe date_str)%string.

(** No dash in the text comes right after four digits. *)
Fixpoint no_year_dash (s : string) : bool :=
  match s with
  | EmptyString => true
  | String a rest =>
      match rest with
      | String b (String c (String d (String e _))) =>
          negb (Py.is_digit a && Py.is_digit b && Py.is_digit c && Py.is_digit d
                && Ascii.eqb e "-")
      | _ => true
      end && no_year_dash rest
  end.

(** What a month's partition is after an import that is not a dry run:
    the month's frame merged into what was stored, for a month that has
    files that can be read, and what was stored otherwise. *)
Definition month_partition_after (months : Dict.t (list Bundle))
  (ps : Partitions) (mon : string) : option DataFrame :=
  match Dict.get months mon with
  | Some fps =>
      match month_frame mon fps with
      | Some (df, _) => Some (month_combined (stored_rows (ps mon)) df)
      | None => ps mon
      end
  | None => ps mon
  end.

(** The name of the bundle gives the month [mon]. *)
Definition in_month (mon : string) (f : Bundle) : bool :=
  match month_from_filename (bundle_path f) with
  | Some m => String.eqb m mon
  | None => false
  end.

(** Every stored partition is in strict time order. *)
Definition files_in_order (fs : Files) : Prop :=
  forall path f, fs path = Some f -> strictly_increasing f.

(** The sum of the per-symbol [rows] of the dict [save_data] returns. *)
Definition sum_saved_rows (symbols : Dict.t SavedSymbol) : Z :=
  fold_right Z.add 0 (map (fun kv => ss_rows (snd kv)) symbols).

Definition no_files : Files := fun _ => None.

(** ** Sample data for the worked cases *)

(** A candle whose five numbers are all [p]. *)
Definition flat (p : float) : Candle := mkCandle p p p p p None.

(** An exchange that lists one candle per millisecond from 0 up to, but not
    including, [total], and answers every request with at most [limit] of
    them from [since] on.  Its state counts the requests served. *)
Definition toy_kline (t : Z) : Kline := mkKline t 1 1 1 1 1.

Definition toy_fetch (total : Z) (calls : nat) (sym timeframe : string)
  (since limit : Z) : option (list Kline) * nat :=
  let n := Z.to_nat (Z.min limit (total - since)) in
  (Some (map (fun i => toy_kline (since + Z.of_nat i)) (seq 0 n)), S calls).

(** A store that holds a one-row daily file for BTC and nothing else. *)
Definition sample_store : Store :=
  fun base => if String.eqb base "BTC" then Some [(1717200000000, flat 1)] else None.

(** [n] one-minute bundle lines from [start_ms] on, open time in
    milliseconds, every price 1. *)
Definition minute_rows (start_ms : Z) (n : nat) : list BundleRow :=
  map (fun i => mkBundleRow (Some (start_ms + 60000 * Z.of_nat i)) 1 1 1 1 1)
      (seq 0 n).

(** Two monthly bundles: 1000 lines ending ten minutes into February 2024
    and 900 lines from the start of February, so that ten timestamps are
    in both, with the same values. *)
Definition january_bundle : Bundle :=
  mkBundle "bundles/monthly_1m/BTC-1m-2024-01.csv"
           (Some [minute_rows 1706686200000 1000]).

Definition february_bundle : Bundle :=
  mkBundle "bundles/monthly_1m/BTC-1m-2024-02.csv"
           (Some [minute_rows 1706745600000 900]).

Definition no_partitions : Partitions := fun _ => None.

Definition no_digest (df : DataFrame) : string := EmptyString.

(** [int(dt.timestamp() * 1000)] of a naive [datetime] in a process whose
    local time is [offset_s] seconds ahead of UTC all year:
    [dt.timestamp()] is the local time taken to POSIX seconds plus
    [dt.microsecond / 1e6]. *)
Definition zone_timestamp_ms (offset_s : Z) (dt : Z) : Z :=
  let seconds := dt / 1000000 - offset_s in
  let microsecond := dt mod 1000000 in
  int_of_float ((float_of_Z seconds + float_of_Z microsecond / 1000000) * 1000)%float.

(** A process that runs in UTC. *)
Definition utc_timestamp_ms : Z -> Z := zone_timestamp_ms 0.

(** An exchange that lists one candle per minute, [total] of them from the
    epoch on, and answers a request with at most [limit] of those not
    earlier than [since]. *)
Definition minute_fetch (total : nat) (calls : nat) (sym timeframe : string)
  (since limit : Z) : option (list Kline) * nat :=
  (Some (firstn (Z.to_nat limit)
           (filter (fun k => since <=? k_timestamp k)
              (map (fun i => toy_kline (60000 * Z.of_nat i)) (seq 0 total)))),
   S calls).

(** An exchange that ignores [since] and answers every request with the
    same full page, the candles 0..999. *)
Definition stuck_fetch (calls : nat) (sym timeframe : string)
  (since limit : Z) : option (list Kline) * nat :=
  (Some (map (fun i => toy_kline (Z.of_nat i)) (seq 0 1000)), S calls).

(** * Properties *)

(** ** Frames: duplicates, order, rows at a label *)

Section FrameFacts.

Lemma existsb_label (t : Z) (idx : list Z) :
  existsb (Z.eqb t) idx = true <-> In t idx.
Proof.
  rewrite existsb_exists. split.
  - intros (u & Hin & Heq). apply Z.eqb_eq in Heq. now subst.
  - intros Hin. exists t. split; [assumption | apply Z.eqb_refl].
Qed.

Lemma drop_index_duplicates_cons (r : Row) (df : DataFrame) :
  drop_index_duplicates (r :: df) =
  if existsb (Z.eqb (fst r)) (index df)
  then drop_index_duplicates df
  else r :: drop_index_duplicates df.
Proof.
  unfold drop_index_duplicates. simpl.
  now destruct (existsb (Z.eqb (fst r)) (index df)).
Qed.

Lemma drop_index_duplicates_incl (df : DataFrame) (r : Row) :
  In r (drop_index_duplicates df) -> In r df.
Proof.
  induction df as [|r' df IH]; [easy|].
  rewrite drop_index_duplicates_cons.
  destruct (existsb _ _); simpl; intuition.
Qed.

Lemma drop_index_duplicates_labels (df : DataFrame) (t : Z) :
  In t (index (drop_index_duplicates df)) <-> In t (index df).
Proof.
  induction df as [|r df IH]; [easy|].
  rewrite drop_index_duplicates_cons.
  destruct (existsb _ _) eqn:E; simpl; rewrite IH.
  - apply existsb_label in E. split; [auto|]. intros [<-|H]; assumption.
  - reflexivity.
Qed.

Lemma drop_index_duplicates_NoDup (df : DataFrame) :
  NoDup (index (drop_index_duplicates df)).
Proof.
  induction df as [|r df IH]; [constructor|].
  rewrite drop_index_duplicates_cons.
  destruct (existsb _ _) eqn:E; [assumption|].
  simpl. constructor; [|assumption].
  rewrite drop_index_duplicates_labels, <- existsb_label. congruence.
Qed.

Lemma drop_index_duplicates_distinct (df : DataFrame) :
  NoDup (index df) -> drop_index_duplicates df = df.
Proof.
  induction df as [|r df IH]; [easy|].
  simpl. intros H. apply NoDup_cons_iff in H as [Hnot Hnd].
  rewrite drop_index_duplicates_cons.
  destruct (existsb _ _) eqn:E.
  - apply existsb_label in E. contradiction.
  - now rewrite IH.
Qed.

(** Rows whose labels all come again later are all dropped. *)
Lemma drop_index_duplicates_covered (a b : DataFrame) :
  incl (index a) (index b) ->
  drop_index_duplicates (a ++ b) = drop_index_duplicates b.
Proof.
  induction a as [|r a IH]; [easy|].
  intros Hincl. simpl app. rewrite drop_index_duplicates_cons.
  assert (Hr : existsb (Z.eqb (fst r)) (index (a ++ b)) = true).
  { apply existsb_label. unfold index. rewrite map_app, in_app_iff.
    right. apply Hincl. now left. }
  rewrite Hr. apply IH. intros t Ht. apply Hincl. now right.
Qed.

Lemma final_row_app (a b : DataFrame) :
  b <> [] -> final_row (a ++ b) = final_row b.
Proof.
  intros Hb. induction a as [|r a IH]; [easy|].
  simpl app. destruct (a ++ b) eqn:E.
  - destruct a; [simpl in E; contradiction | discriminate].
  - simpl. simpl in IH. exact IH.
Qed.

Lemma final_row_constant (r : Row) (df : DataFrame) :
  In r df -> (forall r', In r' df -> r' = r) -> final_row df = [r].
Proof.
  induction df as [|r1 df IH]; [easy|].
  intros _ Hall. destruct df as [|r2 df].
  - simpl. f_equal. apply Hall. now left.
  - change (final_row (r1 :: r2 :: df)) with (final_row (r2 :: df)).
    apply IH.
    + rewrite <- (Hall r2) by (right; now left). now left.
    + intros r' Hr'. apply Hall. now right.
Qed.

Lemma rows_at_none (t : Z) (df : DataFrame) :
  ~ In t (index df) -> rows_at t df = [].
Proof.
  induction df as [|r df IH]; [easy|].
  simpl. intros H. destruct (Z.eqb_spec (fst r) t) as [Heq|Hne].
  - exfalso. apply H. now left.
  - apply IH. intros Hin. apply H. now right.
Qed.

Lemma rows_at_some (t : Z) (df : DataFrame) :
  In t (index df) -> rows_at t df <> [].
Proof.
  intros Hin Hnil. apply in_map_iff in Hin as (r & Hr & Hin).
  assert (H : In r (rows_at t df)).
  { apply filter_In. split; [assumption|]. now apply Z.eqb_eq. }
  rewrite Hnil in H. contradiction.
Qed.

Lemma rows_at_cons (t : Z) (r : Row) (df : DataFrame) :
  rows_at t (r :: df) = if fst r =? t then r :: rows_at t df else rows_at t df.
Proof. reflexivity. Qed.

Lemma rows_at_app (t : Z) (a b : DataFrame) :
  rows_at t (a ++ b) = rows_at t a ++ rows_at t b.
Proof. apply filter_app. Qed.

(** Keep-last deduplication leaves, at every label, the last row that
    carried it. *)
Lemma rows_at_drop_index_duplicates (t : Z) (df : DataFrame) :
  rows_at t (drop_index_duplicates df) = final_row (rows_at t df).
Proof.
  induction df as [|r df IH]; [easy|].
  rewrite drop_index_duplicates_cons, (rows_at_cons t r df).
  destruct (existsb _ _) eqn:E.
  - rewrite IH. destruct (Z.eqb_spec (fst r) t) as [Heq|Hne]; [|reflexivity].
    apply existsb_label in E. rewrite Heq in E.
    apply rows_at_some in E.
    destruct (rows_at t df); [contradiction | reflexivity].
  - rewrite rows_at_cons, IH.
    destruct (Z.eqb_spec (fst r) t) as [Heq|Hne]; [|reflexivity].
    assert (Hno : ~ In t (index df)).
    { intros Hin. rewrite <- Heq in Hin. apply existsb_label in Hin. congruence. }
    rewrite (rows_at_none _ _ Hno). reflexivity.
Qed.

Lemma insert_row_perm (r : Row) (df : DataFrame) :
  Permutation (insert_row r df) (r :: df).
Proof.
  induction df as [|r' df IH]; [reflexivity|].
  simpl. destruct (fst r <=? fst r'); [reflexivity|].
  rewrite IH. apply perm_swap.
Qed.

Lemma sort_index_perm (df : DataFrame) : Permutation (sort_index df) df.
Proof.
  induction df as [|r df IH]; [reflexivity|].
  simpl. rewrite insert_row_perm. now constructor.
Qed.

Lemma sort_index_In (df : DataFrame) (r : Row) :
  In r (sort_index df) <-> In r df.
Proof.
  split; apply Permutation_in;
    [apply sort_index_perm | symmetry; apply sort_index_perm].
Qed.

Lemma sort_index_length (df : DataFrame) :
  List.length (sort_index df) = List.length df.
Proof. apply Permutation_length, sort_index_perm. Qed.

Lemma filter_perm {A : Type} (p : A -> bool) (l l' : list A) :
  Permutation l l' -> Permutation (filter p l) (filter p l').
Proof.
  induction 1 as [|x l l' _ IH|x y l|l l' l'' _ IH1 _ IH2]; simpl.
  - reflexivity.
  - destruct (p x); [now constructor | assumption].
  - destruct (p x), (p y); try reflexivity. apply perm_swap.
  - now transitivity (filter p l').
Qed.

Lemma rows_at_sort_index (t : Z) (df : DataFrame) (r : Row) :
  rows_at t df = [r] -> rows_at t (sort_index df) = [r].
Proof.
  intros H. apply Permutation_length_1_inv. rewrite <- H.
  apply filter_perm. symmetry. apply sort_index_perm.
Qed.

Lemma insert_row_sorted (r : Row) (df : DataFrame) :
  StronglySorted Z.le (index df) ->
  StronglySorted Z.le (index (insert_row r df)).
Proof.
  induction df as [|r' df IH]; intros Hs.
  - simpl. constructor; constructor.
  - simpl. destruct (Z.leb_spec (fst r) (fst r')) as [Hle|Hgt].
    + simpl. constructor; [exact Hs|].
      apply StronglySorted_inv in Hs as [_ Hall].
      constructor; [assumption|].
      eapply Forall_impl; [|exact Hall]. intros; lia.
    + simpl in Hs. apply StronglySorted_inv in Hs as [Hs Hall].
      simpl. constructor; [now apply IH|].
      assert (Hp : Permutation (index (insert_row r df)) (fst r :: index df)).
      { change (fst r :: index df) with (index (r :: df)).
        apply Permutation_map, insert_row_perm. }
      eapply Permutation_Forall; [symmetry; exact Hp|].
      constructor; [lia | assumption].
Qed.

Lemma sort_index_sorted (df : DataFrame) :
  StronglySorted Z.le (index (sort_index df)).
Proof.
  induction df as [|r df IH]; [constructor|].
  simpl. now apply insert_row_sorted.
Qed.

Lemma sorted_distinct_strict (idx : list Z) :
  StronglySorted Z.le idx -> NoDup idx -> StronglySorted Z.lt idx.
Proof.
  induction 1 as [|t idx Hs IH Hall]; intros Hnd; [constructor|].
  apply NoDup_cons_iff in Hnd as [Hnot Hnd].
  constructor; [now apply IH|].
  rewrite Forall_forall in *. intros u Hu.
  specialize (Hall u Hu). assert (u <> t) by (intros ->; contradiction). lia.
Qed.

Lemma strict_sorted_distinct (idx : list Z) :
  StronglySorted Z.lt idx -> NoDup idx.
Proof.
  induction 1 as [|t idx Hs IH Hall]; constructor; [|assumption].
  intros Hin. rewrite Forall_forall in Hall. specialize (Hall t Hin). lia.
Qed.

Lemma strict_sorted_le (idx : list Z) :
  StronglySorted Z.lt idx -> StronglySorted Z.le idx.
Proof.
  induction 1 as [|t idx Hs IH Hall]; constructor; [assumption|].
  eapply Forall_impl; [|exact Hall]. intros; lia.
Qed.

(** Sorting after deduplication gives strictly increasing labels. *)
Lemma sort_drop_strictly_increasing (df : DataFrame) :
  strictly_increasing (sort_index (drop_index_duplicates df)).
Proof.
  apply sorted_distinct_strict; [apply sort_index_sorted|].
  eapply Permutation_NoDup; [|apply (drop_index_duplicates_NoDup df)].
  apply Permutation_map. symmetry. apply sort_index_perm.
Qed.

Lemma sort_index_sorted_id (df : DataFrame) :
  StronglySorted Z.le (index df) -> sort_index df = df.
Proof.
  induction df as [|r df IH]; [easy|].
  simpl. intros Hs. apply StronglySorted_inv in Hs as [Hs Hall].
  rewrite (IH Hs). destruct df as [|r' df]; [reflexivity|].
  simpl. apply Forall_inv in Hall.
  destruct (Z.leb_spec (fst r) (fst r')); [reflexivity | lia].
Qed.

(** With distinct labels the sorted frame is determined: any two strictly
    increasing arrangements of the same rows are equal, so the sorting
    algorithm pandas picks does not show. *)
Lemma sorted_index_unique (df1 df2 : DataFrame) :
  Permutation df1 df2 ->
  strictly_increasing df1 -> strictly_increasing df2 -> df1 = df2.
Proof.
  unfold strictly_increasing. revert df2.
  induction df1 as [|r df1 IH]; intros df2 Hp H1 H2.
  - apply Permutation_nil in Hp. now subst.
  - destruct df2 as [|r2 df2].
    { symmetry in Hp. apply Permutation_nil in Hp. discriminate. }
    simpl in H1, H2.
    apply StronglySorted_inv in H1 as [H1 Hall1].
    apply StronglySorted_inv in H2 as [H2 Hall2].
    rewrite Forall_forall in Hall1, Hall2.
    assert (Heq : r = r2).
    { assert (Hin : In r (r2 :: df2)) by (eapply Permutation_in; [exact Hp | now left]).
      assert (Hin2 : In r2 (r :: df1))
        by (eapply Permutation_in; [symmetry; exact Hp | now left]).
      destruct Hin as [Hin|Hin]; [now symmetry|].
      destruct Hin2 as [Hin2|Hin2]; [assumption|].
      specialize (Hall2 (fst r) (in_map fst _ _ Hin)).
      specialize (Hall1 (fst r2) (in_map fst _ _ Hin2)). lia. }
    subst r2. f_equal. apply IH; [|assumption|assumption].
    eapply Permutation_cons_inv. exact Hp.
Qed.

End FrameFacts.

(** ** The merge-and-dedup writer *)

Lemma concat_pair (a b : DataFrame) : concat [a; b] = a ++ b.
Proof. unfold concat. simpl. now rewrite app_nil_r. Qed.

Lemma month_combined_eq (existing df : DataFrame) :
  month_combined existing df =
  sort_index (drop_index_duplicates (existing ++ df)).
Proof.
  unfold month_combined. destruct existing; [reflexivity|].
  simpl negb. cbv iota. now rewrite concat_pair.
Qed.

Lemma merge_existing_eq (existing df : DataFrame) :
  merge_existing existing df =
  sort_index (drop_index_duplicates (existing ++ df)).
Proof. unfold merge_existing. now rewrite concat_pair. Qed.

(** The rows of the merged frame at a label the new frame carries: the
    last new row with that label, and nothing else. *)
Lemma rows_at_merged_new (old new : DataFrame) (t : Z) (v : Candle) :
  In (t, v) new ->
  (forall v', In (t, v') new -> v' = v) ->
  rows_at t (sort_index (drop_index_duplicates (old ++ new))) = [(t, v)].
Proof.
  intros Hin Hall. apply rows_at_sort_index.
  rewrite rows_at_drop_index_duplicates, rows_at_app.
  assert (Hrow : In (t, v) (rows_at t new)).
  { apply filter_In. split; [assumption | apply Z.eqb_refl]. }
  rewrite final_row_app by (intros Hnil; rewrite Hnil in Hrow; contradiction).
  apply final_row_constant; [assumption|].
  intros [t' v'] Hr. apply filter_In in Hr as [Hr Ht].
  simpl in Ht. apply Z.eqb_eq in Ht. subst t'. f_equal. now apply Hall.
Qed.

(** Merging a frame into itself deduplicates and sorts it. *)
Lemma merge_self_normalises (S : DataFrame) :
  sort_index (drop_index_duplicates (S ++ S)) =
  sort_index (drop_index_duplicates S).
Proof. rewrite drop_index_duplicates_covered; [reflexivity | apply incl_refl]. Qed.

Lemma merge_self_of_increasing (S : DataFrame) :
  strictly_increasing S ->
  sort_index (drop_index_duplicates (S ++ S)) = S.
Proof.
  intros HS. rewrite merge_self_normalises.
  rewrite drop_index_duplicates_distinct by now apply strict_sorted_distinct.
  apply sort_index_sorted_id. now apply strict_sorted_le.
Qed.

(** C7: every frame the merge-and-dedup writer produces has strictly
    increasing timestamps, with no duplicate and no inversion.  This holds
    for the merge of [update_symbols_to_now] (with or without a stored
    file) and for the month partition of [write_month_partition], whatever
    the stored and the new rows are. *)
Theorem merged_series_strictly_increasing
  (file : option DataFrame) (all_chunks : list DataFrame)
  (existing df : DataFrame) :
  strictly_increasing (update_merge file all_chunks) /\
  strictly_increasing (month_combined existing df).
Proof.
  split.
  - unfold update_merge, merge_existing, combine_chunks.
    destruct file; apply sort_drop_strictly_increasing.
  - rewrite month_combined_eq. apply sort_drop_strictly_increasing.
Qed.

(** C2: last write wins.  When a timestamp [t] is present in the old and
    in the new frame with differing values, the merged frame holds at [t]
    exactly one row, and it carries the value of the new frame; in
    [update_symbols_to_now] and in [write_month_partition] alike. *)
Theorem merge_last_write_wins
  (old new : DataFrame) (t : Z) (v_old v_new : Candle) :
  In (t, v_old) old ->
  In (t, v_new) new ->
  (forall v, In (t, v) new -> v = v_new) ->
  v_old <> v_new ->
  rows_at t (merge_existing old new) = [(t, v_new)] /\
  rows_at t (month_combined old new) = [(t, v_new)].
Proof.
  intros _ Hnew Hall _.
  rewrite merge_existing_eq, month_combined_eq.
  split; now apply rows_at_merged_new.
Qed.

(** C8 (as amended): merging a frame with itself gives the frame back, in
    length and content, when its timestamps are strictly increasing, as
    those of every frame the writer has produced are. *)
Theorem merge_self_identity (S : DataFrame) :
  strictly_increasing S ->
  merge_existing S S = S /\ month_combined S S = S.
Proof.
  intros HS. rewrite merge_existing_eq, month_combined_eq.
  split; now apply merge_self_of_increasing.
Qed.

(** In particular merging is idempotent on what the writer wrote. *)
Lemma merge_existing_idempotent (old new : DataFrame) :
  let S := merge_existing old new in merge_existing S S = S.
Proof.
  intros S. rewrite (merge_existing_eq S S). apply merge_self_of_increasing.
  unfold S. rewrite merge_existing_eq. apply sort_drop_strictly_increasing.
Qed.

(** On any frame, merging it with itself is deduplication and sorting. *)
Lemma merge_self_is_sort_dedup (S : DataFrame) :
  merge_existing S S = sort_index (drop_index_duplicates S) /\
  month_combined S S = sort_index (drop_index_duplicates S).
Proof.
  rewrite merge_existing_eq, month_combined_eq.
  split; apply merge_self_normalises.
Qed.

(** Two flat candles at different prices differ. *)
Lemma flat_20_21 : flat 20 <> flat 21.
Proof.
  intros H. apply (f_equal (fun c => PrimFloat.ltb (close c) 20.5)) in H.
  vm_compute in H. discriminate H.
Qed.

Lemma merge_last_write_wins_witness :
  let old := [(1, flat 10); (2, flat 20)] in
  let new := [(2, flat 21); (3, flat 30)] in
  rows_at 2 (merge_existing old new) = [(2, flat 21)] /\
  rows_at 2 (month_combined old new) = [(2, flat 21)].
Proof.
  intros old new.
  apply (merge_last_write_wins old new 2 (flat 20) (flat 21)).
  - simpl. auto.
  - simpl. auto.
  - intros v [H|[H|[]]]; inversion H. reflexivity.
  - exact flat_20_21.
Defined.

Lemma merge_self_identity_witness :
  let S := [(1, flat 10); (2, flat 20); (3, flat 30)] in
  merge_existing S S = S /\ month_combined S S = S.
Proof.
  intros S. apply (merge_self_identity S).
  unfold strictly_increasing. simpl.
  repeat constructor.
Defined.

(** C8 as stated fails on frames the writer accepts: rows out of order
    come back sorted, and rows sharing a timestamp come back as one. *)
Lemma merge_self_counterexample :
  let unsorted := [(2, flat 20); (1, flat 10)] in
  let repeated := [(1, flat 10); (1, flat 11)] in
  merge_existing unsorted unsorted <> unsorted /\
  month_combined unsorted unsorted <> unsorted /\
  List.length (merge_existing repeated repeated) <> List.length repeated.
Proof.
  cbv zeta. repeat split; intros H; vm_compute in H; discriminate H.
Qed.

(** ** [save_data]: appending to a stored partition *)

Lemma final_row_small (df : DataFrame) :
  final_row df = [] \/ exists r, final_row df = [r].
Proof.
  induction df as [|r df IH]; [now left|].
  destruct df as [|r' df]; [right; now exists r|].
  exact IH.
Qed.

Lemma final_row_idem (df : DataFrame) : final_row (final_row df) = final_row df.
Proof.
  destruct (final_row_small df) as [H|[r H]]; rewrite H; reflexivity.
Qed.

Lemma rows_at_sort_drop (t : Z) (df : DataFrame) :
  rows_at t (sort_index (drop_index_duplicates df)) = final_row (rows_at t df).
Proof.
  assert (Hp : Permutation (rows_at t (drop_index_duplicates df))
                           (rows_at t (sort_index (drop_index_duplicates df)))).
  { apply filter_perm. symmetry. apply sort_index_perm. }
  rewrite rows_at_drop_index_duplicates in Hp.
  destruct (final_row_small (rows_at t df)) as [H|[r H]]; rewrite H in *.
  - now apply Permutation_nil in Hp.
  - now apply Permutation_length_1_inv in Hp.
Qed.

Lemma rows_at_distinct (t : Z) (df : DataFrame) :
  NoDup (index df) -> final_row (rows_at t df) = rows_at t df.
Proof.
  induction df as [|r df IH]; [reflexivity|].
  simpl index. intros Hnd. apply NoDup_cons_iff in Hnd as [Hnot Hnd].
  rewrite rows_at_cons. destruct (Z.eqb_spec (fst r) t) as [Heq|Hne].
  - rewrite rows_at_none; [reflexivity | now rewrite <- Heq].
  - now apply IH.
Qed.

Lemma rows_at_In (t : Z) (df : DataFrame) (r : Row) :
  In r (rows_at t df) <-> In r df /\ fst r = t.
Proof. unfold rows_at. rewrite filter_In, Z.eqb_eq. reflexivity. Qed.

Lemma rows_at_index_gt (L t : Z) (df : DataFrame) :
  t <= L -> rows_at t (index_gt L df) = [].
Proof.
  intros Hle. apply rows_at_none. intros Hin.
  apply in_map_iff in Hin as (r & Hr & Hin).
  apply filter_In in Hin as [_ Hgt]. apply Z.ltb_lt in Hgt. lia.
Qed.

Lemma index_last_In (df : DataFrame) (L : Z) :
  index_last df = Ok L -> In L (index df).
Proof.
  induction df as [|r df IH]; [discriminate|].
  destruct df as [|r' df].
  - intros H. inversion H. now left.
  - intros H. right. now apply IH.
Qed.

(** In a file kept in time order the last stored timestamp is the latest. *)
Lemma index_last_latest (df : DataFrame) (L : Z) :
  StronglySorted Z.le (index df) -> index_last df = Ok L ->
  forall t, In t (index df) -> t <= L.
Proof.
  induction df as [|r df IH]; [discriminate|].
  intros Hs HL t Ht. simpl in Hs. apply StronglySorted_inv in Hs as [Hs Hall].
  destruct df as [|r' df].
  - inversion HL; subst. destruct Ht as [<-|[]]. lia.
  - change (index_last (r :: r' :: df)) with (index_last (r' :: df)) in HL.
    destruct Ht as [<-|Ht]; [|now apply IH].
    rewrite Forall_forall in Hall. apply Hall. now apply index_last_In.
Qed.

(** C9: when the partition file exists with last stored timestamp [L],
    [save_data] appends only the fetched rows later than [L].  Every row
    of the file after the call is a stored row or a fetched row later than
    [L]; at every timestamp up to [L] the stored value stands, and all
    stored rows stand when their timestamps are distinct; a fetched row at
    a timestamp up to [L] that differs from what is stored is dropped, and
    in a file kept in time order that is every stored timestamp. *)
Theorem save_data_keeps_stored_rows
  (sym timeframe : string) (existing df : DataFrame) (L : Z) :
  index_last existing = Ok L ->
  exists w final,
    save_symbol sym timeframe (Some existing) df = Ok w /\
    file_after_save (Some existing) w = Some final /\
    (forall r, In r final -> In r existing \/ (In r df /\ L < fst r)) /\
    (forall t, t <= L ->
       final_row (rows_at t final) = final_row (rows_at t existing)) /\
    (NoDup (index existing) ->
       forall t, t <= L -> rows_at t final = rows_at t existing) /\
    (forall r, In r df -> fst r <= L -> ~ In r existing -> ~ In r final) /\
    (StronglySorted Z.le (index existing) ->
       forall r, In r df -> In (fst r) (index existing) ->
                 ~ In r existing -> ~ In r final).
Proof.
  intros HL.
  assert (Hcases :
    exists w final,
      save_symbol sym timeframe (Some existing) df = Ok w /\
      file_after_save (Some existing) w = Some final /\
      (final = existing \/
       final = sort_index (drop_index_duplicates (existing ++ index_gt L df)))).
  { unfold save_symbol. destruct (empty df) eqn:Edf.
    - exists None, existing. simpl. auto.
    - rewrite HL. simpl bind. destruct (empty (index_gt L df)) eqn:Enew; simpl negb; cbv iota.
      + eexists (Some _), existing.
        split; [reflexivity|]. split; [reflexivity|]. now left.
      + rewrite app_nil_r. eexists (Some _), _.
        split; [reflexivity|]. split; [reflexivity|]. now right. }
  destruct Hcases as (w & final & Hsave & Hfile & Hfinal).
  exists w, final. split; [exact Hsave|]. split; [exact Hfile|].
  assert (Hsrc : forall r, In r final -> In r existing \/ (In r df /\ L < fst r)).
  { intros r Hr. destruct Hfinal as [->| ->]; [now left|].
    apply sort_index_In, drop_index_duplicates_incl, in_app_or in Hr.
    destruct Hr as [Hr|Hr]; [now left|]. right.
    apply filter_In in Hr as [Hr Hgt]. apply Z.ltb_lt in Hgt. now split. }
  assert (Hval : forall t, t <= L ->
            final_row (rows_at t final) = final_row (rows_at t existing)).
  { intros t Ht. destruct Hfinal as [->| ->]; [reflexivity|].
    rewrite rows_at_sort_drop, rows_at_app, (rows_at_index_gt L t df Ht), app_nil_r.
    apply final_row_idem. }
  assert (Hdrop : forall r, In r df -> fst r <= L -> ~ In r existing -> ~ In r final).
  { intros r Hdf Hle Hnot Hin.
    destruct (Hsrc r Hin) as [Hex|[_ Hgt]]; [contradiction | lia]. }
  split; [exact Hsrc|]. split; [exact Hval|]. split; [|split; [exact Hdrop|]].
  - intros Hnd t Ht. destruct Hfinal as [->| ->]; [reflexivity|].
    rewrite rows_at_sort_drop, rows_at_app, (rows_at_index_gt L t df Ht), app_nil_r.
    now apply rows_at_distinct.
  - intros Hsorted r Hdf Hstored. apply Hdrop; [assumption|].
    now apply (index_last_latest existing L Hsorted HL).
Qed.

Lemma save_data_keeps_stored_rows_witness :
  let existing := [(1, flat 10); (2, flat 20)] in
  let df := [(2, flat 21); (3, flat 30)] in
  exists w final,
    save_symbol "BTC/USDT" "1h" (Some existing) df = Ok w /\
    file_after_save (Some existing) w = Some final /\
    (forall r, In r final -> In r existing \/ (In r df /\ 2 < fst r)) /\
    (forall t, t <= 2 ->
       final_row (rows_at t final) = final_row (rows_at t existing)) /\
    (NoDup (index existing) ->
       forall t, t <= 2 -> rows_at t final = rows_at t existing) /\
    (forall r, In r df -> fst r <= 2 -> ~ In r existing -> ~ In r final) /\
    (StronglySorted Z.le (index existing) ->
       forall r, In r df -> In (fst r) (index existing) ->
                 ~ In r existing -> ~ In r final).
Proof.
  intros existing df.
  apply (save_data_keeps_stored_rows "BTC/USDT" "1h" existing df 2).
  reflexivity.
Defined.

(** The worked case of C9: the differing bar fetched for the stored
    timestamp 2 is discarded, the bar for 3 is appended. *)
Example save_data_discards_revision :
  option_map (fun w => w_file w)
    match save_symbol "BTC/USDT" "1h"
            (Some [(1, flat 10); (2, flat 20)]) [(2, flat 21); (3, flat 30)] with
    | Ok w => w
    | Raise _ => None
    end
  = Some (Some [(1, flat 10); (2, flat 20); (3, flat 30)]).
Proof. reflexivity. Qed.

(** A stored file that is out of time order can hold a timestamp later
    than its last row; there the fetched value replaces the stored one. *)
Example save_data_file_out_of_order :
  option_map (fun w => w_file w)
    match save_symbol "BTC/USDT" "1h"
            (Some [(5, flat 50); (3, flat 30)]) [(5, flat 51)] with
    | Ok w => w
    | Raise _ => None
    end
  = Some (Some [(3, flat 30); (5, flat 51)]).
Proof. reflexivity. Qed.

(** ** The manifest synthesizer: total return *)

Lemma close_last_snoc (df : DataFrame) (r : Row) :
  close_last (df ++ [r]) = close (snd r).
Proof. unfold close_last. now rewrite rev_unit. Qed.

(** The fetcher's manifests: the formula from two rows on, null below. *)
Lemma fetcher_total_return_two_rows (r1 rn : Row) (mid : DataFrame) :
  fetcher_total_return_pct (r1 :: mid ++ [rn]) =
  Some ((close (snd rn) / close (snd r1) - 1) * 100)%float.
Proof.
  unfold fetcher_total_return_pct.
  rewrite (app_comm_cons mid [rn] r1), close_last_snoc.
  destruct mid; reflexivity.
Qed.

Lemma fetcher_total_return_short (df : DataFrame) :
  (List.length df < 2)%nat -> fetcher_total_return_pct df = None.
Proof.
  intros H. unfold fetcher_total_return_pct.
  destruct (Nat.leb_spec 2 (List.length df)); [lia | reflexivity].
Qed.

(** The importer's month manifest: the formula on any non-empty partition
    whose first close is not zero, null when it is zero. *)
Lemma month_total_return_rows (r1 rn : Row) (mid : DataFrame) :
  month_total_return_pct (r1 :: mid ++ [rn]) =
  Some (if PrimFloat.eqb (close (snd r1)) 0 then None
        else Some ((close (snd rn) / close (snd r1) - 1) * 100)%float).
Proof.
  unfold month_total_return_pct.
  rewrite (app_comm_cons mid [rn] r1), close_last_snoc.
  simpl. now destruct (PrimFloat.eqb (close (snd r1)) 0).
Qed.

Lemma month_total_return_one_row (r : Row) :
  month_total_return_pct [r] =
  Some (if PrimFloat.eqb (close (snd r)) 0 then None
        else Some ((close (snd r) / close (snd r) - 1) * 100)%float).
Proof.
  unfold month_total_return_pct. simpl.
  now destruct (PrimFloat.eqb (close (snd r)) 0).
Qed.

(** C1, evaluated.  Both writers give 50.0 for closes 100 and 150.  They
    part on the two null cases: the fetcher's manifest is null on one row
    but not on a zero first close, where numpy's division yields infinity;
    the month manifest is null on a zero first close but not on one row,
    where the formula yields 0.0. *)
Theorem total_return_pct_cases :
  fetcher_total_return_pct [(1, flat 100); (2, flat 150)] = Some 50%float /\
  month_total_return_pct [(1, flat 100); (2, flat 150)] = Some (Some 50%float) /\
  fetcher_total_return_pct [(1, flat 100)] = None /\
  month_total_return_pct [(1, flat 0); (2, flat 5)] = Some None /\
  fetcher_total_return_pct [(1, flat 0); (2, flat 5)] = Some infinity /\
  month_total_return_pct [(1, flat 100)] = Some (Some 0%float).
Proof. repeat split; reflexivity. Qed.

(** ** The chunked range fetcher *)

Lemma index_last_raise (df : DataFrame) (e : exn) :
  index_last df = Raise e -> df = [].
Proof.
  induction df as [|r df IH]; [reflexivity|].
  destruct df as [|r' df]; [discriminate|].
  intros H. apply IH in H. discriminate.
Qed.

Lemma index_last_ok (df : DataFrame) (t : Z) :
  index_last df = Ok t -> df <> [].
Proof. intros H ->. discriminate. Qed.

(** *** The conversion of a timestamp to milliseconds *)

Lemma timestamp_ms_lower (t : Z) : t - 1 <= timestamp_ms t.
Proof.
  unfold timestamp_ms.
  destruct (0 <=? t); destruct (PrimFloat.ltb _ _); lia.
Qed.

Lemma timestamp_ms_upper (t : Z) : timestamp_ms t <= t + 1.
Proof.
  unfold timestamp_ms.
  destruct (0 <=? t); destruct (PrimFloat.ltb _ _); lia.
Qed.

Lemma timestamp_ms_le (t : Z) : 0 <= t -> timestamp_ms t <= t.
Proof.
  intros Ht. unfold timestamp_ms.
  destruct (Z.leb_spec 0 t); [|lia].
  destruct (PrimFloat.ltb _ _); lia.
Qed.

(** At the whole seconds of this sample, and at its instants from
    2004-11-03 to 2038-01-19, the conversion is the instant itself. *)
Example timestamp_ms_exact_instants :
  map timestamp_ms
    [0; 999; 1000; 60000; 1099511627776; 1500000000001; 1717200000000;
     1717200000123; 1717286399999; 2147483647999] =
    [0; 999; 1000; 60000; 1099511627776; 1500000000001; 1717200000000;
     1717200000123; 1717286399999; 2147483647999].
Proof. vm_compute. reflexivity. Qed.

(** It falls one millisecond short at 1970-01-01 00:00:01.001, at an
    instant of April 2004 and at one of October 2038, and one millisecond
    towards zero before the epoch. *)
Example timestamp_ms_truncated_instants :
  map timestamp_ms [1001; 1083077184672; 2169944413411; -1001] =
    [1000; 1083077184671; 2169944413410; -1000].
Proof. vm_compute. reflexivity. Qed.

(** On these instants it is the product with its fraction dropped. *)
Example timestamp_ms_is_int_of_product :
  let instants :=
    [0; 999; 1000; 1001; 1003; 2002; 60000; 1083077184672; 1717200000000;
     1717200000123; 2169944413411; -1; -1000; -1001] in
  map timestamp_ms instants =
  map (fun t => int_of_float (timestamp_seconds t * 1000)%float) instants.
Proof. vm_compute. reflexivity. Qed.

(** So it is on every millisecond of the first five seconds after the
    epoch, of five seconds of June 2024 and of five seconds of October
    2038; in June 2024 none of them is converted short. *)
Example timestamp_ms_is_int_of_product_ranges :
  forallb
    (fun start =>
       forallb
         (fun i =>
            let t := start + Z.of_nat i in
            timestamp_ms t =? int_of_float (timestamp_seconds t * 1000)%float)
         (seq 0 5000))
    [0; 1717200000000; 2169944410000] = true /\
  forallb (fun i => timestamp_ms (1717200000000 + Z.of_nat i)
                    =? 1717200000000 + Z.of_nat i) (seq 0 5000) = true.
Proof. split; vm_compute; reflexivity. Qed.

(** ** The chunked range fetcher and the steps of the specification *)

Section FetchLoopFacts.

Variable Exchange : Type.
Variable fetch_ohlcv :
  Exchange -> string -> string -> Z -> Z -> option (list Kline) * Exchange.
Variables (sym timeframe : string) (end_ms : Z).

Let loop := fun fuel => fetch_loop fetch_ohlcv fuel sym timeframe end_ms.
Let step := spec_step fetch_ohlcv sym timeframe end_ms.
Let steps := spec_steps fetch_ohlcv sym timeframe end_ms.

Lemma fetch_loop_iteration (fuel : nat) (x : Exchange) (cursor : Z)
  (acc : list DataFrame) :
  fetch_loop fetch_ohlcv (S fuel) sym timeframe end_ms x cursor acc =
  let (df, x') := fetch_ohlcv_safe fetch_ohlcv x sym timeframe cursor page_size in
  match index_last df with
  | Raise _ => Some (acc, x')
  | Ok last =>
      if end_ms <=? timestamp_ms last then
        Some (acc ++ [index_le end_ms df], x')
      else if Z.of_nat (List.length df) <? page_size then
        Some (acc ++ [df], x')
      else
        fetch_loop fetch_ohlcv fuel sym timeframe end_ms x' (timestamp_ms last + 1)
                   (acc ++ [df])
  end.
Proof. reflexivity. Qed.

Lemma stopped_is_final pages x s :
  steps (Stopped pages x) s -> s = Stopped pages x.
Proof.
  intros H. inversion H as [|s1 s2 s3 Hstep _]; [reflexivity|].
  inversion Hstep.
Qed.

(** The steps of the specification leave one way forward. *)
Lemma spec_step_deterministic s s1 s2 : step s s1 -> step s s2 -> s1 = s2.
Proof.
  intros H1 H2.
  destruct H1; inversion H2; subst;
    repeat match goal with
    | Ha : fetch_ohlcv_safe _ _ _ _ _ _ = _,
      Hb : fetch_ohlcv_safe _ _ _ _ _ _ = _ |- _ =>
        rewrite Ha in Hb; inversion Hb; subst; clear Hb
    | Ha : index_last ?p = Ok _, Hb : index_last ?p = Ok _ |- _ =>
        rewrite Ha in Hb; inversion Hb; subst; clear Hb
    end;
    try reflexivity; try discriminate; try lia.
Qed.

Section ExactPages.

(** The last timestamp of every page the exchange answers with converts
    to milliseconds exactly. *)
Hypothesis exact_last :
  forall x cursor page x' last,
    fetch_ohlcv_safe fetch_ohlcv x sym timeframe cursor page_size = (page, x') ->
    index_last page = Ok last ->
    timestamp_ms last = last.

Lemma fetch_loop_sound fuel x cursor pages chunks x' :
  loop fuel x cursor pages = Some (chunks, x') ->
  steps (Fetching cursor pages x) (Stopped chunks x').
Proof.
  revert x cursor pages.
  induction fuel as [|fuel IH]; intros x cursor pages H; [discriminate|].
  unfold loop in H. rewrite fetch_loop_iteration in H.
  destruct (fetch_ohlcv_safe fetch_ohlcv x sym timeframe cursor page_size)
    as [df x1] eqn:F.
  destruct (index_last df) as [last_ts|e] eqn:IL.
  - rewrite (exact_last _ _ _ _ _ F IL) in H.
    destruct (Z.leb_spec end_ms last_ts) as [Hend|Hend].
    + inversion H; subst. eapply steps_next; [|apply steps_done].
      eapply step_reached_end; eassumption.
    + destruct (Z.ltb_spec (Z.of_nat (List.length df)) page_size) as [Hlen|Hlen].
      * inversion H; subst. eapply steps_next; [|apply steps_done].
        eapply step_short_page; eassumption.
      * eapply steps_next; [|apply IH; exact H].
        eapply step_advance; eassumption.
  - apply index_last_raise in IL. subst df. inversion H; subst.
    eapply steps_next; [|apply steps_done].
    apply step_empty_page. exact F.
Qed.

Lemma fetch_loop_complete s s' :
  steps s s' ->
  forall cursor pages x chunks x',
    s = Fetching cursor pages x ->
    s' = Stopped chunks x' ->
    exists fuel, loop fuel x cursor pages = Some (chunks, x').
Proof.
  induction 1 as [s|s1 s2 s3 Hstep Hsteps IH];
    intros cursor pages x chunks x' Hs Hs'.
  - subst. discriminate.
  - subst. inversion Hstep as
      [c p y y' F | c p y page y' last_ts F IL Hend
      | c p y page y' last_ts F IL Hend Hlen
      | c p y page y' last_ts F IL Hend Hlen]; subst.
    + apply stopped_is_final in Hsteps. inversion Hsteps; subst.
      exists 1%nat. unfold loop. rewrite fetch_loop_iteration, F. reflexivity.
    + apply stopped_is_final in Hsteps. inversion Hsteps; subst.
      exists 1%nat. unfold loop.
      rewrite fetch_loop_iteration, F, IL, (exact_last _ _ _ _ _ F IL).
      destruct (Z.leb_spec end_ms last_ts); [reflexivity | lia].
    + apply stopped_is_final in Hsteps. inversion Hsteps; subst.
      exists 1%nat. unfold loop.
      rewrite fetch_loop_iteration, F, IL, (exact_last _ _ _ _ _ F IL).
      destruct (Z.leb_spec end_ms last_ts); [lia|].
      destruct (Z.ltb_spec (Z.of_nat (List.length page)) page_size); [reflexivity | lia].
    + destruct (IH _ _ _ _ _ eq_refl eq_refl) as [fuel Hfuel].
      exists (S fuel). unfold loop.
      rewrite fetch_loop_iteration, F, IL, (exact_last _ _ _ _ _ F IL).
      destruct (Z.leb_spec end_ms last_ts); [lia|].
      destruct (Z.ltb_spec (Z.of_nat (List.length page)) page_size); [lia|].
      exact Hfuel.
Qed.

(** Where the last timestamp of every page converts exactly, the loop
    takes the steps the specification lists, and only those. *)
Lemma fetch_loop_steps_when_exact (x : Exchange) (start : Z)
  (chunks : list DataFrame) (x' : Exchange) :
  (exists fuel,
     fetch_loop fetch_ohlcv fuel sym timeframe end_ms x start [] =
     Some (chunks, x')) <->
  spec_steps fetch_ohlcv sym timeframe end_ms
    (Fetching start [] x) (Stopped chunks x').
Proof.
  split.
  - intros [fuel H]. now apply (fetch_loop_sound fuel).
  - intros H. now apply (fetch_loop_complete _ _ H).
Qed.

End ExactPages.

End FetchLoopFacts.

(** The candles of [minute_fetch] are at whole minutes, where the
    conversion is exact. *)
Lemma minute_instants_exact (i : nat) :
  (i < 3000)%nat ->
  timestamp_ms (60000 * Z.of_nat i) = 60000 * Z.of_nat i.
Proof.
  intros Hi.
  assert (H : forallb (fun i => timestamp_ms (60000 * Z.of_nat i) =? 60000 * Z.of_nat i)
                (seq 0 3000) = true) by (vm_compute; reflexivity).
  rewrite forallb_forall in H. apply Z.eqb_eq, H, in_seq. lia.
Qed.

Lemma firstn_incl {A : Type} (n : nat) (l : list A) (a : A) :
  In a (firstn n l) -> In a l.
Proof.
  intros H. rewrite <- (firstn_skipn n l). apply in_or_app. now left.
Qed.

Lemma minute_fetch_instants (total calls : nat) (sym timeframe : string)
  (since limit : Z) (page : DataFrame) (x' : nat) (t : Z) :
  fetch_ohlcv_safe (minute_fetch total) calls sym timeframe since limit = (page, x') ->
  In t (index page) ->
  exists i, (i < total)%nat /\ t = 60000 * Z.of_nat i.
Proof.
  unfold fetch_ohlcv_safe, minute_fetch. intros H Ht.
  inversion H; subst. clear H.
  unfold index in Ht. rewrite map_map in Ht. simpl in Ht.
  apply in_map_iff in Ht as (k & <- & Hk).
  apply firstn_incl, filter_In in Hk as [Hk _].
  apply in_map_iff in Hk as (i & <- & Hi). apply in_seq in Hi.
  exists i. split; [lia | reflexivity].
Qed.

(** A run that takes every kind of step: against [minute_fetch] with 2500
    candles and the window up to minute 2200, two full pages, then a page
    cut at the end of the window; the steps of the specification lead to
    the same three pages. *)
Example fetch_loop_three_pages :
  match fetch_loop (minute_fetch 2500) 5 "BTC/USDT" "1m" 132000000 O 0 [] with
  | Some (chunks, calls) =>
      (map (fun df => (List.length df, index_first df, index_last df)) chunks, calls)
  | None => ([], O)
  end
  = ([(1000%nat, Ok 0, Ok 59940000); (1000%nat, Ok 60000000, Ok 119940000);
      (201%nat, Ok 120000000, Ok 132000000)], 3%nat).
Proof. vm_compute. reflexivity. Qed.

Example fetch_loop_three_pages_steps :
  match fetch_loop (minute_fetch 2500) 5 "BTC/USDT" "1m" 132000000 O 0 [] with
  | Some (chunks, calls) =>
      spec_steps (minute_fetch 2500) "BTC/USDT" "1m" 132000000
        (Fetching 0 [] O) (Stopped chunks calls)
  | None => False
  end.
Proof.
  destruct (fetch_loop (minute_fetch 2500) 5 "BTC/USDT" "1m" 132000000 O 0 [])
    as [[chunks calls]|] eqn:E; [|vm_compute in E; discriminate E].
  apply (fetch_loop_steps_when_exact nat (minute_fetch 2500) "BTC/USDT" "1m"
           132000000).
  - intros x cursor page x' last F IL.
    destruct (minute_fetch_instants 2500 x "BTC/USDT" "1m" cursor page_size page x'
                last F (index_last_In _ _ IL)) as (i & Hi & ->).
    apply minute_instants_exact. lia.
  - exists 5%nat. exact E.
Qed.

(** C3: the loop takes the listed steps except where the conversion of the
    page's last timestamp to milliseconds falls short of it.  The exchange
    lists one candle per millisecond up to 1001; the fetch starts at 2 and
    its window ends at 1001.  The first page is full and its last
    timestamp is 1001, the end of the window: by the steps of the
    specification the loop stops there, with that one page.  The code
    takes the last timestamp for 1000, does not stop (one iteration is not
    enough), asks again at 1001 and returns a second page. *)
Theorem fetch_loop_misses_end_by_truncation :
  let page := fst (fetch_ohlcv_safe (toy_fetch 1002) O "BTC/USDT" "1m" 2 page_size) in
  let again := fst (fetch_ohlcv_safe (toy_fetch 1002) 1%nat "BTC/USDT" "1m" 1001 page_size) in
  (List.length page, index_first page, index_last page) = (1000%nat, Ok 2, Ok 1001) /\
  timestamp_ms 1001 = 1000 /\
  spec_step (toy_fetch 1002) "BTC/USDT" "1m" 1001
    (Fetching 2 [] O) (Stopped [index_le 1001 page] 1%nat) /\
  fetch_loop (toy_fetch 1002) 1 "BTC/USDT" "1m" 1001 O 2 [] = None /\
  fetch_loop (toy_fetch 1002) 2 "BTC/USDT" "1m" 1001 O 2 [] =
    Some ([page; again], 2%nat) /\
  index again = [1001].
Proof.
  cbv zeta. split; [vm_compute; reflexivity|].
  split; [vm_compute; reflexivity|]. split.
  - change (spec_step (toy_fetch 1002) "BTC/USDT"%string "1m"%string 1001
              (Fetching 2 [] O)
              (Stopped
                 ([] ++ [filter (fun r : Row => fst r <=? 1001)
                           (fst (fetch_ohlcv_safe (toy_fetch 1002) O "BTC/USDT"%string
                                   "1m"%string 2 page_size))])
                 1%nat)).
    eapply step_reached_end with (last_ts := 1001).
    + vm_compute. reflexivity.
    + vm_compute. reflexivity.
    + lia.
  - split; [vm_compute; reflexivity|].
    split; vm_compute; reflexivity.
Qed.

(** ** The incremental resume planner *)

Section TimeframeFacts.

Local Open Scope string_scope.

Lemma length_snoc (s : string) (c : ascii) :
  String.length (s ++ String c "") = S (String.length s).
Proof. induction s as [|a s IH]; simpl; [reflexivity | now rewrite IH]. Qed.

Lemma substring_last (s : string) (c : ascii) :
  substring (String.length s) 1 (s ++ String c "") = String c "".
Proof. induction s as [|a s IH]; simpl; [reflexivity | exact IH]. Qed.

Lemma endswith_snoc (s : string) (c c' : ascii) :
  Py.endswith (s ++ String c "") (String c' "") = Ascii.eqb c c'.
Proof.
  unfold Py.endswith. rewrite length_snoc. simpl String.length.
  replace (S (String.length s) - 1)%nat with (String.length s) by lia.
  rewrite substring_last. simpl.
  destruct (Ascii.eqb c c'); reflexivity.
Qed.

Lemma remove_char_digits (s : string) (c : ascii) :
  Py.all_digits s = true -> Py.is_digit c = false ->
  Py.remove_char c (s ++ String c "") = s.
Proof.
  intros Hs Hc. induction s as [|a s IH]; simpl.
  - now rewrite Ascii.eqb_refl.
  - simpl in Hs. apply andb_prop in Hs as [Ha Hs].
    destruct (Ascii.eqb_spec a c) as [->|_]; [congruence|].
    now rewrite IH.
Qed.

(** A timeframe with a bar duration is a count followed by a unit. *)
Lemma bar_duration_from_shape (s : string) (count : option Z) (delta : Z) :
  bar_duration_from count s = Some delta ->
  exists digits c u,
    s = digits ++ String c "" /\
    Py.all_digits digits = true /\
    unit_ms c = Some u /\
    (count = None -> digits <> "") /\
    delta = Py.int_acc (match count with Some n => n | None => 0 end) digits * u.
Proof.
  revert count. induction s as [|a s IH]; intros count H; [discriminate|].
  destruct s as [|b s].
  - simpl in H. destruct count as [n|]; [|discriminate].
    destruct (unit_ms a) as [u|] eqn:Hu; [|discriminate].
    inversion H; subst. exists "", a, u. simpl. repeat split; congruence.
  - change (bar_duration_from count (String a (String b s)))
      with (if Py.is_digit a
            then bar_duration_from
                   (Some (10 * match count with Some n => n | None => 0 end
                          + (Z.of_nat (nat_of_ascii a) - 48))) (String b s)
            else None) in H.
    destruct (Py.is_digit a) eqn:Ha; [|discriminate].
    apply IH in H as (digits & c & u & Hs & Hd & Hu & _ & Hdelta).
    exists (String a digits), c, u. simpl. rewrite Hs, Ha, Hd.
    repeat split; try assumption; try discriminate.
Qed.

Lemma unit_ms_not_digit (c : ascii) (u : Z) :
  unit_ms c = Some u -> Py.is_digit c = false.
Proof.
  unfold unit_ms. intros H.
  repeat match type of H with
  | (if Ascii.eqb ?a ?b then _ else _) = _ =>
      destruct (Ascii.eqb_spec a b) as [->|_]; [reflexivity|]
  end.
  discriminate.
Qed.

Lemma isdigit_nonempty (s : string) :
  Py.all_digits s = true -> s <> "" -> Py.isdigit s = true.
Proof. destruct s; [congruence | intros H _; exact H]. Qed.

(** On hour and day timeframes the planner's interval is the bar. *)
Lemma interval_ms_is_bar_duration (timeframe : string) (delta : Z) :
  bar_duration_ms timeframe = Some delta ->
  Py.endswith timeframe "h" = true \/ Py.endswith timeframe "d" = true ->
  interval_ms timeframe = delta.
Proof.
  intros Hbar Hend.
  apply bar_duration_from_shape in Hbar
    as (digits & c & u & -> & Hd & Hu & Hne & ->).
  specialize (Hne eq_refl).
  pose proof (unit_ms_not_digit c u Hu) as Hc.
  unfold interval_ms. rewrite !endswith_snoc in *.
  destruct (Ascii.eqb_spec c "h") as [->|Hh].
  - rewrite (remove_char_digits digits "h" Hd Hc), (isdigit_nonempty _ Hd Hne).
    inversion Hu. reflexivity.
  - destruct Hend as [Hend|Hend]; [discriminate|].
    destruct (Ascii.eqb_spec c "d") as [->|]; [|discriminate].
    rewrite (remove_char_digits digits "d" Hd Hc), (isdigit_nonempty _ Hd Hne).
    inversion Hu. reflexivity.
Qed.

End TimeframeFacts.

(** C4 (as amended): with a stored series whose last timestamp is [T] the
    planner returns [T - overlap * interval] wherever that instant
    converts to milliseconds exactly, where the interval is the bar
    duration for every hour and day timeframe (so [T - 2 * delta] for an
    overlap of 2) and one hour for every timeframe that ends neither in
    [h] nor in [d]; without a stored series and with a number of days it
    returns now minus [days_back] days, in milliseconds, wherever the
    process reads that naive datetime as UTC and converts it exactly. *)
Theorem resume_since_planner (naive_timestamp_ms : Z -> Z) (timeframe : string)
  (overlap now_utc : Z) :
  (forall existing T days_back,
     index_last existing = Ok T ->
     timestamp_ms (T - overlap * interval_ms timeframe) =
       T - overlap * interval_ms timeframe ->
     resume_since naive_timestamp_ms (Some existing) timeframe days_back overlap
       now_utc =
     Ok (T - overlap * interval_ms timeframe)) /\
  (forall delta,
     bar_duration_ms timeframe = Some delta ->
     Py.endswith timeframe "h" = true \/ Py.endswith timeframe "d" = true ->
     interval_ms timeframe = delta) /\
  (Py.endswith timeframe "h" = false -> Py.endswith timeframe "d" = false ->
   interval_ms timeframe = ms_per_hour) /\
  (forall d,
     naive_timestamp_ms (now_utc - d * us_per_day) =
       now_utc / us_per_ms - d * ms_per_day ->
     resume_since naive_timestamp_ms None timeframe (Some d) overlap now_utc =
     Ok (now_utc / us_per_ms - d * ms_per_day)).
Proof.
  repeat split.
  - intros existing T days_back HT Hexact. unfold resume_since.
    rewrite HT. unfold bind. now rewrite Hexact.
  - apply interval_ms_is_bar_duration.
  - intros Hh Hd. unfold interval_ms. now rewrite Hh, Hd.
  - intros d Hutc. unfold resume_since, timedelta_days, bind. now rewrite Hutc.
Qed.

Lemma resume_since_planner_witness :
  resume_since utc_timestamp_ms (Some [(1717200000000, flat 1)]) "1h" None 2
    1717286400000000 =
    Ok (1717200000000 - 2 * 3600000) /\
  resume_since utc_timestamp_ms None "1h" (Some 365) 2 1717286400000000 =
    Ok (1717286400000000 / us_per_ms - 365 * ms_per_day).
Proof.
  destruct (resume_since_planner utc_timestamp_ms "1h" 2 1717286400000000)
    as (Hfile & Hbar & _ & Hnone).
  split.
  - pose proof (Hfile [(1717200000000, flat 1)] 1717200000000 None eq_refl) as H.
    rewrite (Hbar 3600000 eq_refl (or_introl eq_refl)) in H.
    apply H. vm_compute. reflexivity.
  - apply (Hnone 365). vm_compute. reflexivity.
Defined.

(** C4 as stated fails on minute bars: the bar of [1m] lasts 60 seconds,
    and the planner steps back two hours for an overlap of 2. *)
Lemma resume_since_minute_counterexample :
  let existing := [(1717200000000, flat 1)] in
  bar_duration_ms "1m" = Some 60000 /\
  index_last existing = Ok 1717200000000 /\
  resume_since utc_timestamp_ms (Some existing) "1m" (Some 365) 2 1717286400000000 =
    Ok (1717200000000 - 2 * 3600000) /\
  resume_since utc_timestamp_ms (Some existing) "1m" (Some 365) 2 1717286400000000 <>
    Ok (1717200000000 - 2 * 60000).
Proof.
  cbv zeta. repeat split; try (vm_compute; reflexivity).
  intros H. vm_compute in H. discriminate H.
Qed.

(** Where the conversions are not exact the planner is off: a series that
    ends at 02:00:01.001 on 1970-01-01 resumes, for two hourly bars, from
    1000 and not from 1001; and in a process whose local time is one hour
    ahead of UTC a first fetch of one day starts an hour further back. *)
Example resume_since_inexact :
  resume_since utc_timestamp_ms (Some [(7201001, flat 1)]) "1h" None 2
    1717286400000000 = Ok 1000 /\
  resume_since (zone_timestamp_ms 3600) None "1h" (Some 1) 2 1717286400000000 =
    Ok (1717286400000 - 1 * ms_per_day - ms_per_hour).
Proof. split; vm_compute; reflexivity. Qed.

(** ** The update to latest without a stored file *)

Section UpdateFacts.

Variable Exchange : Type.
Variable fetch_ohlcv :
  Exchange -> string -> string -> Z -> Z -> option (list Kline) * Exchange.
Variable naive_timestamp_ms : Z -> Z.

Lemma update_symbol_without_file (fuel : nat) (x : Exchange)
  (sym timeframe : string) (overlap : Z) (include_now : bool) (now_utc : Z) :
  update_symbol fetch_ohlcv naive_timestamp_ms fuel x None sym timeframe None overlap
    include_now now_utc = Raise TypeError.
Proof. reflexivity. Qed.

Lemma update_symbols_loop_app (fuel : nat) (pre rest : list string)
  (x : Exchange) (st : Store) (results : Dict.t DataFrame) (timeframe : string)
  (days_back : option Z) (overlap : Z) (include_now : bool) (now_utc : Z) :
  update_symbols_loop fetch_ohlcv naive_timestamp_ms fuel x st results (pre ++ rest)
    timeframe days_back overlap include_now now_utc =
  (r <- update_symbols_loop fetch_ohlcv naive_timestamp_ms
    fuel x st results pre timeframe
          days_back overlap include_now now_utc ;;
   match r with
   | None => Ok None
   | Some (st1, x1, results1) =>
       update_symbols_loop fetch_ohlcv naive_timestamp_ms fuel x1 st1 results1 rest
         timeframe days_back overlap include_now now_utc
   end).
Proof.
  revert x st results. induction pre as [|sym pre IH]; intros x st results.
  - reflexivity.
  - simpl.
    destruct (update_symbol _ _ _ _ _ _ _ _ _ _) as [[[w x1]|]|e]; simpl;
      [|reflexivity|reflexivity].
    apply IH.
Qed.

(** C10: the update-to-latest command passes [days_back=None]; as soon as
    it reaches a symbol whose canonical CSV does not exist, the planner's
    [timedelta(days=None)] raises [TypeError], which nothing catches: the
    whole call ends with it and no lookback window is used. *)
Theorem update_latest_without_csv_raises (fuel : nat) (x : Exchange) (st : Store)
  (pre : list string) (sym : string) (rest : list string) (timeframe : string)
  (overlap : Z) (include_today : bool) (now_utc : Z)
  (st1 : Store) (x1 : Exchange) (results1 : Dict.t DataFrame) :
  update_symbol_latest fetch_ohlcv naive_timestamp_ms fuel x st pre timeframe overlap
    include_today now_utc = Ok (Some (st1, x1, results1)) ->
  st1 (Py.split_head "/" sym) = None ->
  update_symbol_latest fetch_ohlcv naive_timestamp_ms fuel x st (pre ++ sym :: rest)
    timeframe overlap include_today now_utc = Raise TypeError.
Proof.
  unfold update_symbol_latest, update_symbols_to_now. intros Hpre Hfile.
  rewrite update_symbols_loop_app, Hpre. simpl. rewrite Hfile. reflexivity.
Qed.

End UpdateFacts.

Lemma update_latest_without_csv_raises_witness :
  update_symbol_latest (toy_fetch 0) utc_timestamp_ms 5 O sample_store
    (["BTC/USDT"%string] ++ "ETH/USDT"%string :: []) "1d" 1 true 1717286400000000
  = Raise TypeError.
Proof.
  eapply (update_latest_without_csv_raises nat (toy_fetch 0) utc_timestamp_ms
    5 O sample_store
            ["BTC/USDT"%string] "ETH/USDT" [] "1d" 1 true 1717286400000000).
  - vm_compute. reflexivity.
  - reflexivity.
Defined.

(** ** The bundle importer: unit of the open time *)

Lemma abs_int64_exact (v : Z) :
  int64_min < v <= int64_max -> abs_int64 v = Z.abs v.
Proof.
  unfold abs_int64, wrap_int64, int64_min, int64_max. intros H.
  rewrite Z.mod_small; lia.
Qed.

(** At the least [int64] the absolute value wraps onto itself. *)
Lemma abs_int64_min : abs_int64 int64_min = int64_min.
Proof. reflexivity. Qed.

Lemma fold_max_gt (k : Z) (col : list Z) (v : Z) :
  (k <? fold_left Z.max col v) = (k <? v) || existsb (fun w => k <? w) col.
Proof.
  revert v. induction col as [|w col IH]; intros v; simpl.
  - now rewrite orb_false_r.
  - rewrite IH, orb_assoc. f_equal.
    destruct (Z.ltb_spec k (Z.max v w)), (Z.ltb_spec k v), (Z.ltb_spec k w);
      simpl; try reflexivity; lia.
Qed.

Lemma existsb_over_map {A B : Type} (f : B -> bool) (g : A -> B) (l : list A) :
  existsb f (map g l) = existsb (fun a => f (g a)) l.
Proof. induction l as [|a l IH]; simpl; [reflexivity | now rewrite IH]. Qed.

Lemma max_open_time_gt (k : Z) (col : list Z) :
  0 <= k ->
  (k <? max_open_time col) = existsb (fun v => k <? abs_int64 v) col.
Proof.
  intros Hk. destruct col as [|v col]; simpl.
  - destruct (Z.ltb_spec k 0); [lia | reflexivity].
  - rewrite fold_max_gt. f_equal. apply existsb_over_map.
Qed.

Lemma max_abs_gt (k : Z) (col : list Z) :
  0 <= k -> (k <? max_abs col) = existsb (fun v => k <? Z.abs v) col.
Proof.
  intros Hk. induction col as [|v col IH]; simpl.
  - destruct (Z.ltb_spec k 0); [lia | reflexivity].
  - rewrite <- IH.
    destruct (Z.ltb_spec k (Z.max (Z.abs v) (max_abs col))),
             (Z.ltb_spec k (Z.abs v)), (Z.ltb_spec k (max_abs col));
      simpl; try reflexivity; lia.
Qed.

Lemma existsb_ext_in {A : Type} (f g : A -> bool) (l : list A) :
  (forall a, In a l -> f a = g a) -> existsb f l = existsb g l.
Proof.
  induction l as [|a l IH]; intros H; [reflexivity|].
  simpl. rewrite (H a (or_introl eq_refl)), IH; [reflexivity|].
  intros b Hb. apply H. now right.
Qed.

(** C5: the importer reads the unit of the open-time column off the
    largest absolute value in it: above [1e14] microseconds, else above
    [1e11] milliseconds, else seconds.  The absolute value is the one of
    the [int64] column; it is the mathematical one on every value but the
    least [int64].  The three sample times are read as microseconds,
    milliseconds and seconds, and denote the same instant. *)
Theorem detect_unit_by_magnitude (col : list Z) :
  detect_unit col =
    (if existsb (fun v => 10 ^ 14 <? abs_int64 v) col then Microseconds
     else if existsb (fun v => 10 ^ 11 <? abs_int64 v) col then Milliseconds
     else Seconds) /\
  (Forall (fun v => int64_min < v <= int64_max) col ->
   detect_unit col = unit_of_magnitude (max_abs col)) /\
  (detect_unit [1700000000000000] = Microseconds /\
   detect_unit [1700000000000] = Milliseconds /\
   detect_unit [1700000000] = Seconds) /\
  (to_datetime (detect_unit [1700000000000000]) 1700000000000000
     = Some 1700000000000000000 /\
   to_datetime (detect_unit [1700000000000]) 1700000000000
     = Some 1700000000000000000 /\
   to_datetime (detect_unit [1700000000]) 1700000000
     = Some 1700000000000000000).
Proof.
  assert (Hcode : detect_unit col =
    (if existsb (fun v => 10 ^ 14 <? abs_int64 v) col then Microseconds
     else if existsb (fun v => 10 ^ 11 <? abs_int64 v) col then Milliseconds
     else Seconds)).
  { unfold detect_unit. now rewrite !max_open_time_gt by lia. }
  split; [exact Hcode|]. split; [|split; repeat split; reflexivity].
  intros Hrange. rewrite Hcode. unfold unit_of_magnitude.
  rewrite !max_abs_gt by lia.
  rewrite Forall_forall in Hrange.
  rewrite (existsb_ext_in (fun v => 10 ^ 14 <? abs_int64 v) (fun v => 10 ^ 14 <? Z.abs v)),
          (existsb_ext_in (fun v => 10 ^ 11 <? abs_int64 v) (fun v => 10 ^ 11 <? Z.abs v));
    [reflexivity | |];
    intros v Hv; now rewrite abs_int64_exact by now apply Hrange.
Qed.

Lemma detect_unit_by_magnitude_witness :
  detect_unit [1700000000; -1700000060] = unit_of_magnitude (max_abs [1700000000; -1700000060]).
Proof.
  destruct (detect_unit_by_magnitude [1700000000; -1700000060]) as (_ & Hmath & _).
  apply Hmath.
  repeat (constructor; [unfold int64_min, int64_max; lia|]). constructor.
Defined.

(** Where the column holds the least [int64], its wrapped absolute value
    is negative and does not count towards the maximum. *)
Example detect_unit_int64_min :
  detect_unit [int64_min; 1700000000] = Seconds /\
  unit_of_magnitude (max_abs [int64_min; 1700000000]) = Microseconds.
Proof. split; reflexivity. Qed.

(** A bundle line is indexed by the instant its open time denotes. *)
Example read_bundle_csv_units :
  let line t := mkBundleRow (Some t) 1 2 0.5 1.5 10 in
  let instant b :=
    match read_bundle_csv (mkBundle "BTCUSDT-1m-2023-11-14.csv" (Some [[b]])) with
    | Ok df => index df
    | Raise _ => []
    end in
  instant (line 1700000000000000) = [1700000000000000000] /\
  instant (line 1700000000000) = [1700000000000000000] /\
  instant (line 1700000000) = [1700000000000000000].
Proof. repeat split; reflexivity. Qed.

(** ** The bundle importer: yearly roll-up *)

Lemma total_rows_sum (months_map : Dict.t MonthInfo) (acc : Z) :
  total_rows months_map acc = acc + sum_month_rows months_map.
Proof.
  revert acc. induction months_map as [|[mon info] rest IH]; intros acc.
  - unfold sum_month_rows. simpl. lia.
  - simpl. rewrite IH. unfold sum_month_rows. simpl. lia.
Qed.

Lemma yearly_manifests_rows (month_infos : Dict.t MonthInfo) (dry_run : bool) :
  Forall (fun ym => ym_rows ym = sum_month_rows (ym_months ym))
         (yearly_manifests month_infos dry_run).
Proof.
  unfold yearly_manifests.
  destruct month_infos as [|kv rest]; [constructor|].
  destruct dry_run; [constructor|]. simpl negb. cbv iota.
  apply Forall_map, Forall_forall. intros ym _. simpl.
  now rewrite total_rows_sum.
Qed.

(** *** Months, partitions and roll-ups *)

Lemma dict_set_In {V : Type} (d : Dict.t V) (k : string) (v : V)
  (k' : string) (v' : V) :
  In (k', v') (Dict.set d k v) -> (k' = k /\ v' = v) \/ In (k', v') d.
Proof.
  induction d as [|[k0 v0] d IH]; simpl.
  - intros [H|[]]. inversion H. now left.
  - destruct (String.eqb_spec k k0) as [->|Hne]; simpl.
    + intros [H|H]; [inversion H; now left | right; now right].
    + intros [H|H]; [right; now left|].
      destruct (IH H) as [?|?]; [now left | right; now right].
Qed.

Lemma dict_set_keys {V : Type} (d : Dict.t V) (k : string) (v : V) (k' : string) :
  In k' (map fst (Dict.set d k v)) <-> k' = k \/ In k' (map fst d).
Proof.
  induction d as [|[k0 v0] d IH]; simpl.
  - intuition.
  - destruct (String.eqb_spec k k0) as [->|Hne]; simpl.
    + intuition.
    + rewrite IH. intuition.
Qed.

Lemma dict_set_NoDup {V : Type} (d : Dict.t V) (k : string) (v : V) :
  NoDup (map fst d) -> NoDup (map fst (Dict.set d k v)).
Proof.
  induction d as [|[k0 v0] d IH]; simpl; intros Hnd.
  - constructor; [intros [] | constructor].
  - apply NoDup_cons_iff in Hnd as [Hnot Hnd].
    destruct (String.eqb_spec k k0) as [->|Hne]; simpl.
    + now constructor.
    + constructor; [|now apply IH].
      rewrite dict_set_keys. intros [H|H]; [now subst | contradiction].
Qed.

(** With distinct keys, an assignment leaves every other entry alone. *)
Lemma dict_set_In_distinct {V : Type} (d : Dict.t V) (k : string) (v : V)
  (k' : string) (v' : V) :
  NoDup (map fst d) ->
  In (k', v') (Dict.set d k v) ->
  (k' = k /\ v' = v) \/ (k' <> k /\ In (k', v') d).
Proof.
  induction d as [|[k0 v0] d IH]; simpl; intros Hnd.
  - intros [H|[]]. inversion H. now left.
  - apply NoDup_cons_iff in Hnd as [Hnot Hnd].
    destruct (String.eqb_spec k k0) as [->|Hne]; simpl.
    + intros [H|H]; [inversion H; now left|]. right. split; [|now right].
      intros ->. apply Hnot. apply (in_map fst) in H. exact H.
    + intros [H|H].
      * inversion H; subst. right. split; [congruence | now left].
      * destruct (IH Hnd H) as [?|[? ?]]; [now left | right; split; [assumption | now right]].
Qed.

Lemma dict_update_In {V : Type} (d : Dict.t V) (k : string) (default : V)
  (f : V -> V) (k' : string) (v' : V) :
  In (k', v') (Dict.update d k default f) ->
  (exists v, v' = f v /\ (v = default \/ In (k, v) d)) \/ In (k', v') d.
Proof.
  unfold Dict.update. destruct (Dict.get d k) as [v|] eqn:G; intros H.
  - apply dict_set_In in H as [[_ ->]|H]; [|now right].
    left. exists v. split; [reflexivity|]. right.
    clear -G. induction d as [|[k0 v0] d IH]; [discriminate|].
    simpl in G. destruct (String.eqb_spec k k0) as [->|_].
    + inversion G. now left.
    + right. now apply IH.
  - apply dict_set_In in H as [[_ ->]|H]; [|now right].
    left. exists default. split; [reflexivity | now left].
Qed.

(** The months of every year of the roll-up are reported months. *)
Lemma group_by_year_months (month_infos : Dict.t MonthInfo)
  (years : Dict.t (Dict.t MonthInfo)) (P : string * MonthInfo -> Prop) :
  (forall kv, In kv month_infos -> P kv) ->
  (forall y mm, In (y, mm) years -> forall kv, In kv mm -> P kv) ->
  forall y mm, In (y, mm) (group_by_year month_infos years) ->
  forall kv, In kv mm -> P kv.
Proof.
  revert years. induction month_infos as [|[mon info] rest IH];
    intros years Hinfos Hyears; [exact Hyears|].
  simpl. apply IH.
  - intros kv Hkv. apply Hinfos. now right.
  - intros y mm Hin [k v] Hkv.
    apply dict_update_In in Hin as [(mm0 & -> & Hmm0)|Hin].
    + apply dict_set_In in Hkv as [[-> ->]|Hkv].
      * apply Hinfos. now left.
      * destruct Hmm0 as [->|Hmm0]; [contradiction|].
        eapply Hyears; eassumption.
    + eapply Hyears; eassumption.
Qed.

Lemma import_months_reports_agree (sha : DataFrame -> string)
  (months : Dict.t (list Bundle)) (ps : Partitions)
  (month_infos : Dict.t MonthInfo) :
  reports_agree ps month_infos ->
  reports_agree (fst (import_months sha months ps false month_infos))
                (snd (import_months sha months ps false month_infos)).
Proof.
  revert ps month_infos.
  induction months as [|[mon fps] rest IH]; intros ps month_infos Hinv;
    [exact Hinv|].
  simpl. destruct (month_frame mon fps) as [[df source]|]; [|now apply IH].
  unfold write_month_partition. simpl negb. cbv iota.
  apply IH. destruct Hinv as [Hnd Hinv]. split; [now apply dict_set_NoDup|].
  intros m info Hin.
  apply (dict_set_In_distinct _ _ _ _ _ Hnd) in Hin as [[-> ->]|[Hne Hin]].
  - eexists. unfold partition_set. rewrite String.eqb_refl.
    split; reflexivity.
  - destruct (Hinv m info Hin) as (part & Hps & Hrows).
    exists part. unfold partition_set.
    destruct (String.eqb_spec m mon) as [->|_]; [contradiction|]. now split.
Qed.

(** C6: in every yearly roll-up the importer writes, the total [rows] is
    the sum of the [rows] of the months it lists, and each of those is the
    number of rows of that month's stored partition.  In the scenario of
    two monthly bundles of 1000 and 900 lines that share ten timestamps,
    from empty partitions, the partitions hold 1000 and 900 rows, the
    months report 1000 and 900, and the roll-up of 2024 reports 1900. *)
Theorem yearly_rollup_rows_sum :
  (forall sha256_of_df_csv_bytes files ps dry_run,
     Forall (fun ym => ym_rows ym = sum_month_rows (ym_months ym))
            (snd (import_symbol sha256_of_df_csv_bytes files ps dry_run))) /\
  (forall sha256_of_df_csv_bytes files ps,
     let done := import_symbol sha256_of_df_csv_bytes files ps false in
     forall ym mon info,
       In ym (snd done) -> In (mon, info) (ym_months ym) ->
       exists part,
         fst (fst done) mon = Some part /\
         mi_rows info = Z.of_nat (List.length part)) /\
  (let '(ps, month_infos, years) :=
     import_symbol no_digest [january_bundle; february_bundle] no_partitions false in
   option_map (@List.length Row) (ps "2024-01"%string) = Some 1000%nat /\
   option_map (@List.length Row) (ps "2024-02"%string) = Some 900%nat /\
   map (fun kv => (fst kv, mi_rows (snd kv))) month_infos =
     [("2024-01"%string, 1000); ("2024-02"%string, 900)] /\
   map (fun ym => (ym_year ym, map fst (ym_months ym), ym_rows ym)) years =
     [("2024"%string, ["2024-01"%string; "2024-02"%string], 1900)]).
Proof.
  split; [|split].
  - intros sha files ps dry_run. unfold import_symbol.
    destruct (import_months _ _ _ _ _) as [ps' month_infos]. simpl.
    apply yearly_manifests_rows.
  - intros sha files ps done ym mon info Hym Hmon. subst done.
    unfold import_symbol in *.
    pose proof (import_months_reports_agree sha
                  (Dict.sorted_items (group_by_month files [])) ps []) as Hinv.
    destruct (import_months _ _ _ _ _) as [ps' month_infos].
    simpl in *. destruct Hinv as [_ Hinv].
    { split; [constructor | intros ? ? []]. }
    apply Hinv.
    unfold yearly_manifests in Hym.
    destruct month_infos as [|kv0 rest0] eqn:E; [contradiction|]. rewrite <- E in *.
    simpl in Hym. apply in_map_iff in Hym as ([y mm] & <- & Hym). simpl in Hmon.
    apply (group_by_year_months month_infos []
             (fun kv => In kv month_infos)) with (y := y) (mm := mm) (kv := (mon, info));
      auto.
    intros ? ? [].
  - vm_compute. repeat split; reflexivity.
Qed.

(** Months are routed by file name, not by timestamp: the ten timestamps
    the two bundles share are stored in both partitions. *)
Example shared_timestamps_in_both_partitions :
  let '(ps, _, _) :=
    import_symbol no_digest [january_bundle; february_bundle] no_partitions false in
  match ps "2024-01"%string, ps "2024-02"%string with
  | Some january, Some february =>
      List.length (filter (fun r => existsb (Z.eqb (fst r)) (index february)) january)
  | _, _ => O
  end = 10%nat.
Proof. vm_compute. reflexivity. Qed.

(** * Further properties of the code *)

(** ** The merge-and-dedup writer: what a merge keeps and how merges compose *)

Lemma final_row_app_final (a b : DataFrame) :
  final_row (a ++ final_row b) = final_row (a ++ b).
Proof.
  destruct b as [|r b]; [reflexivity|].
  destruct (final_row_small (r :: b)) as [H|[r' H]].
  - exfalso. revert H. clear. revert r.
    induction b as [|r2 b IH]; intros r; [discriminate | apply (IH r2)].
  - rewrite H, !final_row_app by discriminate. now rewrite H.
Qed.

Lemma final_row_final_app (a b : DataFrame) :
  final_row (final_row a ++ b) = final_row (a ++ b).
Proof.
  destruct b as [|r b].
  - rewrite !app_nil_r. apply final_row_idem.
  - now rewrite !final_row_app by discriminate.
Qed.

Lemma rows_at_frame_In (t : Z) (df : DataFrame) (r : Row) :
  In r df -> fst r = t -> In r (rows_at t df).
Proof. intros. now apply rows_at_In. Qed.

(** Two frames in strict time order that hold the same rows at every
    timestamp are the same frame. *)
Lemma strictly_increasing_ext (a b : DataFrame) :
  strictly_increasing a -> strictly_increasing b ->
  (forall t, rows_at t a = rows_at t b) -> a = b.
Proof.
  intros Ha Hb Hrows. apply sorted_index_unique; try assumption.
  apply NoDup_Permutation.
  - eapply NoDup_map_inv, strict_sorted_distinct, Ha.
  - eapply NoDup_map_inv, strict_sorted_distinct, Hb.
  - intros r. split; intros Hr.
    + apply (rows_at_frame_In (fst r)) in Hr; [|reflexivity].
      rewrite Hrows in Hr. now apply rows_at_In in Hr.
    + apply (rows_at_frame_In (fst r)) in Hr; [|reflexivity].
      rewrite <- Hrows in Hr. now apply rows_at_In in Hr.
Qed.

Lemma rows_at_merge_existing (t : Z) (old new : DataFrame) :
  rows_at t (merge_existing old new) = final_row (rows_at t old ++ rows_at t new).
Proof. now rewrite merge_existing_eq, rows_at_sort_drop, rows_at_app. Qed.

Lemma rows_at_month_combined (t : Z) (old new : DataFrame) :
  rows_at t (month_combined old new) = final_row (rows_at t old ++ rows_at t new).
Proof. now rewrite month_combined_eq, rows_at_sort_drop, rows_at_app. Qed.

Lemma merge_existing_increasing (old new : DataFrame) :
  strictly_increasing (merge_existing old new).
Proof. rewrite merge_existing_eq. apply sort_drop_strictly_increasing. Qed.

Lemma month_combined_increasing (old new : DataFrame) :
  strictly_increasing (month_combined old new).
Proof. rewrite month_combined_eq. apply sort_drop_strictly_increasing. Qed.

Lemma update_merge_increasing (file : option DataFrame) (chunks : list DataFrame) :
  strictly_increasing (update_merge file chunks).
Proof.
  unfold update_merge, combine_chunks.
  destruct file; [apply merge_existing_increasing | apply sort_drop_strictly_increasing].
Qed.

Lemma rows_at_update_merge (t : Z) (file : option DataFrame)
  (chunks : list DataFrame) :
  rows_at t (update_merge file chunks) =
  final_row (rows_at t (stored_rows file) ++ rows_at t (concat chunks)).
Proof.
  unfold update_merge, combine_chunks. destruct file as [existing|]; simpl.
  - now rewrite rows_at_merge_existing, rows_at_sort_drop, final_row_app_final.
  - apply rows_at_sort_drop.
Qed.

Lemma index_In_rows_at (t : Z) (df : DataFrame) :
  In t (index df) <-> rows_at t df <> [].
Proof.
  split; [apply rows_at_some|].
  intros H. destruct (in_dec Z.eq_dec t (index df)) as [Hin|Hout]; [assumption|].
  now apply rows_at_none in Hout.
Qed.

Lemma final_row_nil (df : DataFrame) : final_row df = [] <-> df = [].
Proof.
  split; [|now intros ->].
  induction df as [|r df IH]; [reflexivity|].
  destruct df as [|r' df]; [discriminate|].
  intros H. apply IH in H. discriminate.
Qed.

(** The timestamps of a merged frame are those of the stored rows and
    those of the new rows: none is lost and none is invented. *)
Theorem merge_timestamps_are_the_union (old new : DataFrame) (t : Z) :
  (In t (index (merge_existing old new)) <-> In t (index old) \/ In t (index new)) /\
  (In t (index (month_combined old new)) <-> In t (index old) \/ In t (index new)).
Proof.
  assert (H : forall merged,
    rows_at t merged = final_row (rows_at t old ++ rows_at t new) ->
    (In t (index merged) <-> In t (index old) \/ In t (index new))).
  { intros merged Hrows.
    rewrite !index_In_rows_at, Hrows, final_row_nil.
    destruct (rows_at t old) as [|x xs], (rows_at t new) as [|y ys]; simpl;
      intuition congruence. }
  split; apply H; [apply rows_at_merge_existing | apply rows_at_month_combined].
Qed.

(** Where the new rows have nothing at a timestamp, the merge leaves what
    the stored rows had there: the last stored row with that timestamp,
    which is the only one when the stored timestamps are distinct. *)
Theorem merge_keeps_untouched_timestamps (old new : DataFrame) (t : Z) :
  ~ In t (index new) ->
  rows_at t (merge_existing old new) = final_row (rows_at t old) /\
  rows_at t (month_combined old new) = final_row (rows_at t old) /\
  (NoDup (index old) ->
   rows_at t (merge_existing old new) = rows_at t old /\
   rows_at t (month_combined old new) = rows_at t old).
Proof.
  intros Hnew.
  rewrite rows_at_merge_existing, rows_at_month_combined.
  rewrite (rows_at_none t new Hnew), app_nil_r.
  repeat split; try reflexivity; now apply rows_at_distinct.
Qed.

Lemma merge_keeps_untouched_timestamps_witness :
  let old := [(1, flat 10); (2, flat 20)] in
  let new := [(2, flat 21); (3, flat 30)] in
  rows_at 1 (merge_existing old new) = final_row (rows_at 1 old) /\
  rows_at 1 (month_combined old new) = final_row (rows_at 1 old) /\
  (NoDup (index old) ->
   rows_at 1 (merge_existing old new) = rows_at 1 old /\
   rows_at 1 (month_combined old new) = rows_at 1 old).
Proof.
  intros old new. apply (merge_keeps_untouched_timestamps old new 1).
  simpl. intros [H|[H|[]]]; discriminate H.
Defined.

(** Merging in two steps is merging once with the new rows in sequence:
    two updates, or two imports into a month, leave the file that one
    update or import with both batches leaves. *)
Theorem merges_compose (file : option DataFrame) (a b c : DataFrame)
  (chunks1 chunks2 : list DataFrame) :
  merge_existing (merge_existing a b) c = merge_existing a (b ++ c) /\
  month_combined (month_combined a b) c = month_combined a (b ++ c) /\
  update_merge (Some (update_merge file chunks1)) chunks2 =
    update_merge file (chunks1 ++ chunks2).
Proof.
  repeat split.
  - apply strictly_increasing_ext; try apply merge_existing_increasing.
    intros t. rewrite !rows_at_merge_existing, final_row_final_app, rows_at_app.
    now rewrite app_assoc.
  - apply strictly_increasing_ext; try apply month_combined_increasing.
    intros t. rewrite !rows_at_month_combined, final_row_final_app, rows_at_app.
    now rewrite app_assoc.
  - apply strictly_increasing_ext; try apply update_merge_increasing.
    intros t. rewrite !rows_at_update_merge. simpl stored_rows.
    rewrite rows_at_update_merge, final_row_final_app.
    unfold concat. rewrite concat_app, rows_at_app. now rewrite app_assoc.
Qed.

(** Merging the same new rows a second time changes nothing. *)
Theorem merge_again_changes_nothing (file : option DataFrame)
  (old new : DataFrame) (chunks : list DataFrame) :
  merge_existing (merge_existing old new) new = merge_existing old new /\
  month_combined (month_combined old new) new = month_combined old new /\
  update_merge (Some (update_merge file chunks)) chunks = update_merge file chunks.
Proof.
  assert (H : forall a b : DataFrame,
             final_row (final_row (a ++ b) ++ b) = final_row (a ++ b)).
  { intros a b. destruct b as [|r b].
    - rewrite !app_nil_r. apply final_row_idem.
    - now rewrite !final_row_app by discriminate. }
  repeat split.
  - apply strictly_increasing_ext; try apply merge_existing_increasing.
    intros t. rewrite !rows_at_merge_existing. apply H.
  - apply strictly_increasing_ext; try apply month_combined_increasing.
    intros t. rewrite !rows_at_month_combined. apply H.
  - apply strictly_increasing_ext; try apply update_merge_increasing.
    intros t. rewrite !rows_at_update_merge. simpl stored_rows.
    rewrite rows_at_update_merge. apply H.
Qed.

(** ** [save_data]: appending and saving again *)

Lemma insert_row_low (r : Row) (df : DataFrame) :
  (forall r', In r' df -> fst r <= fst r') -> insert_row r df = r :: df.
Proof.
  destruct df as [|r' df]; [reflexivity|].
  intros H. simpl. specialize (H r' (or_introl eq_refl)).
  destruct (Z.leb_spec (fst r) (fst r')); [reflexivity | lia].
Qed.

(** Rows that are in time order and not later than the rest sort in
    front, as they are. *)
Lemma sort_index_app_low (a b : DataFrame) :
  StronglySorted Z.le (index a) ->
  (forall ra rb, In ra a -> In rb b -> fst ra <= fst rb) ->
  sort_index (a ++ b) = a ++ sort_index b.
Proof.
  induction a as [|r a IH]; intros Hs Hlow; [reflexivity|].
  simpl in Hs. apply StronglySorted_inv in Hs as [Hs Hall].
  simpl. rewrite IH; [|assumption|].
  - apply insert_row_low. intros r' Hr'. apply in_app_or in Hr' as [Hr'|Hr'].
    + rewrite Forall_forall in Hall. apply Hall. now apply in_map.
    + apply Hlow; [now left | now apply sort_index_In].
  - intros ra rb Ha Hb. apply Hlow; [now right | assumption].
Qed.

Lemma drop_index_duplicates_app_disjoint (a b : DataFrame) :
  NoDup (index a) ->
  (forall t, In t (index a) -> ~ In t (index b)) ->
  drop_index_duplicates (a ++ b) = a ++ drop_index_duplicates b.
Proof.
  induction a as [|r a IH]; intros Hnd Hdis; [reflexivity|].
  simpl in Hnd. apply NoDup_cons_iff in Hnd as [Hnot Hnd].
  simpl app. rewrite drop_index_duplicates_cons.
  destruct (existsb _ _) eqn:E.
  - apply existsb_label in E. unfold index in E. rewrite map_app in E.
    apply in_app_or in E as [E|E]; [contradiction|].
    exfalso. apply (Hdis (fst r)); [now left | assumption].
  - f_equal. apply IH; [assumption|].
    intros t Ht. apply Hdis. now right.
Qed.

Lemma index_last_nonempty (df : DataFrame) :
  df <> [] -> exists L, index_last df = Ok L.
Proof.
  intros H. destruct (index_last df) as [L|e] eqn:E; [now exists L|].
  now apply index_last_raise in E.
Qed.

Lemma filter_none {A : Type} (p : A -> bool) (l : list A) :
  (forall a, In a l -> p a = false) -> filter p l = [].
Proof.
  induction l as [|a l IH]; intros H; [reflexivity|].
  simpl. rewrite (H a (or_introl eq_refl)). apply IH.
  intros b Hb. apply H. now right.
Qed.

Lemma empty_false (df : DataFrame) : empty df = false <-> df <> [].
Proof. destruct df; simpl; split; congruence. Qed.

Lemma empty_true (df : DataFrame) : empty df = true <-> df = [].
Proof. destruct df; simpl; split; congruence. Qed.

(** The three ways [save_data] leaves a partition that existed. *)
Lemma save_symbol_existing (sym timeframe : string) (existing df : DataFrame)
  (L : Z) :
  index_last existing = Ok L ->
  exists w,
    save_symbol sym timeframe (Some existing) df = Ok w /\
    ((index_gt L df = [] /\ file_after_save (Some existing) w = Some existing) \/
     (index_gt L df <> [] /\
      file_after_save (Some existing) w =
      Some (sort_index (drop_index_duplicates (existing ++ index_gt L df))))).
Proof.
  intros HL. unfold save_symbol. destruct (empty df) eqn:Edf.
  - apply empty_true in Edf. subst df. exists None. split; [reflexivity|].
    left. now split.
  - rewrite HL. simpl bind. destruct (empty (index_gt L df)) eqn:Enew;
      simpl negb; cbv iota.
    + apply empty_true in Enew. eexists. split; [reflexivity|]. left. now split.
    + apply empty_false in Enew. rewrite app_nil_r.
      eexists. split; [reflexivity|]. right. now split.
Qed.

(** On a partition in strict time order [save_data] only appends: the
    file after the call is the file before followed by new rows, all of
    them fetched rows later than the last stored timestamp, one for each
    such timestamp, and the whole is in strict time order again. *)
Theorem save_data_only_appends (sym timeframe : string)
  (existing df : DataFrame) (L : Z) :
  strictly_increasing existing ->
  index_last existing = Ok L ->
  exists w tail,
    save_symbol sym timeframe (Some existing) df = Ok w /\
    file_after_save (Some existing) w = Some (existing ++ tail) /\
    Forall (fun r => L < fst r /\ In r df) tail /\
    (forall t, L < t -> In t (index df) -> In t (index tail)) /\
    strictly_increasing (existing ++ tail).
Proof.
  intros Hinc HL.
  destruct (save_symbol_existing sym timeframe existing df L HL)
    as (w & Hsave & [[Hnew Hfile]|[Hnew Hfile]]).
  - exists w, []. rewrite app_nil_r. repeat split; try assumption.
    + constructor.
    + intros t Ht Hin. apply in_map_iff in Hin as (r & <- & Hr).
      assert (Hr' : In r (index_gt L df)).
      { apply filter_In. split; [assumption | now apply Z.ltb_lt]. }
      rewrite Hnew in Hr'. contradiction.
  - exists w, (sort_index (drop_index_duplicates (index_gt L df))).
    assert (Hlate : forall r, In r (index_gt L df) -> L < fst r /\ In r df).
    { intros r Hr. apply filter_In in Hr as [Hr Hgt]. apply Z.ltb_lt in Hgt.
      now split. }
    assert (Hold : forall t, In t (index existing) -> t <= L).
    { apply index_last_latest; [now apply strict_sorted_le | assumption]. }
    assert (Heq : sort_index (drop_index_duplicates (existing ++ index_gt L df)) =
                  existing ++ sort_index (drop_index_duplicates (index_gt L df))).
    { rewrite drop_index_duplicates_app_disjoint.
      - apply sort_index_app_low; [now apply strict_sorted_le|].
        intros ra rb Ha Hb. apply drop_index_duplicates_incl, Hlate in Hb.
        specialize (Hold (fst ra) (in_map fst _ _ Ha)). lia.
      - now apply strict_sorted_distinct.
      - intros t Ht Hin. apply in_map_iff in Hin as (r & <- & Hr).
        apply Hlate in Hr. specialize (Hold _ Ht). lia. }
    split; [exact Hsave|]. split; [now rewrite Hfile, Heq|]. split; [|split].
    + apply Forall_forall. intros r Hr.
      apply Hlate. now apply drop_index_duplicates_incl, sort_index_In.
    + intros t Ht Hin.
      apply (Permutation_in t (Permutation_map fst
               (Permutation_sym (sort_index_perm _)))).
      apply drop_index_duplicates_labels.
      apply in_map_iff in Hin as (r & <- & Hr). apply in_map.
      apply filter_In. split; [assumption | now apply Z.ltb_lt].
    + rewrite <- Heq. apply sort_drop_strictly_increasing.
Qed.

Lemma save_data_only_appends_witness :
  let existing := [(1, flat 10); (2, flat 20)] in
  let df := [(2, flat 21); (3, flat 30)] in
  exists w tail,
    save_symbol "BTC/USDT" "1h" (Some existing) df = Ok w /\
    file_after_save (Some existing) w = Some (existing ++ tail) /\
    Forall (fun r => 2 < fst r /\ In r df) tail /\
    (forall t, 2 < t -> In t (index df) -> In t (index tail)) /\
    strictly_increasing (existing ++ tail).
Proof.
  intros existing df.
  apply (save_data_only_appends "BTC/USDT" "1h" existing df 2).
  - unfold strictly_increasing. simpl. repeat constructor.
  - reflexivity.
Defined.

Lemma sort_index_last_latest (df : DataFrame) (M : Z) :
  index_last (sort_index df) = Ok M ->
  forall t, In t (index df) -> t <= M.
Proof.
  intros HM t Ht.
  apply (index_last_latest (sort_index df) M (sort_index_sorted df) HM).
  apply (Permutation_in t (Permutation_map fst
           (Permutation_sym (sort_index_perm df))) Ht).
Qed.

(** Saving the same fetched frame a second time changes nothing, whatever
    the partition held; on a first write that holds when the frame is in
    time order. *)
Theorem save_data_again_changes_nothing (sym timeframe : string)
  (file : option DataFrame) (df : DataFrame) :
  file <> Some [] ->
  (file = None -> StronglySorted Z.le (index df)) ->
  exists w1 w2,
    save_symbol sym timeframe file df = Ok w1 /\
    save_symbol sym timeframe (file_after_save file w1) df = Ok w2 /\
    file_after_save (file_after_save file w1) w2 = file_after_save file w1.
Proof.
  intros Hfile Hfirst.
  assert (Hstay : forall stored M,
    index_last stored = Ok M -> (forall r, In r df -> fst r <= M) ->
    exists w2, save_symbol sym timeframe (Some stored) df = Ok w2 /\
               file_after_save (Some stored) w2 = Some stored).
  { intros stored M HM Hle.
    destruct (save_symbol_existing sym timeframe stored df M HM)
      as (w2 & Hsave & [[_ Hf]|[Hnew _]]); [now exists w2|].
    exfalso. apply Hnew. apply filter_none. intros r Hr.
    apply Z.ltb_ge. now apply Hle. }
  destruct file as [existing|].
  - destruct (index_last_nonempty existing) as [L HL].
    { intros ->. now apply Hfile. }
    destruct (save_symbol_existing sym timeframe existing df L HL)
      as (w1 & Hsave & [[Hnew Hf]|[Hnew Hf]]).
    + exists w1. rewrite Hf.
      destruct (save_symbol_existing sym timeframe existing df L HL)
        as (w2 & Hsave2 & [[_ Hf2]|[Hnew2 _]]); [|contradiction].
      exists w2. now repeat split.
    + exists w1. rewrite Hf.
      set (final := sort_index (drop_index_duplicates (existing ++ index_gt L df))).
      assert (Hlabels : forall t,
                In t (index existing) \/ In t (index (index_gt L df)) ->
                In t (index final)).
      { intros t Ht.
        apply (Permutation_in t (Permutation_map fst
                 (Permutation_sym (sort_index_perm _)))).
        apply drop_index_duplicates_labels. unfold index.
        rewrite map_app, in_app_iff. exact Ht. }
      destruct (index_last_nonempty final) as [M HM].
      { intros Hnil. assert (Hin : In L (index final)).
        { apply Hlabels. left. now apply index_last_In. }
        rewrite Hnil in Hin. contradiction. }
      assert (Hbound : forall t, In t (index final) -> t <= M).
      { apply index_last_latest; [apply sort_index_sorted | exact HM]. }
      destruct (Hstay final M HM) as (w2 & Hsave2 & Hf2).
      { intros r Hr. destruct (Z.ltb_spec L (fst r)) as [Hgt|Hle].
        - apply Hbound, Hlabels. right. apply in_map.
          apply filter_In. split; [assumption | now apply Z.ltb_lt].
        - assert (HLM : L <= M).
          { apply Hbound, Hlabels. left. now apply index_last_In. }
          lia. }
      exists w2. now repeat split.
  - specialize (Hfirst eq_refl). unfold save_symbol at 1.
    destruct (empty df) eqn:Edf.
    + exists None, None. unfold save_symbol. rewrite Edf. now repeat split.
    + eexists. simpl file_after_save.
      apply empty_false in Edf.
      destruct (index_last_nonempty df Edf) as [M HM].
      destruct (Hstay df M HM) as (w2 & Hsave2 & Hf2).
      { intros r Hr. apply (index_last_latest df M Hfirst HM). now apply in_map. }
      exists w2. now repeat split.
Qed.

Lemma save_data_again_changes_nothing_witness :
  let file := Some [(1, flat 10); (2, flat 20)] in
  let df := [(2, flat 21); (3, flat 30)] in
  exists w1 w2,
    save_symbol "BTC/USDT" "1h" file df = Ok w1 /\
    save_symbol "BTC/USDT" "1h" (file_after_save file w1) df = Ok w2 /\
    file_after_save (file_after_save file w1) w2 = file_after_save file w1.
Proof.
  intros file df.
  apply (save_data_again_changes_nothing "BTC/USDT" "1h" file df).
  - discriminate.
  - discriminate.
Defined.

(** A first write keeps the frame as it is given, so a frame that is not
    in time order is not saved again without change. *)
Example save_data_first_write_out_of_order :
  let df := [(5, flat 50); (3, flat 30)] in
  match save_symbol "BTC/USDT" "1h" None df with
  | Ok (Some w1) =>
      match save_symbol "BTC/USDT" "1h" (w_file w1) df with
      | Ok (Some w2) => (w_file w1, w_file w2)
      | _ => (None, None)
      end
  | _ => (None, None)
  end
  = (Some [(5, flat 50); (3, flat 30)], Some [(3, flat 30); (5, flat 50)]).
Proof. reflexivity. Qed.

(** ** The chunked range fetcher: termination and the window it returns *)

Section FetchLoopBounds.

Variable Exchange : Type.
Variable fetch_ohlcv :
  Exchange -> string -> string -> Z -> Z -> option (list Kline) * Exchange.

Lemma fetch_ohlcv_safe_index (x : Exchange) (sym timeframe : string)
  (since limit : Z) :
  match fetch_ohlcv x sym timeframe since limit with
  | (Some rows, x') =>
      fetch_ohlcv_safe fetch_ohlcv x sym timeframe since limit =
        (fst (fetch_ohlcv_safe fetch_ohlcv x sym timeframe since limit), x') /\
      index (fst (fetch_ohlcv_safe fetch_ohlcv x sym timeframe since limit)) =
        map k_timestamp rows
  | (None, x') =>
      fetch_ohlcv_safe fetch_ohlcv x sym timeframe since limit = ([], x')
  end.
Proof.
  unfold fetch_ohlcv_safe.
  destruct (fetch_ohlcv x sym timeframe since limit) as [[rows|] x']; simpl.
  - split; [reflexivity|]. unfold index. rewrite map_map. reflexivity.
  - reflexivity.
Qed.

Lemma fetch_loop_more_fuel (fuel : nat) (sym timeframe : string) (end_ms : Z)
  (x : Exchange) (cursor : Z) (acc : list DataFrame)
  (r : list DataFrame * Exchange) :
  fetch_loop fetch_ohlcv fuel sym timeframe end_ms x cursor acc = Some r ->
  forall more, (fuel <= more)%nat ->
  fetch_loop fetch_ohlcv more sym timeframe end_ms x cursor acc = Some r.
Proof.
  revert x cursor acc.
  induction fuel as [|fuel IH]; intros x cursor acc H more Hle; [discriminate|].
  destruct more as [|more]; [lia|].
  rewrite fetch_loop_iteration in *.
  destruct (fetch_ohlcv_safe fetch_ohlcv x sym timeframe cursor page_size) as [df x1].
  destruct (index_last df) as [last_ts|e]; [|exact H].
  destruct (end_ms <=? timestamp_ms last_ts); [exact H|].
  destruct (Z.of_nat (List.length df) <? page_size); [exact H|].
  apply IH; [exact H | lia].
Qed.

Section HonoursSince.

(** The exchange answers a request with candles that are not earlier than
    [since]. *)
Hypothesis honours_since :
  forall x sym timeframe since limit rows x',
    fetch_ohlcv x sym timeframe since limit = (Some rows, x') ->
    Forall (fun k => since <= k_timestamp k) rows.

Lemma page_not_before_since (x : Exchange) (sym timeframe : string)
  (since limit : Z) (df : DataFrame) (x' : Exchange) :
  fetch_ohlcv_safe fetch_ohlcv x sym timeframe since limit = (df, x') ->
  forall t, In t (index df) -> since <= t.
Proof.
  intros F t Ht.
  pose proof (fetch_ohlcv_safe_index x sym timeframe since limit) as Hidx.
  destruct (fetch_ohlcv x sym timeframe since limit) as [[rows|] x1] eqn:E.
  - destruct Hidx as [_ Hidx]. rewrite F in Hidx. simpl in Hidx.
    rewrite Hidx in Ht. apply in_map_iff in Ht as (k & <- & Hk).
    pose proof (honours_since _ _ _ _ _ _ _ E) as Hall.
    rewrite Forall_forall in Hall. now apply Hall.
  - rewrite F in Hidx. inversion Hidx; subst. contradiction.
Qed.

Section StrictlyAscending.

(** The exchange answers with candles in time order, no two of a page at
    the same instant. *)
Hypothesis strictly_ascending :
  forall x sym timeframe since limit rows x',
    fetch_ohlcv x sym timeframe since limit = (Some rows, x') ->
    StronglySorted Z.lt (map k_timestamp rows).

Lemma page_strictly_ascending (x : Exchange) (sym timeframe : string)
  (since limit : Z) (df : DataFrame) (x' : Exchange) :
  fetch_ohlcv_safe fetch_ohlcv x sym timeframe since limit = (df, x') ->
  StronglySorted Z.lt (index df).
Proof.
  intros F.
  pose proof (fetch_ohlcv_safe_index x sym timeframe since limit) as Hidx.
  destruct (fetch_ohlcv x sym timeframe since limit) as [[rows|] x1] eqn:E.
  - destruct Hidx as [_ Hidx]. rewrite F in Hidx. simpl in Hidx.
    rewrite Hidx. now apply (strictly_ascending _ _ _ _ _ _ _ E).
  - rewrite F in Hidx. inversion Hidx; subst. constructor.
Qed.

(** The last candle of a page of two or more is later than [since]. *)
Lemma page_ends_after_since (x : Exchange) (sym timeframe : string)
  (since limit : Z) (df : DataFrame) (x' : Exchange) (last : Z) :
  fetch_ohlcv_safe fetch_ohlcv x sym timeframe since limit = (df, x') ->
  index_last df = Ok last ->
  (2 <= List.length df)%nat ->
  since < last.
Proof.
  intros F IL Hlen.
  pose proof (page_not_before_since _ _ _ _ _ _ _ F) as Hlow.
  pose proof (page_strictly_ascending _ _ _ _ _ _ _ F) as Hs.
  destruct df as [|r1 [|r2 rest]]; simpl in Hlen; try lia.
  change (index_last (r1 :: r2 :: rest)) with (index_last (r2 :: rest)) in IL.
  apply index_last_In in IL.
  change (index (r1 :: r2 :: rest)) with (fst r1 :: index (r2 :: rest)) in Hs.
  apply StronglySorted_inv in Hs as [_ Hall].
  rewrite Forall_forall in Hall. specialize (Hall last IL).
  specialize (Hlow (fst r1) (or_introl eq_refl)). lia.
Qed.

Lemma fetch_loop_terminates_from (sym timeframe : string) (end_ms : Z)
  (n : nat) :
  forall x cursor acc,
    (Z.to_nat (end_ms - cursor) <= n)%nat ->
    exists r, fetch_loop fetch_ohlcv (S n) sym timeframe end_ms x cursor acc = Some r.
Proof.
  induction n as [|n IH]; intros x cursor acc Hn;
    rewrite fetch_loop_iteration;
    destruct (fetch_ohlcv_safe fetch_ohlcv x sym timeframe cursor page_size)
      as [df x1] eqn:F;
    (destruct (index_last df) as [last|e] eqn:IL; [|eauto]);
    (destruct (Z.leb_spec end_ms (timestamp_ms last)); [eauto|]);
    (destruct (Z.ltb_spec (Z.of_nat (List.length df)) page_size); [eauto|]);
    assert (Hlast : cursor < last)
      by (apply (page_ends_after_since _ _ _ _ _ _ _ _ F IL);
          unfold page_size in *; lia);
    pose proof (timestamp_ms_lower last).
  - exfalso. lia.
  - apply IH. lia.
Qed.

(** Against an exchange that honours [since] and answers in strict time
    order, the loop stops: it has returned within one request per
    millisecond of the window, plus one. *)
Theorem fetch_loop_terminates (sym timeframe : string) (end_ms : Z)
  (x : Exchange) (start : Z) :
  exists chunks x',
    forall fuel, (Z.to_nat (end_ms - start) < fuel)%nat ->
    fetch_loop fetch_ohlcv fuel sym timeframe end_ms x start [] = Some (chunks, x').
Proof.
  destruct (fetch_loop_terminates_from sym timeframe end_ms
              (Z.to_nat (end_ms - start)) x start [] (Nat.le_refl _))
    as [[chunks x'] H].
  exists chunks, x'. intros fuel Hfuel.
  apply (fetch_loop_more_fuel _ _ _ _ _ _ _ _ H). lia.
Qed.

End StrictlyAscending.

Section Ascending.

(** The exchange answers with candles in time order. *)
Hypothesis ascending :
  forall x sym timeframe since limit rows x',
    fetch_ohlcv x sym timeframe since limit = (Some rows, x') ->
    StronglySorted Z.le (map k_timestamp rows).

Lemma page_ascending (x : Exchange) (sym timeframe : string)
  (since limit : Z) (df : DataFrame) (x' : Exchange) :
  fetch_ohlcv_safe fetch_ohlcv x sym timeframe since limit = (df, x') ->
  StronglySorted Z.le (index df).
Proof.
  intros F.
  pose proof (fetch_ohlcv_safe_index x sym timeframe since limit) as Hidx.
  destruct (fetch_ohlcv x sym timeframe since limit) as [[rows|] x1] eqn:E.
  - destruct Hidx as [_ Hidx]. rewrite F in Hidx. simpl in Hidx.
    rewrite Hidx. now apply (ascending _ _ _ _ _ _ _ E).
  - rewrite F in Hidx. inversion Hidx; subst. constructor.
Qed.

Lemma in_window_snoc (start end_ms : Z) (acc : list DataFrame) (df : DataFrame) :
  in_window start end_ms acc ->
  (forall r, In r df -> start <= fst r <= end_ms) ->
  in_window start end_ms (acc ++ [df]).
Proof.
  unfold in_window, concat. intros Hacc Hdf r Hr.
  rewrite concat_app in Hr. simpl in Hr. rewrite app_nil_r in Hr.
  apply in_app_or in Hr as [Hr|Hr]; auto.
Qed.

Lemma fetch_loop_window_from (sym timeframe : string) (start end_ms : Z)
  (fuel : nat) :
  forall x cursor acc chunks x',
    fetch_loop fetch_ohlcv fuel sym timeframe end_ms x cursor acc = Some (chunks, x') ->
    start <= cursor ->
    in_window start end_ms acc ->
    in_window start end_ms chunks.
Proof.
  induction fuel as [|fuel IH]; intros x cursor acc chunks x' H Hc Hacc;
    [discriminate|].
  rewrite fetch_loop_iteration in H.
  destruct (fetch_ohlcv_safe fetch_ohlcv x sym timeframe cursor page_size)
    as [df x1] eqn:F.
  pose proof (page_not_before_since _ _ _ _ _ _ _ F) as Hlow.
  pose proof (page_ascending _ _ _ _ _ _ _ F) as Hasc.
  destruct (index_last df) as [last|e] eqn:IL.
  - pose proof (index_last_latest df last Hasc IL) as Hhigh.
    pose proof (timestamp_ms_lower last) as Hconv.
    destruct (Z.leb_spec end_ms (timestamp_ms last)).
    + inversion H; subst. apply in_window_snoc; [assumption|].
      intros r Hr. apply filter_In in Hr as [Hr Hle]. apply Z.leb_le in Hle.
      specialize (Hlow (fst r) (in_map fst _ _ Hr)). lia.
    + assert (Hdf : forall r, In r df -> start <= fst r <= end_ms).
      { intros r Hr. specialize (Hlow (fst r) (in_map fst _ _ Hr)).
        specialize (Hhigh (fst r) (in_map fst _ _ Hr)). lia. }
      destruct (Z.ltb_spec (Z.of_nat (List.length df)) page_size).
      * inversion H; subst. now apply in_window_snoc.
      * apply (IH _ _ _ _ _ H).
        -- specialize (Hlow last (index_last_In _ _ IL)). lia.
        -- now apply in_window_snoc.
  - inversion H; subst. assumption.
Qed.

(** Against an exchange that honours [since] and answers in time order,
    every row the loop returns lies in the requested window, from [start]
    to [end] inclusive. *)
Theorem fetch_loop_stays_in_window (fuel : nat) (sym timeframe : string)
  (end_ms : Z) (x : Exchange) (start : Z) (chunks : list DataFrame)
  (x' : Exchange) :
  fetch_loop fetch_ohlcv fuel sym timeframe end_ms x start [] = Some (chunks, x') ->
  forall r, In r (concat chunks) -> start <= fst r <= end_ms.
Proof.
  intros H. apply (fetch_loop_window_from _ _ start _ _ _ _ _ _ _ H); [lia|].
  intros r [].
Qed.

End Ascending.

End HonoursSince.

(** Against an exchange that answers every request with a full page whose
    last timestamp the loop takes to be before [end] (as it does every
    last timestamp from the epoch on that is before [end]), whatever
    [since] is, the loop never returns: no number of iterations is
    enough. *)
Theorem fetch_loop_never_returns (sym timeframe : string) (end_ms : Z) :
  (forall x since,
     exists last_ts,
       index_last (fst (fetch_ohlcv_safe fetch_ohlcv x sym timeframe since page_size))
         = Ok last_ts /\
       (timestamp_ms last_ts < end_ms \/ 0 <= last_ts < end_ms) /\
       page_size <=
         Z.of_nat (List.length
           (fst (fetch_ohlcv_safe fetch_ohlcv x sym timeframe since page_size)))) ->
  forall fuel x cursor acc,
    fetch_loop fetch_ohlcv fuel sym timeframe end_ms x cursor acc = None.
Proof.
  intros Hfull fuel. induction fuel as [|fuel IH]; intros x cursor acc;
    [reflexivity|].
  rewrite fetch_loop_iteration.
  destruct (Hfull x cursor) as (last_ts & IL & Hend & Hlen).
  destruct (fetch_ohlcv_safe fetch_ohlcv x sym timeframe cursor page_size)
    as [df x1]. simpl in IL, Hlen. rewrite IL.
  assert (Hbefore : timestamp_ms last_ts < end_ms).
  { destruct Hend as [Hend|[Hpos Hend]]; [exact Hend|].
    pose proof (timestamp_ms_le last_ts Hpos). lia. }
  destruct (Z.leb_spec end_ms (timestamp_ms last_ts)); [lia|].
  destruct (Z.ltb_spec (Z.of_nat (List.length df)) page_size); [lia|].
  apply IH.
Qed.

End FetchLoopBounds.

Lemma toy_fetch_honours_since (total : Z) :
  forall x sym timeframe since limit rows x',
    toy_fetch total x sym timeframe since limit = (Some rows, x') ->
    Forall (fun k => since <= k_timestamp k) rows.
Proof.
  intros x sym timeframe since limit rows x' H.
  unfold toy_fetch in H. inversion H; subst.
  apply Forall_forall. intros k Hk.
  apply in_map_iff in Hk as (i & <- & _). simpl. lia.
Qed.

Lemma toy_times_strictly_ascending (since : Z) (n a : nat) :
  StronglySorted Z.lt
    (map k_timestamp (map (fun i => toy_kline (since + Z.of_nat i)) (seq a n))).
Proof.
  revert a. induction n as [|n IH]; intros a; [constructor|].
  simpl. constructor; [apply IH|].
  apply Forall_forall. intros t Ht.
  apply in_map_iff in Ht as (k & <- & Hk).
  apply in_map_iff in Hk as (i & <- & Hi).
  apply in_seq in Hi. simpl. lia.
Qed.

Lemma toy_fetch_strictly_ascending (total : Z) :
  forall x sym timeframe since limit rows x',
    toy_fetch total x sym timeframe since limit = (Some rows, x') ->
    StronglySorted Z.lt (map k_timestamp rows).
Proof.
  intros x sym timeframe since limit rows x' H.
  unfold toy_fetch in H. inversion H; subst. apply toy_times_strictly_ascending.
Qed.

Lemma toy_fetch_ascending (total : Z) :
  forall x sym timeframe since limit rows x',
    toy_fetch total x sym timeframe since limit = (Some rows, x') ->
    StronglySorted Z.le (map k_timestamp rows).
Proof.
  intros x sym timeframe since limit rows x' H.
  apply (toy_fetch_strictly_ascending total) in H.
  induction H as [|t l _ IH Hall]; constructor; [exact IH|].
  apply Forall_forall. intros u Hu. rewrite Forall_forall in Hall.
  specialize (Hall u Hu). lia.
Qed.

Lemma fetch_loop_terminates_witness :
  exists chunks x',
    forall fuel, (Z.to_nat (2200 - 0) < fuel)%nat ->
    fetch_loop (toy_fetch 2500) fuel "BTC/USDT" "1m" 2200 O 0 [] = Some (chunks, x').
Proof.
  apply (fetch_loop_terminates nat (toy_fetch 2500) (toy_fetch_honours_since 2500)
           (toy_fetch_strictly_ascending 2500) "BTC/USDT" "1m" 2200 O 0).
Defined.

Lemma fetch_loop_stays_in_window_witness :
  let c := mkCandle 1 1 1 1 1 (Some "BTC/USDT"%string) in
  Forall (fun r => 0 <= fst r <= 10) (concat [[(0, c); (1, c); (2, c)]]).
Proof.
  intros c. apply Forall_forall.
  apply (fetch_loop_stays_in_window nat (toy_fetch 3) (toy_fetch_honours_since 3)
           (toy_fetch_ascending 3) 1 "BTC/USDT" "1m" 10 O 0
           [[(0, c); (1, c); (2, c)]] 1%nat).
  reflexivity.
Defined.

Lemma fetch_loop_never_returns_witness :
  fetch_loop stuck_fetch 50 "BTC/USDT" "1m" 5000 O 0 [] = None.
Proof.
  apply (fetch_loop_never_returns nat stuck_fetch "BTC/USDT" "1m" 5000).
  intros x since. exists 999.
  split; [vm_compute; reflexivity|].
  split; [left; vm_compute; reflexivity | vm_compute; discriminate].
Defined.

(** Before the epoch the conversion errs towards zero, and a full page
    that ends one millisecond before [end] stops the loop: the thousand
    candles from -2000 to -1001 against a window that ends at -1000. *)
Example fetch_loop_returns_before_epoch :
  let page := map (fun i : nat => toy_kline (-2000 + Z.of_nat i)) (seq 0 1000) in
  let fetch := fun (calls : nat) (sym timeframe : string) (since limit : Z) =>
                 (Some page, S calls) in
  timestamp_ms (-1001) = -1000 /\
  match fetch_loop fetch 1 "BTC/USDT" "1m" (-1000) O (-2000) [] with
  | Some (chunks, calls) => (map index_last chunks, calls)
  | None => ([], O)
  end = ([Ok (-1001)], 1%nat).
Proof. split; vm_compute; reflexivity. Qed.

(** Without strict order the loop can stay where it is: an exchange that
    answers with the thousand candles from 1001 to 2000, newest first,
    honours a [since] of 1001; the last candle of the page is at 1001,
    which the loop takes for 1000, and the next request is at 1001
    again. *)
Example fetch_loop_cursor_stays :
  let page := map (fun i : nat => toy_kline (2000 - Z.of_nat i)) (seq 0 1000) in
  let fetch := fun (calls : nat) (sym timeframe : string) (since limit : Z) =>
                 (Some page, S calls) in
  Forall (fun k => 1001 <= k_timestamp k) page /\
  timestamp_ms 1001 + 1 = 1001 /\
  forall fuel calls acc,
    fetch_loop fetch fuel "BTC/USDT" "1m" 1005 calls 1001 acc = None.
Proof.
  cbv zeta. split.
  { apply Forall_forall. intros k Hk. apply in_map_iff in Hk as (i & <- & Hi).
    apply in_seq in Hi. unfold toy_kline. cbn [k_timestamp]. lia. }
  split; [vm_compute; reflexivity|].
  induction fuel as [|fuel IH]; intros calls acc; [reflexivity|].
  rewrite fetch_loop_iteration. unfold fetch_ohlcv_safe.
  match goal with
  | |- context [index_last ?p] =>
      replace (index_last p) with (Ok (A := Z) 1001) by (vm_compute; reflexivity)
  end.
  replace (timestamp_ms 1001) with 1000 by (vm_compute; reflexivity).
  rewrite length_map, length_map, length_seq. apply IH.
Qed.

(** ** Symbols, pairs and paths *)

Section SymbolFacts.

Local Open Scope string_scope.

Lemma split_head_pair (base rest : string) :
  PyStr.contains_char "/" base = false ->
  Py.split_head "/" (base ++ String "/" rest) = base.
Proof.
  induction base as [|a base IH]; simpl; intros H.
  - reflexivity.
  - apply orb_false_elim in H as [Ha Hb]. rewrite Ha. now rewrite IH.
Qed.

Lemma split_head_of_pair (base quote : string) :
  PyStr.contains_char "/" base = false ->
  Py.split_head "/" (pair base quote) = base.
Proof. intros H. unfold pair. simpl append. now apply split_head_pair. Qed.

Lemma replace_char_absent (c d : ascii) (s : string) :
  PyStr.contains_char c s = false -> PyStr.replace_char c d s = s.
Proof.
  induction s as [|a s IH]; simpl; intros H; [reflexivity|].
  apply orb_false_elim in H as [Ha Hs]. now rewrite Ha, IH.
Qed.

Lemma replace_char_app (c d : ascii) (s t : string) :
  PyStr.replace_char c d (s ++ t) =
  PyStr.replace_char c d s ++ PyStr.replace_char c d t.
Proof. induction s as [|a s IH]; simpl; [reflexivity | now rewrite IH]. Qed.

Lemma append_assoc (a b c : string) : (a ++ b) ++ c = a ++ (b ++ c).
Proof. induction a as [|x a IH]; simpl; [reflexivity | now rewrite IH]. Qed.

Lemma append_inj_left (a x y : string) : a ++ x = a ++ y -> x = y.
Proof.
  induction a as [|c a IH]; simpl; intros H; [assumption|].
  inversion H. now apply IH.
Qed.

Lemma length_append (a b : string) :
  String.length (a ++ b) = (String.length a + String.length b)%nat.
Proof. induction a as [|c a IH]; simpl; [reflexivity | now rewrite IH]. Qed.

Lemma append_inj_same_length (a b x y : string) :
  String.length a = String.length b -> a ++ x = b ++ y -> a = b.
Proof.
  revert b. induction a as [|c a IH]; intros [|d b] Hlen H; simpl in *;
    try discriminate; [reflexivity|].
  inversion H; subst. f_equal. apply (IH b); [lia | assumption].
Qed.

(** [update_symbols_to_now] names the partition by the base currency
    alone, [save_data] by the whole symbol: the two agree on the file of a
    pair exactly when it is quoted in USDT. *)
Theorem save_and_update_paths_agree_on_usdt (base quote timeframe : string) :
  PyStr.contains_char "/" base = false ->
  PyStr.contains_char "/" quote = false ->
  (save_csv_path (pair base quote) timeframe =
   update_csv_path (pair base quote) timeframe <-> quote = "USDT") /\
  update_csv_path (pair base quote) timeframe =
  update_csv_path (pair base "USDT") timeframe.
Proof.
  intros Hb Hq. unfold save_csv_path, update_csv_path.
  rewrite !(split_head_of_pair base _ Hb).
  split; [|reflexivity].
  unfold pair. rewrite replace_char_app. simpl PyStr.replace_char.
  rewrite (replace_char_absent _ _ base Hb), (replace_char_absent _ _ quote Hq).
  split.
  - intros H.
    apply append_inj_left in H. apply append_inj_left in H.
    apply (append_inj_left "crypto_") in H.
    rewrite append_assoc in H. apply append_inj_left in H.
    simpl in H. inversion H as [H'].
    change ("USDT_" ++ timeframe ++ ".csv")
      with ("USDT" ++ "_" ++ timeframe ++ ".csv") in H'.
    assert (Hlen : String.length quote = 4%nat).
    { apply (f_equal String.length) in H'. rewrite !length_append in H'.
      simpl in H'. lia. }
    now apply (append_inj_same_length quote "USDT" _ _ Hlen) in H'.
  - intros ->. rewrite (append_assoc base). reflexivity.
Qed.

Lemma save_and_update_paths_agree_on_usdt_witness :
  (save_csv_path (pair "BTC" "USDC") "1h" = update_csv_path (pair "BTC" "USDC") "1h"
   <-> "USDC" = "USDT") /\
  update_csv_path (pair "BTC" "USDC") "1h" = update_csv_path (pair "BTC" "USDT") "1h".
Proof.
  apply (save_and_update_paths_agree_on_usdt "BTC" "USDC" "1h"); reflexivity.
Defined.

Lemma upper_char_idem (a : ascii) :
  PyStr.upper_char (PyStr.upper_char a) = PyStr.upper_char a.
Proof. destruct a as [[] [] [] [] [] [] [] []]; reflexivity. Qed.

Lemma upper_char_slash (a : ascii) :
  Ascii.eqb (PyStr.upper_char a) "/" = Ascii.eqb a "/".
Proof. destruct a as [[] [] [] [] [] [] [] []]; reflexivity. Qed.

Lemma upper_idem (s : string) : PyStr.upper (PyStr.upper s) = PyStr.upper s.
Proof.
  induction s as [|a s IH]; simpl; [reflexivity|].
  now rewrite upper_char_idem, IH.
Qed.

Lemma upper_contains_slash (s : string) :
  PyStr.contains_char "/" (PyStr.upper s) = PyStr.contains_char "/" s.
Proof.
  induction s as [|a s IH]; simpl; [reflexivity|].
  now rewrite upper_char_slash, IH.
Qed.

Lemma upper_app (s t : string) :
  PyStr.upper (s ++ t) = PyStr.upper s ++ PyStr.upper t.
Proof. induction s as [|a s IH]; simpl; [reflexivity | now rewrite IH]. Qed.

Lemma contains_char_app (c : ascii) (s t : string) :
  PyStr.contains_char c (s ++ t) =
  PyStr.contains_char c s || PyStr.contains_char c t.
Proof.
  induction s as [|a s IH]; simpl; [reflexivity|].
  now rewrite IH, orb_assoc.
Qed.

(** [normalize_symbol] gives a symbol with a slash, is idempotent, and
    turns a bare base currency into its USDT pair, whose base is the
    upper-cased input. *)
Theorem normalize_symbol_normalises (s : string) :
  PyStr.contains_char "/" (normalize_symbol s) = true /\
  normalize_symbol (normalize_symbol s) = normalize_symbol s /\
  (PyStr.contains_char "/" s = false ->
   normalize_symbol s = pair (PyStr.upper s) "USDT" /\
   Py.split_head "/" (normalize_symbol s) = PyStr.upper s).
Proof.
  assert (Hslash : PyStr.contains_char "/" (normalize_symbol s) = true).
  { unfold normalize_symbol.
    destruct (PyStr.contains_char "/" (PyStr.upper s)) eqn:E; simpl; [exact E|].
    rewrite contains_char_app. simpl. apply orb_true_r. }
  split; [exact Hslash|]. split.
  - unfold normalize_symbol at 1.
    assert (Hup : PyStr.upper (normalize_symbol s) = normalize_symbol s).
    { unfold normalize_symbol.
      destruct (PyStr.contains_char "/" (PyStr.upper s)); simpl.
      - apply upper_idem.
      - rewrite upper_app, upper_idem. reflexivity. }
    rewrite Hup, Hslash. reflexivity.
  - intros Hs. unfold normalize_symbol.
    rewrite upper_contains_slash, Hs. simpl negb. cbv iota.
    split; [reflexivity|].
    apply (split_head_of_pair (PyStr.upper s) "USDT"). now rewrite upper_contains_slash.
Qed.

Lemma normalize_symbol_normalises_witness :
  normalize_symbol "btc" = pair (PyStr.upper "btc") "USDT" /\
  Py.split_head "/" (normalize_symbol "btc") = PyStr.upper "btc".
Proof.
  destruct (normalize_symbol_normalises "btc") as (_ & _ & H).
  apply H. reflexivity.
Defined.

Lemma pair_injective (b b' q q' : string) :
  PyStr.contains_char "/" b = false -> PyStr.contains_char "/" b' = false ->
  pair b q = pair b' q' -> b = b' /\ q = q'.
Proof.
  unfold pair. revert b'.
  induction b as [|a b IH]; intros [|a' b'] Hb Hb' H; simpl in *.
  - inversion H. now split.
  - inversion H; subst. rewrite Ascii.eqb_refl in Hb'. discriminate.
  - inversion H; subst. rewrite Ascii.eqb_refl in Hb. discriminate.
  - inversion H; subst.
    apply orb_false_elim in Hb as [_ Hb]. apply orb_false_elim in Hb' as [_ Hb'].
    destruct (IH b' Hb Hb' H2) as [-> ->]. now split.
Qed.

Lemma first_listed_base (markets : string -> bool) (base : string)
  (quotes : list string) (s : string) :
  PyStr.contains_char "/" base = false ->
  In s (first_listed markets base quotes) ->
  Py.split_head "/" s = base /\ markets s = true.
Proof.
  intros Hb. induction quotes as [|q quotes IH]; simpl; [intros []|].
  destruct (markets (pair base q)) eqn:E; [|exact IH].
  intros [<-|[]]. split; [|exact E]. now apply split_head_of_pair.
Qed.

Lemma first_listed_short (markets : string -> bool) (base : string)
  (quotes : list string) :
  (List.length (first_listed markets base quotes) <= 1)%nat.
Proof.
  induction quotes as [|q quotes IH]; simpl; [lia|].
  destruct (markets (pair base q)); simpl; lia.
Qed.

Lemma major_pairs_of_base (markets : string -> bool) (bases quotes : list string)
  (base : string) :
  Forall (fun b => PyStr.contains_char "/" b = false) bases ->
  NoDup bases -> In base bases ->
  filter (fun s => String.eqb (Py.split_head "/" s) base)
         (major_pairs_of markets bases quotes) =
  first_listed markets base quotes.
Proof.
  assert (Hother : forall b, PyStr.contains_char "/" b = false -> b <> base ->
            filter (fun s => String.eqb (Py.split_head "/" s) base)
                   (first_listed markets b quotes) = []).
  { intros b Hb Hne. apply filter_none. intros s Hs.
    apply (first_listed_base _ _ _ _ Hb) in Hs as [-> _].
    now apply String.eqb_neq. }
  assert (Hnone : forall bs,
            Forall (fun b => PyStr.contains_char "/" b = false) bs ->
            ~ In base bs ->
            filter (fun s => String.eqb (Py.split_head "/" s) base)
                   (major_pairs_of markets bs quotes) = []).
  { induction bs as [|b bs IH]; intros Hall Hnot; [reflexivity|].
    simpl. rewrite filter_app. inversion Hall; subst.
    rewrite Hother, IH; auto.
    - intros Hin. apply Hnot. now right.
    - intros ->. apply Hnot. now left. }
  induction bases as [|b bases IH]; intros Hall Hnd Hin; [contradiction|].
  inversion Hall as [|? ? Hb Hall']; subst.
  apply NoDup_cons_iff in Hnd as [Hnot Hnd].
  simpl. rewrite filter_app.
  destruct (string_dec b base) as [->|Hne].
  - rewrite (Hnone bases Hall' Hnot), app_nil_r.
    apply forallb_filter_id. apply forallb_forall. intros s Hs.
    apply (first_listed_base _ _ _ _ Hb) in Hs as [-> _]. apply String.eqb_refl.
  - rewrite (Hother b Hb Hne). simpl. apply IH; try assumption.
    destruct Hin as [->|Hin]; [contradiction | assumption].
Qed.

Lemma major_pairs_of_listed (markets : string -> bool) (bases quotes : list string) :
  Forall (fun s => markets s = true) (major_pairs_of markets bases quotes).
Proof.
  induction bases as [|b bases IH]; [constructor|].
  cbn [major_pairs_of]. apply Forall_app. split; [|exact IH].
  clear IH. induction quotes as [|q quotes IH]; [constructor|].
  cbn [first_listed]. destruct (markets (pair b q)) eqn:E; [|exact IH].
  now repeat constructor.
Qed.

Lemma major_pairs_of_length (markets : string -> bool) (bases quotes : list string) :
  (List.length (major_pairs_of markets bases quotes) <= List.length bases)%nat.
Proof.
  induction bases as [|b bases IH]; [apply Nat.le_refl|].
  cbn [major_pairs_of]. rewrite length_app.
  pose proof (first_listed_short markets b quotes). simpl List.length. lia.
Qed.

(** [get_major_pairs] returns listed pairs only, at most one for each of
    the ten major currencies: the pairs of a major currency in the result
    are its pair with the first quote currency, in the order USDT, USDC,
    USD, that the exchange lists. *)
Theorem get_major_pairs_first_listed_quote (markets : string -> bool) :
  Forall (fun s => markets s = true) (get_major_pairs markets) /\
  (List.length (get_major_pairs markets) <= 10)%nat /\
  (forall base, In base major_cryptos ->
     filter (fun s => String.eqb (Py.split_head "/" s) base)
            (get_major_pairs markets) =
     first_listed markets base quote_currencies).
Proof.
  split; [|split].
  - apply major_pairs_of_listed.
  - apply (major_pairs_of_length markets major_cryptos quote_currencies).
  - intros base Hin. apply major_pairs_of_base; try assumption.
    + repeat constructor.
    + unfold major_cryptos. repeat constructor; simpl; intuition discriminate.
Qed.

Lemma get_major_pairs_first_listed_quote_witness :
  let markets := fun s => String.eqb s "BTC/USDC" || String.eqb s "BTC/USD" in
  filter (fun s => String.eqb (Py.split_head "/" s) "BTC") (get_major_pairs markets) =
  first_listed markets "BTC" quote_currencies.
Proof.
  intros markets.
  destruct (get_major_pairs_first_listed_quote markets) as (_ & _ & H).
  apply H. simpl. auto.
Defined.

End SymbolFacts.

(** ** [update_symbols_to_now] and [fetch_historical_data]: edges *)

Lemma combine_chunks_nothing (chunks : list DataFrame) :
  concat chunks = [] -> combine_chunks chunks = [].
Proof. unfold combine_chunks. now intros ->. Qed.

Lemma index_le_none (end_ms : Z) (df : DataFrame) :
  (forall r, In r df -> end_ms < fst r) -> index_le end_ms df = [].
Proof.
  intros H. apply filter_none. intros r Hr. apply Z.leb_gt. now apply H.
Qed.

Section UpdateEdges.

Variable Exchange : Type.
Variable fetch_ohlcv :
  Exchange -> string -> string -> Z -> Z -> option (list Kline) * Exchange.
Variable naive_timestamp_ms : Z -> Z.

(** A first page that lies wholly after the end of the window makes the
    loop stop with one chunk, trimmed to nothing. *)
Lemma fetch_loop_page_after_window (fuel : nat) (sym timeframe : string)
  (end_ms : Z) (x : Exchange) (start : Z) (df : DataFrame) (x1 : Exchange)
  (last_ts : Z) :
  fetch_ohlcv_safe fetch_ohlcv x sym timeframe start page_size = (df, x1) ->
  index_last df = Ok last_ts ->
  (forall r, In r df -> end_ms < fst r) ->
  fetch_loop fetch_ohlcv (S fuel) sym timeframe end_ms x start [] = Some ([[]], x1).
Proof.
  intros F IL Hlate. rewrite fetch_loop_iteration, F, IL.
  assert (Hlast : end_ms < last_ts).
  { apply index_last_In in IL. apply in_map_iff in IL as (r & <- & Hr).
    now apply Hlate. }
  pose proof (timestamp_ms_lower last_ts).
  destruct (Z.leb_spec end_ms (timestamp_ms last_ts)); [|lia].
  now rewrite (index_le_none _ _ Hlate).
Qed.

(** Without a stored file, an update whose first page lies wholly after
    the end of the window (as with [days_back = 0] and today excluded)
    writes an empty file and no manifest; every later update of that
    symbol then raises [IndexError] at the planner, which nothing
    catches. *)
Theorem update_can_store_an_empty_file (fuel : nat) (x : Exchange)
  (sym timeframe : string) (d overlap : Z) (include_now : bool) (now_utc : Z)
  (df : DataFrame) (x1 : Exchange) (last_ts : Z) :
  fetch_ohlcv_safe fetch_ohlcv x sym timeframe
    (naive_timestamp_ms (now_utc - d * us_per_day)) page_size = (df, x1) ->
  index_last df = Ok last_ts ->
  (forall r, In r df -> end_time naive_timestamp_ms include_now now_utc < fst r) ->
  exists w,
    update_symbol fetch_ohlcv naive_timestamp_ms
      (S fuel) x None sym timeframe (Some d) overlap
      include_now now_utc = Ok (Some (w, x1)) /\
    w_file w = Some [] /\
    w_manifest w = None /\
    forall fuel' x2 days_back' overlap' include_now' now_utc',
      update_symbol fetch_ohlcv naive_timestamp_ms
        fuel' x2 (w_file w) sym timeframe days_back'
        overlap' include_now' now_utc' = Raise IndexError.
Proof.
  intros F IL Hlate. eexists. split; [|split; [|split]].
  - unfold update_symbol, resume_since, timedelta_days, bind.
    rewrite (fetch_loop_page_after_window fuel _ _ _ _ _ _ _ _ F IL Hlate).
    reflexivity.
  - reflexivity.
  - reflexivity.
  - reflexivity.
Qed.

(** [fetch_historical_data] raises [IndexError], at the summary it prints,
    when the first page fetched for a symbol lies wholly after the end of
    the window. *)
Theorem fetch_historical_raises_after_window (fuel : nat) (x : Exchange)
  (sym : string) (rest : list string) (timeframe : string) (d : Z)
  (end_time_ms : option Z) (now_utc : Z)
  (df : DataFrame) (x1 : Exchange) (last_ts : Z) :
  fetch_ohlcv_safe fetch_ohlcv x sym timeframe
    (naive_timestamp_ms (now_utc - d * us_per_day)) page_size = (df, x1) ->
  index_last df = Ok last_ts ->
  (forall r, In r df ->
     historical_end_time naive_timestamp_ms end_time_ms now_utc < fst r) ->
  fetch_historical_data fetch_ohlcv naive_timestamp_ms
    (S fuel) x (sym :: rest) timeframe (Some d)
    end_time_ms now_utc = Raise IndexError.
Proof.
  intros F IL Hlate. unfold fetch_historical_data, timedelta_days, bind.
  cbn [fetch_historical_loop]. unfold fetch_historical_symbol, bind.
  rewrite (fetch_loop_page_after_window fuel _ _ _ _ _ _ _ _ F IL Hlate).
  reflexivity.
Qed.

(** A request that fails, or that the exchange answers with nothing, ends
    the update of a symbol at once and leaves its file as it was: the
    stored frame is what the update returns, and without a stored file
    nothing is written. *)
Theorem update_without_answer_keeps_file (fuel : nat) (x : Exchange)
  (file : option DataFrame) (sym timeframe : string) (days_back : option Z)
  (overlap : Z) (include_now : bool) (now_utc : Z) (since_ms : Z) :
  resume_since naive_timestamp_ms
    file timeframe days_back overlap now_utc = Ok since_ms ->
  fst (fetch_ohlcv x sym timeframe since_ms page_size) = None \/
  fst (fetch_ohlcv x sym timeframe since_ms page_size) = Some [] ->
  exists w,
    update_symbol fetch_ohlcv naive_timestamp_ms
      (S fuel) x file sym timeframe days_back overlap
      include_now now_utc =
      Ok (Some (w, snd (fetch_ohlcv x sym timeframe since_ms page_size))) /\
    w_file w = file /\
    w_final w = file.
Proof.
  intros Hsince Hanswer. unfold update_symbol. rewrite Hsince. unfold bind.
  assert (F : fetch_ohlcv_safe fetch_ohlcv x sym timeframe since_ms page_size =
              ([], snd (fetch_ohlcv x sym timeframe since_ms page_size))).
  { unfold fetch_ohlcv_safe.
    destruct (fetch_ohlcv x sym timeframe since_ms page_size) as [answer x1].
    simpl in *. destruct Hanswer as [->| ->]; reflexivity. }
  simpl fetch_loop. rewrite F. simpl.
  destruct file as [existing|]; eexists; repeat split.
Qed.

End UpdateEdges.

Lemma update_can_store_an_empty_file_witness :
  exists w,
    update_symbol (toy_fetch 103) utc_timestamp_ms 1 O None "BTC/USDT" "1d"
      (Some 0) 1 false 100000 = Ok (Some (w, 1%nat)) /\
    w_file w = Some [] /\
    w_manifest w = None /\
    forall fuel' x2 days_back' overlap' include_now' now_utc',
      update_symbol (toy_fetch 103) utc_timestamp_ms fuel' x2 (w_file w)
        "BTC/USDT" "1d" days_back' overlap' include_now' now_utc' = Raise IndexError.
Proof.
  eapply (update_can_store_an_empty_file nat (toy_fetch 103) utc_timestamp_ms 0 O
            "BTC/USDT" "1d" 0 1 false 100000).
  - vm_compute. reflexivity.
  - vm_compute. reflexivity.
  - intros r [<-|[<-|[<-|[]]]]; vm_compute; reflexivity.
Defined.

Lemma fetch_historical_raises_after_window_witness :
  fetch_historical_data (toy_fetch 103) utc_timestamp_ms 1 O ["BTC/USDT"%string]
    "1m" (Some 0) None 100000 = Raise IndexError.
Proof.
  eapply (fetch_historical_raises_after_window nat (toy_fetch 103) utc_timestamp_ms
            0 O "BTC/USDT" [] "1m" 0 None 100000).
  - vm_compute. reflexivity.
  - vm_compute. reflexivity.
  - intros r [<-|[<-|[<-|[]]]]; vm_compute; reflexivity.
Defined.

Lemma update_without_answer_keeps_file_witness :
  exists w,
    update_symbol (toy_fetch 0) utc_timestamp_ms 1 O
      (Some [(1717200000000, flat 1)]) "BTC/USDT" "1d" None 1 true
      1717286400000000 =
      Ok (Some (w, snd (toy_fetch 0 O "BTC/USDT" "1d"
                          (1717200000000 - 1 * 86400000) page_size))) /\
    w_file w = Some [(1717200000000, flat 1)] /\
    w_final w = Some [(1717200000000, flat 1)].
Proof.
  apply (update_without_answer_keeps_file nat (toy_fetch 0) utc_timestamp_ms 0 O
           (Some [(1717200000000, flat 1)]) "BTC/USDT" "1d" None 1 true
           1717286400000000 (1717200000000 - 1 * 86400000)).
  - reflexivity.
  - right. reflexivity.
Defined.

(** ** Updates: the rows they add, the files they touch, the manifest *)

Lemma update_merge_In (file : option DataFrame) (chunks : list DataFrame)
  (r : Row) :
  In r (update_merge file chunks) ->
  In r (stored_rows file) \/ In r (concat chunks).
Proof.
  unfold update_merge, combine_chunks. destruct file as [existing|]; simpl.
  - rewrite merge_existing_eq. intros H.
    apply sort_index_In, drop_index_duplicates_incl, in_app_or in H.
    destruct H as [H|H]; [now left|]. right.
    now apply sort_index_In, drop_index_duplicates_incl in H.
  - intros H. right. now apply sort_index_In, drop_index_duplicates_incl in H.
Qed.

Lemma index_first_earliest (df : DataFrame) (s : Z) :
  StronglySorted Z.le (index df) -> index_first df = Ok s ->
  forall t, In t (index df) -> s <= t.
Proof.
  destruct df as [|r df]; [discriminate|].
  simpl. intros Hs H t Ht. inversion H; subst.
  apply StronglySorted_inv in Hs as [_ Hall].
  destruct Ht as [<-|Ht]; [lia|].
  rewrite Forall_forall in Hall. now apply Hall.
Qed.

Section UpdateWindow.

Variable Exchange : Type.
Variable fetch_ohlcv :
  Exchange -> string -> string -> Z -> Z -> option (list Kline) * Exchange.
Variable naive_timestamp_ms : Z -> Z.

Hypothesis honours_since :
  forall x sym timeframe since limit rows x',
    fetch_ohlcv x sym timeframe since limit = (Some rows, x') ->
    Forall (fun k => since <= k_timestamp k) rows.

Hypothesis ascending :
  forall x sym timeframe since limit rows x',
    fetch_ohlcv x sym timeframe since limit = (Some rows, x') ->
    StronglySorted Z.le (map k_timestamp rows).

(** Against an exchange that honours [since] and answers in time order,
    an update adds nothing outside its window: every row of the frame it
    leaves is a row that was stored or has its timestamp between the
    planned [since] and the end of the window. *)
Theorem update_adds_only_window_rows (fuel : nat) (x : Exchange)
  (file : option DataFrame) (sym timeframe : string) (days_back : option Z)
  (overlap : Z) (include_now : bool) (now_utc : Z)
  (w : Written) (x' : Exchange) (since_ms : Z) (final : DataFrame) :
  update_symbol fetch_ohlcv naive_timestamp_ms
    fuel x file sym timeframe days_back overlap
    include_now now_utc = Ok (Some (w, x')) ->
  resume_since naive_timestamp_ms
    file timeframe days_back overlap now_utc = Ok since_ms ->
  w_final w = Some final ->
  forall r, In r final ->
    In r (stored_rows file) \/
    since_ms <= fst r <= end_time naive_timestamp_ms include_now now_utc.
Proof.
  intros Hup Hsince Hfinal r Hr.
  unfold update_symbol in Hup. rewrite Hsince in Hup. unfold bind in Hup.
  destruct (fetch_loop fetch_ohlcv fuel sym timeframe
              (end_time naive_timestamp_ms include_now now_utc) x since_ms [])
    as [[chunks x1]|] eqn:Hloop; [|discriminate].
  inversion Hup; subst w x'. clear Hup.
  assert (Hwin : in_window since_ms (end_time naive_timestamp_ms
    include_now now_utc) chunks).
  { eapply (fetch_loop_window_from Exchange fetch_ohlcv honours_since ascending);
      [exact Hloop | lia | intros ? []]. }
  unfold store_update in Hfinal. destruct chunks as [|c chunks].
  - destruct file as [existing|]; [|discriminate].
    inversion Hfinal; subst. now left.
  - inversion Hfinal; subst.
    apply update_merge_In in Hr as [Hr|Hr]; [now left | right; now apply Hwin].
Qed.

End UpdateWindow.

Lemma update_adds_only_window_rows_witness :
  let c := mkCandle 1 1 1 1 1 (Some "BTC/USDT"%string) in
  Forall (fun r => In r (stored_rows None) \/ 3 <= fst r <= 86400003)
         [(3, c); (4, c); (5, c)].
Proof.
  intros c. apply Forall_forall.
  change 3 with (utc_timestamp_ms (86400003000 - 1 * us_per_day)) at 1.
  change 86400003 with (end_time utc_timestamp_ms true 86400003000).
  eapply (update_adds_only_window_rows nat (toy_fetch 6) utc_timestamp_ms
            (toy_fetch_honours_since 6) (toy_fetch_ascending 6) 2 O None
            "BTC/USDT" "1m" (Some 1) 1 true 86400003000).
  - vm_compute. reflexivity.
  - reflexivity.
  - reflexivity.
Defined.

Section UpdateFrame.

Variable Exchange : Type.
Variable fetch_ohlcv :
  Exchange -> string -> string -> Z -> Z -> option (list Kline) * Exchange.
Variable naive_timestamp_ms : Z -> Z.

Lemma update_symbols_loop_frame (fuel : nat) (symbols : list string)
  (timeframe : string) (days_back : option Z) (overlap : Z)
  (include_now : bool) (now_utc : Z) :
  forall x st results st' x' results',
    update_symbols_loop fetch_ohlcv naive_timestamp_ms
      fuel x st results symbols timeframe
      days_back overlap include_now now_utc = Ok (Some (st', x', results')) ->
    (forall base,
       (forall sym, In sym symbols -> Py.split_head "/" sym <> base) ->
       st' base = st base) /\
    (forall s, In s (map fst results') ->
       In s (map fst results) \/ In s symbols).
Proof.
  induction symbols as [|sym symbols IH]; intros x st results st' x' results' H.
  - inversion H; subst. split; [reflexivity | now left].
  - cbn [update_symbols_loop] in H. unfold bind in H.
    destruct (update_symbol fetch_ohlcv naive_timestamp_ms
      fuel x (st (Py.split_head "/" sym)) sym
                timeframe days_back overlap include_now now_utc)
      as [[[w x1]|]|e]; try discriminate.
    apply IH in H as [Hst Hres]. split.
    + intros base Hbase. rewrite Hst.
      * unfold store_set. destruct (String.eqb_spec base (Py.split_head "/" sym))
          as [->|_]; [|reflexivity].
        exfalso. apply (Hbase sym); [now left | reflexivity].
      * intros s Hs. apply Hbase. now right.
    + intros s Hs. apply Hres in Hs as [Hs|Hs]; [|right; now right].
      destruct (w_final w) as [final_df|]; [|now left].
      apply dict_set_keys in Hs as [->|Hs]; [right; now left | now left].
Qed.

(** [update_symbols_to_now] touches no file but those of the symbols it
    is given: the file of every other base currency is after the call
    what it was before, and the dict returned has no other key. *)
Theorem update_leaves_other_files (fuel : nat) (x : Exchange) (st : Store)
  (symbols : list string) (timeframe : string) (days_back : option Z)
  (overlap : Z) (include_now : bool) (now_utc : Z)
  (st' : Store) (x' : Exchange) (results : Dict.t DataFrame) :
  update_symbols_to_now fetch_ohlcv naive_timestamp_ms
    fuel x st symbols timeframe days_back
    overlap include_now now_utc = Ok (Some (st', x', results)) ->
  (forall base,
     (forall sym, In sym symbols -> Py.split_head "/" sym <> base) ->
     st' base = st base) /\
  (forall s, In s (map fst results) -> In s symbols).
Proof.
  intros H. apply update_symbols_loop_frame in H as [Hst Hres].
  split; [exact Hst|]. intros s Hs.
  destruct (Hres s Hs) as [[]|Hin]. exact Hin.
Qed.

End UpdateFrame.

Lemma update_leaves_other_files_witness :
  match update_symbols_to_now (toy_fetch 0) utc_timestamp_ms
    1 O sample_store ["BTC/USDT"%string]
          "1d" None 1 true 1717286400000000 with
  | Ok (Some (st', _, results)) =>
      (forall base,
         (forall sym, In sym ["BTC/USDT"%string] -> Py.split_head "/" sym <> base) ->
         st' base = sample_store base) /\
      (forall s, In s (map fst results) -> In s ["BTC/USDT"%string])
  | _ => False
  end.
Proof.
  destruct (update_symbols_to_now (toy_fetch 0) utc_timestamp_ms 1 O sample_store
              ["BTC/USDT"%string] "1d" None 1 true 1717286400000000)
    as [[[[st' x'] results]|]|e] eqn:E.
  - apply (update_leaves_other_files nat (toy_fetch 0) utc_timestamp_ms 1 O sample_store
             ["BTC/USDT"%string] "1d" None 1 true 1717286400000000 st' x' results E).
  - vm_compute in E. discriminate E.
  - vm_compute in E. discriminate E.
Defined.

(** After an update that fetched something, the manifest describes the
    file: on an empty file none is written; otherwise its row count is
    the length of the file, its start and end dates are the first and the
    last timestamp, and every stored timestamp lies between them. *)
Theorem update_manifest_describes_file (sym timeframe : string)
  (file : option DataFrame) (chunks : list DataFrame) :
  chunks <> [] ->
  exists final,
    w_file (store_update sym timeframe file chunks) = Some final /\
    strictly_increasing final /\
    ((final = [] /\ w_manifest (store_update sym timeframe file chunks) = None) \/
     (exists m,
        w_manifest (store_update sym timeframe file chunks) = Some m /\
        sm_rows m = Z.of_nat (List.length final) /\
        index_first final = Ok (sm_start_date m) /\
        index_last final = Ok (sm_end_date m) /\
        (forall t, In t (index final) -> sm_start_date m <= t <= sm_end_date m) /\
        sm_total_return_pct m = fetcher_total_return_pct final)).
Proof.
  intros Hne. destruct chunks as [|c chunks]; [contradiction|].
  cbn [store_update w_file w_manifest].
  set (final := update_merge file (c :: chunks)).
  exists final. split; [reflexivity|].
  assert (Hinc : strictly_increasing final) by apply update_merge_increasing.
  split; [exact Hinc|].
  destruct final as [|r0 rest] eqn:E; [left; now split|].
  right. rewrite <- E in *. unfold try_manifest, symbol_manifest.
  destruct (index_first final) as [s|e1] eqn:Hs; [|rewrite E in Hs; discriminate].
  destruct (index_last_nonempty final) as [l Hl]; [rewrite E; discriminate|].
  rewrite Hl. simpl bind. eexists. split; [reflexivity|]. simpl.
  repeat split; try reflexivity.
  - now apply (index_first_earliest final s (strict_sorted_le _ Hinc) Hs).
  - now apply (index_last_latest final l (strict_sorted_le _ Hinc) Hl).
Qed.

Lemma update_manifest_describes_file_witness :
  exists final,
    w_file (store_update "BTC/USDT" "1h" None [[(2, flat 20); (1, flat 10)]])
      = Some final /\
    strictly_increasing final /\
    ((final = [] /\
      w_manifest (store_update "BTC/USDT" "1h" None [[(2, flat 20); (1, flat 10)]])
        = None) \/
     (exists m,
        w_manifest (store_update "BTC/USDT" "1h" None [[(2, flat 20); (1, flat 10)]])
          = Some m /\
        sm_rows m = Z.of_nat (List.length final) /\
        index_first final = Ok (sm_start_date m) /\
        index_last final = Ok (sm_end_date m) /\
        (forall t, In t (index final) -> sm_start_date m <= t <= sm_end_date m) /\
        sm_total_return_pct m = fetcher_total_return_pct final)).
Proof.
  apply (update_manifest_describes_file "BTC/USDT" "1h" None
           [[(2, flat 20); (1, flat 10)]]).
  discriminate.
Defined.

(** ** Fetching and saving *)

Lemma save_symbol_keeps_order (sym timeframe : string)
  (file : option DataFrame) (df : DataFrame) (w : option Written) :
  (forall existing, file = Some existing -> strictly_increasing existing) ->
  strictly_increasing df ->
  save_symbol sym timeframe file df = Ok w ->
  forall final, file_after_save file w = Some final -> strictly_increasing final.
Proof.
  intros Hfile Hdf Hsave final Hfinal.
  destruct file as [existing|].
  - destruct (index_last existing) as [L|e] eqn:HL.
    + destruct (save_symbol_existing sym timeframe existing df L HL)
        as (w' & Hsave' & Hcases).
      rewrite Hsave in Hsave'. inversion Hsave'; subst w'.
      destruct Hcases as [[_ Hf]|[_ Hf]]; rewrite Hf in Hfinal;
        inversion Hfinal; subst.
      * now apply Hfile.
      * apply sort_drop_strictly_increasing.
    + unfold save_symbol in Hsave. rewrite HL in Hsave.
      destruct (empty df); [|discriminate].
      inversion Hsave; subst. simpl in Hfinal. inversion Hfinal; subst.
      now apply Hfile.
  - unfold save_symbol in Hsave. destruct (empty df).
    + inversion Hsave; subst. discriminate.
    + inversion Hsave; subst. simpl in Hfinal. now inversion Hfinal; subst.
Qed.

Lemma save_items_keeps_order (timeframe : string) (items : Dict.t DataFrame) :
  forall fs manifest fs' manifest',
    files_in_order fs ->
    Forall (fun kv => strictly_increasing (snd kv)) items ->
    save_items items timeframe fs manifest = Ok (fs', manifest') ->
    files_in_order fs'.
Proof.
  induction items as [|[sym df] items IH];
    intros fs manifest fs' manifest' Hfs Hitems H.
  - inversion H; subst. exact Hfs.
  - inversion Hitems as [|? ? Hdf Hrest]; subst. simpl in Hdf.
    cbn [save_items] in H.
    destruct (save_symbol sym timeframe (fs (save_csv_path sym timeframe)) df)
      as [w|e] eqn:Hsave; [|discriminate].
    unfold bind in H at 1.
    destruct w as [written|]; [|now apply (IH _ _ _ _ Hfs Hrest H)].
    destruct (index_first (stored_rows (w_final written))); [|discriminate].
    destruct (index_last (stored_rows (w_final written))); [|discriminate].
    unfold bind in H. apply (IH _ _ _ _) in H; try assumption.
    intros path f Hf. unfold files_set in Hf.
    destruct (String.eqb_spec path (save_csv_path sym timeframe)) as [->|_];
      [|now apply (Hfs path)].
    apply (save_symbol_keeps_order sym timeframe _ df (Some written)
             (Hfs (save_csv_path sym timeframe)) Hdf Hsave f Hf).
Qed.

Section FetchAndSave.

Variable Exchange : Type.
Variable fetch_ohlcv :
  Exchange -> string -> string -> Z -> Z -> option (list Kline) * Exchange.
Variable naive_timestamp_ms : Z -> Z.

Lemma fetch_historical_loop_in_order (fuel : nat) (symbols : list string)
  (timeframe : string) (start_time end_ms : Z) :
  forall x data_dict data' x',
    Forall (fun kv => strictly_increasing (snd kv)) data_dict ->
    fetch_historical_loop fetch_ohlcv fuel x symbols timeframe start_time end_ms
      data_dict = Ok (Some (data', x')) ->
    Forall (fun kv : string * DataFrame => strictly_increasing (snd kv)) data'.
Proof.
  induction symbols as [|sym symbols IH]; intros x data_dict data' x' Hd H.
  - inversion H; subst. exact Hd.
  - cbn [fetch_historical_loop] in H. unfold bind in H at 1.
    destruct (fetch_historical_symbol fetch_ohlcv fuel x sym timeframe
                start_time end_ms) as [[[entry x1]|]|e] eqn:Hsym;
      try discriminate.
    apply IH in H; [exact H|].
    destruct entry as [combined_df|]; [|exact Hd].
    assert (Hc : strictly_increasing combined_df).
    { unfold fetch_historical_symbol in Hsym.
      destruct (fetch_loop _ _ _ _ _ _ _ _) as [[all_data x2]|]; [|discriminate].
      destruct all_data as [|c all_data]; [discriminate|].
      unfold bind in Hsym.
      destruct (index_first _); [|discriminate].
      destruct (index_last _); [|discriminate].
      inversion Hsym; subst. apply sort_drop_strictly_increasing. }
    apply Forall_forall. intros [k v] Hkv.
    apply dict_set_In in Hkv as [[_ ->]|Hkv]; [exact Hc|].
    rewrite Forall_forall in Hd. now apply (Hd (k, v)).
Qed.

(** Fetching history and saving it keeps the partitions in strict time
    order: when every stored partition is, every partition is after the
    call. *)
Theorem fetch_and_save_keeps_time_order (fuel : nat) (x : Exchange)
  (fs : Files) (symbols : list string) (timeframe : string)
  (days_back : option Z) (now_utc : Z)
  (fs' : Files) (manifest : SaveManifest) (x' : Exchange) :
  files_in_order fs ->
  fetch_and_save fetch_ohlcv naive_timestamp_ms
    fuel x fs symbols timeframe days_back now_utc =
    Ok (Some (fs', manifest, x')) ->
  files_in_order fs'.
Proof.
  intros Hfs H. unfold fetch_and_save, fetch_historical_data in H.
  destruct (timedelta_days days_back) as [back|e]; [|discriminate].
  unfold bind in H at 1 2.
  destruct (fetch_historical_loop _ _ _ _ _ _ _ _) as [[[data x1]|]|e] eqn:Hloop;
    try discriminate.
  apply fetch_historical_loop_in_order in Hloop; [|constructor].
  destruct (save_data data timeframe fs) as [[fs1 m1]|e] eqn:Hsave;
    [|discriminate].
  pose proof (save_items_keeps_order timeframe data fs _ fs1 m1 Hfs Hloop Hsave)
    as Horder.
  unfold bind in H. inversion H; subst. exact Horder.
Qed.

End FetchAndSave.

Lemma fetch_and_save_keeps_time_order_witness :
  match fetch_and_save (toy_fetch 6) utc_timestamp_ms 2 O no_files
          ["BTC/USDT"%string] "1m"
          (Some 1) 86400003000 with
  | Ok (Some (fs', _, _)) => files_in_order fs'
  | _ => False
  end.
Proof.
  destruct (fetch_and_save (toy_fetch 6) utc_timestamp_ms 2 O no_files
          ["BTC/USDT"%string] "1m"
              (Some 1) 86400003000) as [[[[fs' m] x']|]|e] eqn:E.
  - apply (fetch_and_save_keeps_time_order nat (toy_fetch 6) utc_timestamp_ms 2 O
             no_files ["BTC/USDT"%string] "1m" (Some 1) 86400003000 fs' m x').
    + intros path f Hf. discriminate Hf.
    + exact E.
  - vm_compute in E. discriminate E.
  - vm_compute in E. discriminate E.
Defined.

(** The run of the witness, spelt out: three candles of yesterday are
    fetched and stored under the path of the pair. *)
Example fetch_and_save_run :
  match fetch_and_save (toy_fetch 6) utc_timestamp_ms 2 O no_files
          ["BTC/USDT"%string] "1m"
          (Some 1) 86400003000 with
  | Ok (Some (fs', manifest, _)) =>
      (option_map index (fs' "BTC/crypto_BTC_USDT_1m.csv"%string),
       sv_total_symbols manifest, sv_total_rows manifest)
  | _ => (None, 0, 0)
  end = (Some [3; 4; 5], 1, 3).
Proof. vm_compute. reflexivity. Qed.

Lemma dict_set_fresh {V : Type} (d : Dict.t V) (k : string) (v : V) :
  ~ In k (map fst d) -> Dict.set d k v = d ++ [(k, v)].
Proof.
  induction d as [|[k0 v0] d IH]; simpl; intros H; [reflexivity|].
  destruct (String.eqb_spec k k0) as [->|_]; [exfalso; apply H; now left|].
  f_equal. apply IH. intros Hin. apply H. now right.
Qed.

Lemma sum_saved_rows_snoc (d : Dict.t SavedSymbol) (k : string) (e : SavedSymbol) :
  sum_saved_rows (d ++ [(k, e)]) = sum_saved_rows d + ss_rows e.
Proof.
  unfold sum_saved_rows. induction d as [|kv d IH]; simpl; [lia|].
  rewrite IH. lia.
Qed.

Lemma save_items_totals (timeframe : string) (items : Dict.t DataFrame) :
  forall fs manifest fs' manifest',
    NoDup (map fst items) ->
    (forall k, In k (map fst (sv_symbols manifest)) -> ~ In k (map fst items)) ->
    sv_total_symbols manifest = Z.of_nat (List.length (sv_symbols manifest)) ->
    sv_total_rows manifest = sum_saved_rows (sv_symbols manifest) ->
    save_items items timeframe fs manifest = Ok (fs', manifest') ->
    sv_total_symbols manifest' = Z.of_nat (List.length (sv_symbols manifest')) /\
    sv_total_rows manifest' = sum_saved_rows (sv_symbols manifest') /\
    (forall k, In k (map fst (sv_symbols manifest')) ->
       In k (map fst (sv_symbols manifest)) \/ In k (map fst items)).
Proof.
  induction items as [|[sym df] items IH];
    intros fs manifest fs' manifest' Hnd Hfresh Hn Hrows H.
  - inversion H; subst. repeat split; auto.
  - simpl in Hnd. apply NoDup_cons_iff in Hnd as [Hnot Hnd].
    cbn [save_items] in H.
    destruct (save_symbol sym timeframe (fs (save_csv_path sym timeframe)) df)
      as [w|e]; [|discriminate].
    unfold bind in H at 1.
    destruct w as [written|].
    + destruct (index_first (stored_rows (w_final written))) as [s|]; [|discriminate].
      destruct (index_last (stored_rows (w_final written))) as [l|]; [|discriminate].
      unfold bind in H.
      assert (Hset : Dict.set (sv_symbols manifest) sym
                       (mkSavedSymbol
                          (Z.of_nat (List.length (stored_rows (w_final written)))) s l) =
                     sv_symbols manifest ++
                     [(sym, mkSavedSymbol
                          (Z.of_nat (List.length (stored_rows (w_final written)))) s l)]).
      { apply dict_set_fresh. intros Hin. apply (Hfresh sym Hin). now left. }
      rewrite Hset in H.
      apply IH in H; try assumption; simpl.
      * destruct H as (H1 & H2 & H3). split; [exact H1|]. split; [exact H2|].
        intros k Hk. apply H3 in Hk as [Hk|Hk]; [|right; now right].
        simpl in Hk. rewrite map_app, in_app_iff in Hk.
        destruct Hk as [Hk|[<-|[]]]; [now left | right; now left].
      * intros k Hk Hin. rewrite map_app, in_app_iff in Hk.
        destruct Hk as [Hk|[<-|[]]]; [|contradiction].
        apply (Hfresh k Hk). now right.
      * rewrite length_app. simpl. lia.
      * rewrite sum_saved_rows_snoc. simpl. lia.
    + apply IH in H; try assumption.
      * destruct H as (H1 & H2 & H3). split; [exact H1|]. split; [exact H2|].
        intros k Hk. apply H3 in Hk as [Hk|Hk]; [now left | right; now right].
      * intros k Hk Hin. apply (Hfresh k Hk). now right.
Qed.

(** The totals of the dict [save_data] returns agree with its entries:
    [total_symbols] is their number, [total_rows] the sum of their rows,
    and every entry belongs to a symbol of [data_dict]. *)
Theorem save_data_totals (data_dict : Dict.t DataFrame) (timeframe : string)
  (fs fs' : Files) (manifest : SaveManifest) :
  NoDup (map fst data_dict) ->
  save_data data_dict timeframe fs = Ok (fs', manifest) ->
  sv_total_symbols manifest = Z.of_nat (List.length (sv_symbols manifest)) /\
  sv_total_rows manifest = sum_saved_rows (sv_symbols manifest) /\
  (forall k, In k (map fst (sv_symbols manifest)) -> In k (map fst data_dict)).
Proof.
  intros Hnd H. unfold save_data in H.
  apply save_items_totals in H; try assumption; try reflexivity.
  - destruct H as (H1 & H2 & H3). repeat split; try assumption.
    intros k Hk. destruct (H3 k Hk) as [[]|Hin]. exact Hin.
  - intros k [].
Qed.

Lemma save_data_totals_witness :
  match save_data [("BTC/USDT"%string, [(1, flat 10); (2, flat 20)]);
                   ("ETH/USDT"%string, []);
                   ("SOL/USDT"%string, [(1, flat 5)])] "1h" no_files with
  | Ok (_, manifest) =>
      sv_total_symbols manifest = Z.of_nat (List.length (sv_symbols manifest)) /\
      sv_total_rows manifest = sum_saved_rows (sv_symbols manifest) /\
      (forall k, In k (map fst (sv_symbols manifest)) ->
         In k ["BTC/USDT"; "ETH/USDT"; "SOL/USDT"]%string)
  | Raise _ => False
  end.
Proof.
  destruct (save_data [("BTC/USDT"%string, [(1, flat 10); (2, flat 20)]);
                       ("ETH/USDT"%string, []);
                       ("SOL/USDT"%string, [(1, flat 5)])] "1h" no_files)
    as [[fs' manifest]|e] eqn:E.
  - apply (save_data_totals
             [("BTC/USDT"%string, [(1, flat 10); (2, flat 20)]);
              ("ETH/USDT"%string, []);
              ("SOL/USDT"%string, [(1, flat 5)])] "1h" no_files fs' manifest);
      [|exact E].
    simpl. repeat constructor; simpl; intuition discriminate.
  - vm_compute in E. discriminate E.
Defined.

(** ** The bundle importer: reading a bundle *)

Lemma dropna_open_time_all (rows : list BundleRow) :
  Forall (fun r => open_time r <> None) rows ->
  dropna_open_time rows = map (fun r => (open_time_of r, r)) rows.
Proof.
  induction 1 as [|r rows Hr _ IH]; [reflexivity|].
  simpl. unfold open_time_of. destruct (open_time r); [|contradiction].
  now rewrite IH.
Qed.

Lemma index_by_datetime_all (u : time_unit) (rows : list (Z * BundleRow)) :
  Forall (fun vr => to_datetime u (fst vr) = Some (fst vr * ns_per u)) rows ->
  index_by_datetime u rows =
  map (fun vr => (fst vr * ns_per u, bundle_candle (snd vr))) rows.
Proof.
  induction 1 as [|[v r] rows Hr _ IH]; [reflexivity|].
  simpl in *. now rewrite Hr, IH.
Qed.

Lemma to_datetime_in_range (u : time_unit) (v : Z) :
  int64_min < v * ns_per u <= int64_max ->
  to_datetime u v = Some (v * ns_per u).
Proof.
  intros [Hlo Hhi]. unfold to_datetime.
  destruct (Z.ltb_spec int64_min (v * ns_per u)); [|lia].
  destruct (Z.leb_spec (v * ns_per u) int64_max); [reflexivity | lia].
Qed.

Lemma existsb_all_false {A : Type} (p : A -> bool) (l : list A) :
  (forall a, In a l -> p a = false) -> existsb p l = false.
Proof.
  induction l as [|a l IH]; intros H; [reflexivity|].
  simpl. rewrite (H a (or_introl eq_refl)), IH; [reflexivity|].
  intros b Hb. apply H. now right.
Qed.

Lemma existsb_head_true {A : Type} (p : A -> bool) (l : list A) :
  l <> [] -> (forall a, In a l -> p a = true) -> existsb p l = true.
Proof.
  destruct l as [|a l]; [contradiction|]. intros _ H.
  simpl. now rewrite (H a (or_introl eq_refl)).
Qed.

(** The unit detected on a column whose absolute values all lie in the
    band of one unit. *)
Lemma detect_unit_band (col : list Z) (u : time_unit) (lo hi : Z) :
  col <> [] ->
  Forall (fun v => lo < Z.abs v <= hi) col ->
  hi < 2 ^ 63 ->
  (u = Seconds /\ hi <= 10 ^ 11) \/
  (u = Milliseconds /\ 10 ^ 11 <= lo /\ hi <= 10 ^ 14) \/
  (u = Microseconds /\ 10 ^ 14 <= lo) ->
  detect_unit col = u.
Proof.
  intros Hne Hall Hhi Hband. rewrite Forall_forall in Hall.
  assert (Habs : forall v, In v col -> abs_int64 v = Z.abs v).
  { intros v Hv. apply abs_int64_exact. specialize (Hall v Hv).
    unfold int64_min, int64_max. lia. }
  unfold detect_unit. rewrite !max_open_time_gt by lia.
  destruct Hband as [[-> Hb]|[[-> [Hb1 Hb2]]|[-> Hb]]].
  - rewrite !existsb_all_false; [reflexivity| |];
      intros v Hv; rewrite (Habs v Hv); specialize (Hall v Hv);
      apply Z.ltb_ge; lia.
  - rewrite existsb_all_false, existsb_head_true; [reflexivity|assumption| |];
      intros v Hv; rewrite (Habs v Hv); specialize (Hall v Hv);
      [apply Z.ltb_lt | apply Z.ltb_ge]; lia.
  - rewrite existsb_head_true; [reflexivity|assumption|].
    intros v Hv. rewrite (Habs v Hv). specialize (Hall v Hv).
    apply Z.ltb_lt. lia.
Qed.

Lemma read_bundle_csv_band (path : string) (frame : list BundleRow)
  (frames : list (list BundleRow)) (u : time_unit) (lo hi : Z) :
  open_times_within lo hi (List.concat (frame :: frames)) ->
  hi * ns_per u <= int64_max ->
  0 <= hi ->
  (u = Seconds /\ hi <= 10 ^ 11) \/
  (u = Milliseconds /\ 10 ^ 11 <= lo /\ hi <= 10 ^ 14) \/
  (u = Microseconds /\ 10 ^ 14 <= lo) ->
  read_bundle_csv (mkBundle path (Some (frame :: frames))) =
  Ok (map (fun r => (open_time_of r * ns_per u, bundle_candle r))
          (List.concat (frame :: frames))).
Proof.
  intros Hall Hns Hhi0 Hband. unfold read_bundle_csv.
  cbn [bundle_frames]. set (rows := List.concat (frame :: frames)) in *.
  unfold open_times_within in Hall. rewrite Forall_forall in Hall.
  assert (Hu : 0 < ns_per u) by (destruct u; simpl; lia).
  assert (Hhi : hi < 2 ^ 63).
  { unfold int64_max in Hns. destruct u; simpl in Hns; lia. }
  rewrite dropna_open_time_all.
  2:{ apply Forall_forall. intros r Hr. destruct (Hall r Hr) as (v & -> & _).
      discriminate. }
  assert (Hfst : map fst (map (fun r => (open_time_of r, r)) rows) =
                 map open_time_of rows).
  { rewrite map_map. reflexivity. }
  rewrite Hfst.
  destruct rows as [|r0 rows'] eqn:Erows; [reflexivity|]. rewrite <- Erows in *.
  assert (Hcol : Forall (fun v => lo < Z.abs v <= hi) (map open_time_of rows)).
  { apply Forall_forall. intros v Hv. apply in_map_iff in Hv as (r & <- & Hr).
    destruct (Hall r Hr) as (v & Hv & Hrange). unfold open_time_of. now rewrite Hv. }
  rewrite (detect_unit_band (map open_time_of rows) u lo hi); try assumption.
  2:{ rewrite Erows. discriminate. }
  rewrite index_by_datetime_all; [now rewrite map_map|].
  apply Forall_forall. intros [v r] Hvr. cbn [fst].
  apply in_map_iff in Hvr as (r' & Heq & Hr'). inversion Heq; subst.
  apply to_datetime_in_range. rewrite Forall_forall in Hcol.
  specialize (Hcol (open_time_of r) (in_map open_time_of _ _ Hr')).
  unfold int64_min, int64_max in *. nia.
Qed.

(** A bundle whose open times are all seconds, all milliseconds or all
    microseconds of instants a [Timestamp] can hold is read without loss:
    one row for each line, in the order of the file, indexed by the
    instant in nanoseconds and carrying the line's five numbers. *)
Theorem read_bundle_csv_keeps_every_line (path : string)
  (frame : list BundleRow) (frames : list (list BundleRow)) :
  let rows := List.concat (frame :: frames) in
  let read := read_bundle_csv (mkBundle path (Some (frame :: frames))) in
  (open_times_within (-1) 9223372036 rows ->
   read = Ok (map (fun r => (open_time_of r * 1000000000, bundle_candle r)) rows)) /\
  (open_times_within (10 ^ 11) 9223372036854 rows ->
   read = Ok (map (fun r => (open_time_of r * 1000000, bundle_candle r)) rows)) /\
  (open_times_within (10 ^ 14) 9223372036854775 rows ->
   read = Ok (map (fun r => (open_time_of r * 1000, bundle_candle r)) rows)).
Proof.
  intros rows read. repeat split; intros H.
  - apply (read_bundle_csv_band path frame frames Seconds (-1) 9223372036 H);
      [simpl; unfold int64_max; lia | lia | left; split; [reflexivity | lia]].
  - apply (read_bundle_csv_band path frame frames Milliseconds (10 ^ 11)
             9223372036854 H);
      [simpl; unfold int64_max; lia | lia
      | right; left; split; [reflexivity | lia]].
  - apply (read_bundle_csv_band path frame frames Microseconds (10 ^ 14)
             9223372036854775 H);
      [simpl; unfold int64_max; lia | lia
      | right; right; split; [reflexivity | lia]].
Qed.

Lemma read_bundle_csv_keeps_every_line_witness :
  read_bundle_csv
    (mkBundle "BTCUSDT-1m-2024-02-01.zip" (Some [minute_rows 1706745600000 3])) =
  Ok (map (fun r => (open_time_of r * 1000000, bundle_candle r))
          (List.concat [minute_rows 1706745600000 3])).
Proof.
  destruct (read_bundle_csv_keeps_every_line "BTCUSDT-1m-2024-02-01.zip"
              (minute_rows 1706745600000 3) []) as (_ & Hms & _).
  apply Hms. unfold open_times_within.
  repeat constructor; eexists; (split; [reflexivity | simpl; lia]).
Defined.

(** ** The bundle importer: months from file names *)

Section FileNameFacts.

Local Open Scope string_scope.

Lemma digit_not_dash (a : ascii) :
  Py.is_digit a = true -> Ascii.eqb a "-" = false.
Proof.
  destruct a as [[] [] [] [] [] [] [] []]; vm_compute; intros H;
    try reflexivity; discriminate H.
Qed.

Lemma digit_not_slash (a : ascii) :
  Py.is_digit a = true -> Ascii.eqb a "/" = false.
Proof.
  destruct a as [[] [] [] [] [] [] [] []]; vm_compute; intros H;
    try reflexivity; discriminate H.
Qed.

Lemma substring_nothing (s : string) : substring 0 0 s = "".
Proof. now destruct s. Qed.

(** A text that starts with a year, a dash and a month. *)
Lemma date_here_shape (s : string) :
  PathName.date_here s = true ->
  exists a b c d f g rest,
    s = String a (String b (String c (String d (String "-" (String f (String g rest)))))) /\
    Py.is_digit a = true /\ Py.is_digit b = true /\ Py.is_digit c = true /\
    Py.is_digit d = true /\ Py.is_digit f = true /\ Py.is_digit g = true.
Proof.
  destruct s as [|a [|b [|c [|d [|e [|f [|g rest]]]]]]]; try discriminate.
  unfold PathName.date_here. intros H.
  do 6 (apply andb_prop in H as [H ?]).
  match goal with He : Ascii.eqb e "-" = true |- _ => apply Ascii.eqb_eq in He; subst e end.
  exists a, b, c, d, f, g, rest. repeat split; assumption.
Qed.

Lemma month_search_found (s m : string) :
  PathName.month_search s = Some m ->
  exists pre rest,
    s = pre ++ rest /\ PathName.date_here rest = true /\ m = substring 0 7 rest.
Proof.
  induction s as [|a s IH].
  - simpl. discriminate.
  - intros H.
    change (PathName.month_search (String a s))
      with (if PathName.date_here (String a s) then Some (substring 0 7 (String a s))
            else PathName.month_search s) in H.
    destruct (PathName.date_here (String a s)) eqn:E.
    + inversion H. exists "", (String a s). now repeat split.
    + destruct (IH H) as (pre & rest & -> & Hd & Hm).
      exists (String a pre), rest. now repeat split.
Qed.

(** The month key of a file name is a year, a dash and a month, as they
    stand in the name; the year the roll-up files it under is its first
    four characters. *)
Theorem month_from_filename_shape (path m : string) :
  month_from_filename path = Some m ->
  String.length m = 7%nat /\
  PathName.date_here m = true /\
  Py.split_head "-" m = substring 0 4 m /\
  String.length (Py.split_head "-" m) = 4%nat /\
  exists pre post, PathName.name path = pre ++ m ++ post.
Proof.
  unfold month_from_filename. intros H.
  apply month_search_found in H as (pre & rest & Hname & Hd & ->).
  pose proof Hd as Hd'.
  apply date_here_shape in Hd'
    as (a & b & c & d & f & g & post & -> & Ha & Hb & Hc & Hdd & Hf & Hg).
  simpl substring. rewrite substring_nothing.
  assert (Hyear : Py.split_head "-"
            (String a (String b (String c (String d (String "-" (String f (String g ""))))))) =
            String a (String b (String c (String d "")))).
  { cbn [Py.split_head].
    rewrite (digit_not_dash a Ha), (digit_not_dash b Hb),
      (digit_not_dash c Hc), (digit_not_dash d Hdd), Ascii.eqb_refl.
    reflexivity. }
  split; [reflexivity|]. split.
  { unfold PathName.date_here. rewrite Ha, Hb, Hc, Hdd, Hf, Hg, Ascii.eqb_refl.
    reflexivity. }
  split; [exact Hyear|]. split; [now rewrite Hyear|].
  exists pre, post. rewrite Hname. reflexivity.
Qed.

Lemma month_from_filename_shape_witness :
  String.length "2024-01" = 7%nat /\
  PathName.date_here "2024-01" = true /\
  Py.split_head "-" "2024-01" = substring 0 4 "2024-01" /\
  String.length (Py.split_head "-" "2024-01") = 4%nat /\
  exists pre post,
    PathName.name "bundles/1m/BTCUSDT-1m-2024-01-15.zip" = pre ++ "2024-01" ++ post.
Proof.
  apply (month_from_filename_shape "bundles/1m/BTCUSDT-1m-2024-01-15.zip" "2024-01").
  reflexivity.
Defined.

Lemma name_acc_no_slash (acc s : string) :
  PyStr.contains_char "/" s = false -> PathName.name_acc acc s = acc.
Proof.
  revert acc. induction s as [|a s IH]; intros acc H; [reflexivity|].
  simpl in *. apply orb_false_elim in H as [Ha Hs]. rewrite Ha. now apply IH.
Qed.

Lemma name_acc_after_slash (acc dir file : string) :
  PyStr.contains_char "/" file = false ->
  PathName.name_acc acc (dir ++ String "/" file) = file.
Proof.
  intros Hfile. revert acc. induction dir as [|a dir IH]; intros acc.
  - simpl. now apply name_acc_no_slash.
  - simpl. destruct (Ascii.eqb a "/"); apply IH.
Qed.

Lemma name_of_file_in_dir (dir file : string) :
  PyStr.contains_char "/" file = false ->
  PathName.name (dir ++ String "/" file) = file.
Proof. apply name_acc_after_slash. Qed.

(** The search passes over a prefix in which no dash follows four digits
    and finds the date that comes after it. *)
Lemma month_search_after_prefix (pre s : string) :
  no_year_dash pre = true ->
  PathName.date_here s = true ->
  PathName.month_search (pre ++ s) = Some (substring 0 7 s).
Proof.
  intros Hpre Hs.
  pose proof Hs as Hshape.
  apply date_here_shape in Hshape
    as (a & b & c & d & f & g & post & -> & Ha & Hb & Hc & Hd & Hf & Hg).
  induction pre as [|p pre IH].
  - simpl append.
    change (PathName.month_search ?t)
      with (if PathName.date_here t then Some (substring 0 7 t) else
              match t with
              | EmptyString => None
              | String _ rest => PathName.month_search rest
              end) at 1.
    now rewrite Hs.
  - simpl in Hpre. apply andb_prop in Hpre as [Hhead Hpre].
    specialize (IH Hpre).
    change (PathName.month_search (String p pre ++ ?t))
      with (if PathName.date_here (String p (pre ++ t))
            then Some (substring 0 7 (String p (pre ++ t)))
            else PathName.month_search (pre ++ t)).
    assert (Hno : PathName.date_here
                    (String p (pre ++ String a (String b (String c (String d
                       (String "-" (String f (String g post)))))))) = false).
    { destruct pre as [|q1 [|q2 [|q3 [|q4 pre']]]]; simpl.
      - rewrite (digit_not_dash d Hd). now rewrite !andb_false_r.
      - rewrite (digit_not_dash c Hc). now rewrite !andb_false_r.
      - rewrite (digit_not_dash b Hb). now rewrite !andb_false_r.
      - rewrite (digit_not_dash a Ha). now rewrite !andb_false_r.
      - simpl in Hhead. apply negb_true_iff in Hhead.
        destruct pre' as [|q5 [|q6 pre'']]; simpl;
          try (rewrite Hhead; reflexivity);
          destruct (Py.is_digit p && Py.is_digit q1 && Py.is_digit q2
                    && Py.is_digit q3 && Ascii.eqb q4 "-"); try discriminate;
          reflexivity. }
    rewrite Hno. exact IH.
Qed.

(** Round trip with the downloader: the month of a bundle it named,
    monthly or daily, wherever it was put, is the year and month of its
    date, provided no dash in the symbol and timeframe part of the name
    follows four digits. *)
Theorem month_of_downloaded_bundle (bundle_dir sym timeframe : string)
  (monthly : bool) (y1 y2 y3 y4 m1 m2 : ascii) (day : string) :
  let year_month :=
    String y1 (String y2 (String y3 (String y4 (String "-" (String m1 (String m2 "")))))) in
  Py.is_digit y1 = true -> Py.is_digit y2 = true -> Py.is_digit y3 = true ->
  Py.is_digit y4 = true -> Py.is_digit m1 = true -> Py.is_digit m2 = true ->
  PyStr.contains_char "/" sym = false ->
  PyStr.contains_char "/" timeframe = false ->
  PyStr.contains_char "/" day = false ->
  no_year_dash (sym ++ "-" ++ timeframe ++ "-") = true ->
  month_from_filename
    (bundle_dest bundle_dir timeframe monthly sym (year_month ++ day)) =
  Some year_month.
Proof.
  intros year_month H1 H2 H3 H4 H5 H6 Hsym Htf Hday Hpre.
  unfold month_from_filename, bundle_dest.
  set (folder := if monthly then "monthly_" ++ timeframe else timeframe).
  assert (Hfile : PyStr.contains_char "/"
                     (bundle_filename sym timeframe (year_month ++ day)) = false).
  { unfold bundle_filename, year_month.
    rewrite !contains_char_app, Hsym, Htf, Hday. cbn [PyStr.contains_char].
    rewrite (digit_not_slash y1 H1), (digit_not_slash y2 H2),
      (digit_not_slash y3 H3), (digit_not_slash y4 H4),
      (digit_not_slash m1 H5), (digit_not_slash m2 H6).
    reflexivity. }
  assert (Hname : PathName.name
            (bundle_dir ++ "/" ++ folder ++ "/" ++
             bundle_filename sym timeframe (year_month ++ day)) =
            bundle_filename sym timeframe (year_month ++ day)).
  { replace (bundle_dir ++ "/" ++ folder ++ "/" ++
             bundle_filename sym timeframe (year_month ++ day))
      with ((bundle_dir ++ String "/" folder) ++
            String "/" (bundle_filename sym timeframe (year_month ++ day)))
      by (rewrite append_assoc; reflexivity).
    now apply name_of_file_in_dir. }
  rewrite Hname. unfold bundle_filename.
  replace (sym ++ "-" ++ timeframe ++ "-" ++ (year_month ++ day) ++ ".zip")
    with ((sym ++ "-" ++ timeframe ++ "-") ++ (year_month ++ day ++ ".zip")).
  - rewrite month_search_after_prefix; [| exact Hpre |].
    + unfold year_month. simpl substring. now rewrite substring_nothing.
    + unfold year_month. simpl. now rewrite H1, H2, H3, H4, H5, H6.
  - rewrite !append_assoc. reflexivity.
Qed.

Lemma month_of_downloaded_bundle_witness :
  month_from_filename (bundle_dest "bundles" "1m" false "BTCUSDT" ("2024-01" ++ "-15"))
  = Some "2024-01".
Proof.
  apply (month_of_downloaded_bundle "bundles" "BTCUSDT" "1m" false
           "2" "0" "2" "4" "0" "1" "-15"); reflexivity.
Defined.

(** Where a dash does follow four digits before the date, the month is
    read off the wrong place. *)
Example month_from_filename_misled :
  month_from_filename (bundle_dest "bundles" "15m" true "ABC2024" "2024-01")
  = Some "2024-15".
Proof. reflexivity. Qed.

End FileNameFacts.

(** ** The importer: months, partitions and reports *)

Section ImportFacts.

Lemma dict_get_set {V : Type} (d : Dict.t V) (k : string) (v : V) (k' : string) :
  Dict.get (Dict.set d k v) k' =
  if String.eqb k' k then Some v else Dict.get d k'.
Proof.
  induction d as [|[k0 v0] d IH]; simpl; [reflexivity|].
  destruct (String.eqb_spec k k0) as [->|Hne]; simpl.
  - destruct (String.eqb k' k0); reflexivity.
  - rewrite IH. destruct (String.eqb_spec k' k0) as [->|_]; [|reflexivity].
    destruct (String.eqb_spec k0 k) as [Heq|_]; [|reflexivity].
    now subst.
Qed.

Lemma dict_get_update {V : Type} (d : Dict.t V) (k : string) (default : V)
  (f : V -> V) (k' : string) :
  Dict.get (Dict.update d k default f) k' =
  if String.eqb k' k
  then Some (f (match Dict.get d k with Some v => v | None => default end))
  else Dict.get d k'.
Proof. unfold Dict.update. destruct (Dict.get d k); apply dict_get_set. Qed.

Lemma dict_update_NoDup {V : Type} (d : Dict.t V) (k : string) (default : V)
  (f : V -> V) :
  NoDup (map fst d) -> NoDup (map fst (Dict.update d k default f)).
Proof. unfold Dict.update. destruct (Dict.get d k); apply dict_set_NoDup. Qed.

Lemma dict_get_Some_In {V : Type} (d : Dict.t V) (k : string) (v : V) :
  Dict.get d k = Some v -> In (k, v) d.
Proof.
  induction d as [|[k0 v0] d IH]; simpl; [discriminate|].
  destruct (String.eqb_spec k k0) as [->|_].
  - intros H. inversion H. now left.
  - intros H. right. now apply IH.
Qed.

Lemma dict_get_absent {V : Type} (d : Dict.t V) (k : string) :
  ~ In k (map fst d) -> Dict.get d k = None.
Proof.
  induction d as [|[k0 v0] d IH]; simpl; [reflexivity|].
  intros Hnot. destruct (String.eqb_spec k k0) as [->|_].
  - exfalso. apply Hnot. now left.
  - apply IH. intros H. apply Hnot. now right.
Qed.

Lemma dict_In_get {V : Type} (d : Dict.t V) (k : string) (v : V) :
  NoDup (map fst d) -> In (k, v) d -> Dict.get d k = Some v.
Proof.
  induction d as [|[k0 v0] d IH]; simpl; intros Hnd Hin; [contradiction|].
  apply NoDup_cons_iff in Hnd as [Hnot Hnd].
  destruct Hin as [Heq|Hin].
  - inversion Heq; subst. now rewrite String.eqb_refl.
  - destruct (String.eqb_spec k k0) as [->|_]; [|now apply IH].
    exfalso. apply Hnot. apply (in_map fst) in Hin. exact Hin.
Qed.

(** With distinct keys, a lookup does not depend on the order of the
    entries. *)
Lemma dict_get_perm {V : Type} (d d' : Dict.t V) (k : string) :
  NoDup (map fst d) -> Permutation d d' -> Dict.get d' k = Dict.get d k.
Proof.
  intros Hnd Hp.
  assert (Hnd' : NoDup (map fst d')).
  { eapply Permutation_NoDup; [apply Permutation_map; exact Hp | exact Hnd]. }
  destruct (Dict.get d k) as [v|] eqn:G.
  - apply dict_In_get; [exact Hnd'|].
    eapply Permutation_in; [exact Hp|]. now apply dict_get_Some_In.
  - destruct (Dict.get d' k) as [v'|] eqn:G'; [|reflexivity].
    apply dict_get_Some_In in G'.
    apply Permutation_sym in Hp. eapply Permutation_in in G'; [|exact Hp].
    apply dict_In_get in G'; [congruence | exact Hnd].
Qed.

Lemma insert_item_perm {V : Type} (kv : string * V) (l : Dict.t V) :
  Permutation (kv :: l) (Dict.insert_item kv l).
Proof.
  induction l as [|kv' l IH]; simpl; [apply Permutation_refl|].
  destruct (String.leb (fst kv) (fst kv')); [apply Permutation_refl|].
  eapply perm_trans; [apply perm_swap|]. now apply perm_skip.
Qed.

Lemma sorted_items_perm {V : Type} (d : Dict.t V) :
  Permutation d (Dict.sorted_items d).
Proof.
  unfold Dict.sorted_items. induction d as [|kv d IH]; simpl; [constructor|].
  eapply perm_trans; [apply perm_skip; exact IH | apply insert_item_perm].
Qed.

(** The months dict after the grouping loop, entry by entry. *)
Lemma group_by_month_get (files : list Bundle) :
  forall (months : Dict.t (list Bundle)) (mon : string),
  Dict.get (group_by_month files months) mon =
  match Dict.get months mon, filter (in_month mon) files with
  | None, [] => None
  | None, fps => Some fps
  | Some old, fps => Some (old ++ fps)
  end.
Proof.
  induction files as [|f files IH]; intros months mon.
  - simpl. destruct (Dict.get months mon); [now rewrite app_nil_r | reflexivity].
  - cbn [group_by_month filter].
    destruct (month_from_filename (bundle_path f)) as [m|] eqn:M.
    + assert (Hin : in_month mon f = String.eqb m mon).
      { unfold in_month. now rewrite M. }
      rewrite Hin, IH, dict_get_update.
      destruct (String.eqb_spec m mon) as [->|Hne].
      * rewrite String.eqb_refl.
        destruct (Dict.get months mon) as [old|].
        -- now rewrite <- app_assoc.
        -- reflexivity.
      * destruct (String.eqb_spec mon m) as [Heq|_]; [now subst|].
        reflexivity.
    + assert (Hin : in_month mon f = false).
      { unfold in_month. now rewrite M. }
      rewrite Hin. apply IH.
Qed.

Lemma group_by_month_NoDup (files : list Bundle) :
  forall months : Dict.t (list Bundle),
  NoDup (map fst months) -> NoDup (map fst (group_by_month files months)).
Proof.
  induction files as [|f files IH]; intros months Hnd; [exact Hnd|].
  simpl. destruct (month_from_filename (bundle_path f)).
  - apply IH. now apply dict_update_NoDup.
  - now apply IH.
Qed.

Lemma month_combined_again (existing df : DataFrame) :
  month_combined (month_combined existing df) df = month_combined existing df.
Proof.
  apply strictly_increasing_ext; try apply month_combined_increasing.
  intros t. rewrite !rows_at_month_combined.
  destruct (rows_at t df) as [|r rest].
  - rewrite !app_nil_r. apply final_row_idem.
  - now rewrite !final_row_app by discriminate.
Qed.

Variable sha256_of_df_csv_bytes : DataFrame -> string.

(** The months loop, month by month, when the months are distinct. *)
Lemma import_months_partitions (months : Dict.t (list Bundle)) :
  forall (ps : Partitions) (infos : Dict.t MonthInfo) (mon : string),
  NoDup (map fst months) ->
  fst (import_months sha256_of_df_csv_bytes months ps false infos) mon =
  month_partition_after months ps mon.
Proof.
  induction months as [|[m fps] rest IH]; intros ps infos mon Hnd;
    [reflexivity|].
  simpl map in Hnd. apply NoDup_cons_iff in Hnd as [Hnot Hnd].
  cbn [import_months]. unfold month_partition_after. cbn [Dict.get].
  destruct (month_frame m fps) as [[df src]|] eqn:F.
  - unfold write_month_partition. cbn [negb]. cbv iota beta zeta.
    rewrite IH by exact Hnd. unfold month_partition_after, partition_set.
    destruct (String.eqb_spec mon m) as [->|Hne].
    + rewrite F, (dict_get_absent rest m Hnot). unfold stored_rows.
      now destruct (ps m).
    + reflexivity.
  - rewrite IH by exact Hnd. unfold month_partition_after.
    destruct (String.eqb_spec mon m) as [->|Hne]; [|reflexivity].
    now rewrite F, (dict_get_absent rest m Hnot).
Qed.

Lemma import_symbol_month (files : list Bundle) (ps : Partitions) (mon : string) :
  fst (fst (import_symbol sha256_of_df_csv_bytes files ps false)) mon =
  month_partition_after (group_by_month files []) ps mon.
Proof.
  assert (Hnd : NoDup (map fst (group_by_month files []))).
  { apply group_by_month_NoDup. constructor. }
  unfold import_symbol.
  destruct (import_months sha256_of_df_csv_bytes
              (Dict.sorted_items (group_by_month files [])) ps false [])
    as [ps' infos] eqn:E.
  cbn [fst].
  change ps' with (fst (ps', infos)). rewrite <- E.
  rewrite import_months_partitions.
  - unfold month_partition_after.
    now rewrite (dict_get_perm (group_by_month files []) _ mon Hnd
                   (sorted_items_perm _)).
  - eapply Permutation_NoDup; [|exact Hnd].
    apply Permutation_map, sorted_items_perm.
Qed.

Lemma import_months_dry_run (months : Dict.t (list Bundle)) :
  forall (ps : Partitions) (infos : Dict.t MonthInfo) (mon : string),
  fst (import_months sha256_of_df_csv_bytes months ps true infos) mon = ps mon.
Proof.
  induction months as [|[m fps] rest IH]; intros ps infos mon; [reflexivity|].
  cbn [import_months].
  destruct (month_frame m fps) as [[df src]|]; [|apply IH].
  unfold write_month_partition. cbn [negb]. cbv iota beta zeta.
  rewrite IH. unfold partition_set.
  now destruct (String.eqb_spec mon m) as [->|_].
Qed.

Lemma fold_min_bounds (l : list Z) :
  forall a : Z,
  In (fold_left Z.min l a) (a :: l) /\
  forall t, In t (a :: l) -> fold_left Z.min l a <= t.
Proof.
  induction l as [|x l IH]; intros a; simpl.
  - split; [now left | intros t [->|[]]; lia].
  - destruct (IH (Z.min a x)) as [Hin Hle]. split.
    + destruct Hin as [Heq|Hin]; [|right; now right].
      rewrite <- Heq. destruct (Z.min_spec a x) as [[_ ->]|[_ ->]];
        [now left | right; now left].
    + intros t [->|[->|Ht]].
      * specialize (Hle (Z.min t x) (or_introl eq_refl)). lia.
      * specialize (Hle (Z.min a t) (or_introl eq_refl)). lia.
      * apply Hle. now right.
Qed.

Lemma fold_max_bounds (l : list Z) :
  forall a : Z,
  In (fold_left Z.max l a) (a :: l) /\
  forall t, In t (a :: l) -> t <= fold_left Z.max l a.
Proof.
  induction l as [|x l IH]; intros a; simpl.
  - split; [now left | intros t [->|[]]; lia].
  - destruct (IH (Z.max a x)) as [Hin Hle]. split.
    + destruct Hin as [Heq|Hin]; [|right; now right].
      rewrite <- Heq. destruct (Z.max_spec a x) as [[_ ->]|[_ ->]];
        [right; now left | now left].
    + intros t [->|[->|Ht]].
      * specialize (Hle (Z.max t x) (or_introl eq_refl)). lia.
      * specialize (Hle (Z.max a t) (or_introl eq_refl)). lia.
      * apply Hle. now right.
Qed.

(** The grouping loop routes every bundle to the month its name gives:
    the entry of a month is the list of the files with that month, in the
    order they came; a month none of the files names has no entry, files
    whose name has no date are in no entry, and no month has two
    entries. *)
Theorem group_by_month_routes (files : list Bundle) (mon : string) :
  Dict.get (group_by_month files []) mon =
    match filter (in_month mon) files with
    | [] => None
    | fps => Some fps
    end /\
  NoDup (map fst (group_by_month files [])).
Proof.
  split.
  - now rewrite group_by_month_get.
  - apply group_by_month_NoDup. constructor.
Qed.

(** An import that is not a dry run merges each month exactly once: the
    partition of a month is the frame of the files named for that month
    merged into what was stored, and the partition of a month without a
    readable file is left as it was. *)
Theorem import_merges_each_month_once (files : list Bundle) (ps : Partitions)
  (mon : string) :
  fst (fst (import_symbol sha256_of_df_csv_bytes files ps false)) mon =
  match month_frame mon (filter (in_month mon) files) with
  | Some (df, _) => Some (month_combined (stored_rows (ps mon)) df)
  | None => ps mon
  end.
Proof.
  rewrite import_symbol_month. unfold month_partition_after.
  rewrite group_by_month_get. cbn [Dict.get].
  destruct (filter (in_month mon) files) as [|f fps]; reflexivity.
Qed.

(** Importing the same bundles a second time leaves every partition as
    the first import left it. *)
Theorem import_again_changes_nothing (files : list Bundle) (ps : Partitions)
  (mon : string) :
  fst (fst (import_symbol sha256_of_df_csv_bytes files
              (fst (fst (import_symbol sha256_of_df_csv_bytes files ps false)))
              false)) mon =
  fst (fst (import_symbol sha256_of_df_csv_bytes files ps false)) mon.
Proof.
  rewrite (import_symbol_month files
             (fst (fst (import_symbol sha256_of_df_csv_bytes files ps false)))).
  unfold month_partition_after at 1.
  rewrite (import_symbol_month files ps mon).
  unfold month_partition_after.
  destruct (Dict.get (group_by_month files []) mon) as [fps|]; [|reflexivity].
  destruct (month_frame mon fps) as [[df src]|]; [|reflexivity].
  cbn [stored_rows]. now rewrite month_combined_again.
Qed.

(** A dry run leaves every stored partition as it was and makes no yearly
    roll-up. *)
Theorem import_dry_run_writes_nothing (files : list Bundle) (ps : Partitions) :
  (forall mon,
     fst (fst (import_symbol sha256_of_df_csv_bytes files ps true)) mon = ps mon) /\
  snd (import_symbol sha256_of_df_csv_bytes files ps true) = [].
Proof.
  unfold import_symbol.
  destruct (import_months sha256_of_df_csv_bytes
              (Dict.sorted_items (group_by_month files [])) ps true [])
    as [ps' infos] eqn:E.
  cbn [fst snd]. split.
  - intros mon. change ps' with (fst (ps', infos)). rewrite <- E.
    apply import_months_dry_run.
  - unfold yearly_manifests. now destruct infos.
Qed.

(** What [write_month_partition] reports when it writes: the partition it
    stored is in strict time order, [rows] is its number of rows, and
    [start_date] and [end_date] are timestamps of it that bound all the
    others; for an empty partition both dates and the digest are null. *)
Theorem month_report_describes_partition (file : option DataFrame)
  (df : DataFrame) (source : string) :
  let '(info, stored, _) :=
    write_month_partition sha256_of_df_csv_bytes file df source false in
  exists combined,
    stored = Some combined /\
    strictly_increasing combined /\
    mi_rows info = Z.of_nat (List.length combined) /\
    (combined = [] ->
       mi_start_date info = None /\ mi_end_date info = None /\
       mi_sha256 info = None) /\
    (forall t, In t (index combined) ->
       exists s e,
         mi_start_date info = Some s /\ mi_end_date info = Some e /\
         In s (index combined) /\ In e (index combined) /\ s <= t <= e).
Proof.
  unfold write_month_partition. cbn [negb]. cbv iota beta zeta.
  set (combined := month_combined _ df).
  exists combined. split; [reflexivity|]. split.
  { apply month_combined_increasing. }
  split; [reflexivity|]. split.
  - intros ->. repeat split.
  - cbn [mi_start_date mi_end_date]. unfold index_min, index_max.
    intros t Ht. destruct (index combined) as [|a l]; [contradiction|].
    destruct (fold_min_bounds l a) as [Hmin_in Hmin].
    destruct (fold_max_bounds l a) as [Hmax_in Hmax].
    exists (fold_left Z.min l a), (fold_left Z.max l a).
    repeat split; auto.
Qed.

End ImportFacts.
